(** * codefolder2pdf: the size-constrained partitioning engine

    A shallow embedding of the two partitioning algorithms of the
    repository and of the code around them that decides how many
    artifacts a job yields and how they are named:

    - [code_collector.py]: the greedy packers [_split_category_files]
      and [_generate_split_pdfs], the per-category driver
      [_generate_split_pdfs_with_categories], the dispatch in
      [generate_pdf] and the budget parsing of [upload_async]; the
      directory walk [collect_code_files]; the progress and download
      side of the web application ([add_progress_update],
      [save_logs_to_file], [progress_stream], [download_file]), the
      delivery decision of [process_project_async_worker] and the
      directory scan of [scan_zip];
    - [pdf_splitter.py]: the page-range refiner [split_pdf] and the
      command-line entry [main].

    Conventions of the model.
    - A Python [str] is a [string]; one character stands for one code
      point, so [String.length] is Python's [len].
    - Python integers are [Z] (estimates) or [nat] (counters, page
      indices); Python floats that hold budgets and megabyte sizes are
      rationals [Q].  Every finite float is a rational, and the only
      float operations the code performs on them are multiplication and
      division by 2^20 and comparisons against integers, which are
      exact on rationals.
    - The file system, the renderer and the PDF reader are collaborators
      outside the repository and enter as parameters: [open_read] reads
      a source file, [paragraph] tells whether [Paragraph] accepts a
      text as markup, [doc_build] whether [doc.build] returns for a
      part, [os_rename] whether [os.rename] returns, and [file_bytes]
      is the byte size of a written page range.  A call that raises
      where no handler catches it gives the outcome [Raised].
    - [pack_bins], with [category_bins] and [flat_bins], is the packing
      loop on the runs in which every heading is built;
      [_split_category_files] and [_generate_split_pdfs] are the
      functions with their handlers, for any behaviour of the
      collaborators.
    - [generate_split_documents] is modelled for the dictionary of
      categories that [collect_code_files] returns.
    - [while] loops take a fuel argument and return [None] when it runs
      out; the theorems show how much fuel always suffices.
    - A directory is a [Tree]: the file names [os.walk] lists for it and
      its subdirectories by name.  The module-level state of the web
      application (log history, progress queue, download registry, task
      id) is a record passed explicitly; the clock and the outcome of
      writing a file are arguments. *)

From Stdlib Require Import List ZArith QArith Bool Arith Lia.
From Stdlib Require Import Strings.String Strings.Ascii Numbers.DecimalString.
From Stdlib Require Import Sorting.Sorted Sorting.Permutation.
Import ListNotations.

(* ================================================================== *)
(** ** Python string operations used by the code *)
(* ================================================================== *)

Module PyStr.

Local Open Scope string_scope.

(** [str(n)] for a non-negative integer. *)
Definition str_of_nat (n : nat) : string :=
  NilEmpty.string_of_uint (Nat.to_uint n).

(** [t in s]: [t] occurs in [s] as a substring. *)
Fixpoint str_in (t s : string) : bool :=
  String.prefix t s ||
  match s with
  | EmptyString => false
  | String _ s' => str_in t s'
  end.

(** [s.replace(old, new)] for a non-empty [old]: the occurrences of
    [old] are replaced from left to right, without overlap.  [skip]
    counts the characters of a matched occurrence still to be dropped. *)
Fixpoint replace_from (old new : string) (skip : nat) (s : string) : string :=
  match s with
  | EmptyString => EmptyString
  | String c s' =>
      match skip with
      | S k => replace_from old new k s'
      | O =>
          if String.prefix old s
          then new ++ replace_from old new (String.length old - 1) s'
          else String c (replace_from old new 0 s')
      end
  end.

Definition str_replace (s old new : string) : string :=
  replace_from old new 0 s.

(** [s.rfind(c)] for a single character: the index of the last
    occurrence, or -1. *)
Fixpoint rfind_from (c : ascii) (s : string) (i last : Z) : Z :=
  match s with
  | EmptyString => last
  | String a s' =>
      rfind_from c s' (i + 1)%Z (if Ascii.eqb a c then i else last)
  end.

Definition rfind (s : string) (c : ascii) : Z := rfind_from c s 0%Z (-1)%Z.

(** [s[i:j]] for [0 <= i]. *)
Definition slice (s : string) (i j : Z) : string :=
  String.substring (Z.to_nat i) (Z.to_nat (j - i)) s.

Fixpoint all_dots (s : string) : bool :=
  match s with
  | EmptyString => true
  | String a s' => Ascii.eqb a "."%char && all_dots s'
  end.

(** [os.path.splitext] on a POSIX path: split at the last dot of the
    last path component, unless that component starts with dots only up
    to it. *)
Definition splitext (p : string) : string * string :=
  let sepIndex := rfind p "/"%char in
  let dotIndex := rfind p "."%char in
  let n := Z.of_nat (String.length p) in
  if (sepIndex <? dotIndex)%Z && negb (all_dots (slice p (sepIndex + 1) dotIndex))
  then (slice p 0 dotIndex, slice p dotIndex n)
  else (p, EmptyString).

(** [s.startswith(p)] *)
Definition startswith (s p : string) : bool := String.prefix p s.

(** [s.endswith(suffix)]: [suffix] is one of the tails of [s]. *)
Fixpoint endswith (s suffix : string) : bool :=
  String.eqb s suffix ||
  match s with
  | EmptyString => false
  | String _ s' => endswith s' suffix
  end.

(** [s.split(sep)] for a one-character separator: the pieces between
    the separators, empty pieces included. *)
Fixpoint split_on (sep : ascii) (s : string) : list string :=
  match s with
  | EmptyString => [EmptyString]
  | String c s' =>
      let pieces := split_on sep s' in
      if Ascii.eqb c sep then EmptyString :: pieces
      else match pieces with
           | piece :: others => String c piece :: others
           | [] => [String c EmptyString]
           end
  end.

(** The backslash, and the one-character strings of the two separators. *)
Definition backslash : string := String (ascii_of_nat 92) EmptyString.
Definition slash : string := "/".

(** [c.lower()] for the code points below 256: the letters A-Z and the
    Latin-1 capitals (192-222, the multiplication sign 215 apart) move
    up by 32. *)
Definition lower_char (c : ascii) : ascii :=
  let n := nat_of_ascii c in
  if ((65 <=? n) && (n <=? 90))%nat
     || ((192 <=? n) && (n <=? 222) && negb (n =? 215))%nat
  then ascii_of_nat (n + 32)
  else c.

(** [s.lower()] *)
Fixpoint lower (s : string) : string :=
  match s with
  | EmptyString => EmptyString
  | String c s' => String (lower_char c) (lower s')
  end.

(** [os.path.join(a, b)] on POSIX paths. *)
Definition path_join (a b : string) : string :=
  if String.prefix "/" b then b
  else if String.eqb a EmptyString || endswith a "/" then a ++ b
  else a ++ "/" ++ b.

End PyStr.

(* ================================================================== *)
(** ** code_collector.py *)
(* ================================================================== *)

(* ================================================================== *)
(** ** Calls that may raise *)
(* ================================================================== *)

Module PyExc.

(** What a call gives back: the value it returns, or nothing when an
    exception leaves it. *)
Inductive Outcome (A : Type) : Type :=
| Returned (value : A)
| Raised.

Arguments Returned {A} value.
Arguments Raised {A}.

(** Running [k] on what [o] returned; an exception that left [o] goes
    on to the caller. *)
Definition bind {A B : Type} (o : Outcome A) (k : A -> Outcome B) : Outcome B :=
  match o with
  | Returned value => k value
  | Raised => Raised
  end.

End PyExc.

Module Collector.

Import PyStr PyExc.
Local Open Scope string_scope.

(** A unit of the packer: the pair [(relative_path, filepath)] of the
    [files] list. *)
Definition SourceFile : Type := (string * string)%type.

(** What [open(filepath, 'r', ...).read()] does. *)
Inductive ReadOutcome : Type :=
| ReadOk (content : string)
| ReadUnicodeDecodeError
| ReadException (msg : string).

(** The content the packers work with: the file's text, or the sentinel
    of the handler that caught the failure. *)
Definition content_of (r : ReadOutcome) : string :=
  match r with
  | ReadOk content => content
  | ReadUnicodeDecodeError =>
      "[Binary file or encoding error - content not displayed]"
  | ReadException msg => "[Error reading file: " ++ msg ++ "]"
  end.

(** [estimated_size = 1 * 1024 * 1024]: the seed of every part. *)
Definition HEADER_SEED : Z := 1 * 1024 * 1024.

Definition MIN_FILE_CONTRIBUTION : Z := 30 * 1024.

(** [_split_category_files]:
    [max(len(content) * 2 + 5000, MIN_FILE_CONTRIBUTION)]. *)
Definition file_contribution (content : string) : Z :=
  Z.max (Z.of_nat (String.length content) * 2 + 5000) MIN_FILE_CONTRIBUTION.

(** [_generate_split_pdfs]: [len(content) * 2 + 5000]. *)
Definition file_contribution_flat (content : string) : Z :=
  Z.of_nat (String.length content) * 2 + 5000.

(** [size > max_size_bytes], an integer against a float. *)
Definition exceeds (size : Z) (max_size_bytes : Q) : bool :=
  negb (Qle_bool (inject_Z size) max_size_bytes).

(** A closed part: what is handed to [doc.build]. *)
Record Bin : Type := mkBin {
  bin_part : nat;
  bin_output : string;
  bin_files : list SourceFile;
  bin_estimate : Z
}.

(** The variables of the packing loop.  [current_files] are the units
    whose [KeepTogether] group sits in [current_elements] after the
    header elements and the part heading, so
    [len(current_elements) > len(header_elements) + 1] reads
    [0 < length current_files]; so does the test
    [len(current_elements) > len(header_elements) + 2] of
    [_generate_split_pdfs], which puts two headings before the units.
    This is the state of a run in which the handler of the loop body
    has appended no warning; [LoopState] below adds what such a
    warning changes. *)
Record PackState : Type := mkPackState {
  output_bins : list Bin;
  current_part : nat;
  current_files : list SourceFile;
  estimated_size : Z
}.

(** The units of a list of parts, in part order. *)
Definition units_of (bins : list Bin) : list SourceFile :=
  List.concat (map bin_files bins).

Section GreedyLoop.

(** The two packers run the same loop; they differ in the estimate of
    a unit and in how a part is named. *)
Variable contribution : SourceFile -> Z.
Variable part_output : nat -> string.
Variable max_size_bytes : Q.

Definition close_bin (st : PackState) : Bin :=
  {| bin_part := current_part st;
     bin_output := part_output (current_part st);
     bin_files := current_files st;
     bin_estimate := estimated_size st |}.

Definition has_content (st : PackState) : bool :=
  (0 <? List.length (current_files st))%nat.

(** One iteration of [for i, (relative_path, filepath) in enumerate(files)]
    when the heading of the unit is built: the body of the [try] block
    from the estimate to [estimated_size += file_contribution].  The
    iteration with its handler is [turn] below. *)
Definition add_file (st : PackState) (f : SourceFile) : PackState :=
  let c := contribution f in
  let st1 :=
    if exceeds (estimated_size st + c) max_size_bytes && has_content st
    then {| output_bins := output_bins st ++ [close_bin st];
            current_part := S (current_part st);
            current_files := [];
            estimated_size := HEADER_SEED |}
    else st in
  {| output_bins := output_bins st1;
     current_part := current_part st1;
     current_files := current_files st1 ++ [f];
     estimated_size := (estimated_size st1 + c)%Z |}.

Definition initial_state : PackState :=
  {| output_bins := [];
     current_part := 1;
     current_files := [];
     estimated_size := HEADER_SEED |}.

(** The part built after the loop, when it holds a unit. *)
Definition finish (st : PackState) : list Bin :=
  if has_content st then output_bins st ++ [close_bin st]
  else output_bins st.

Definition pack_bins (files : list SourceFile) : list Bin :=
  finish (fold_left add_file files initial_state).

(** The recorded estimate a part should carry: the seed plus the
    contributions of its units. *)
Definition sum_contributions (files : list SourceFile) : Z :=
  fold_right (fun f acc => (contribution f + acc)%Z) 0%Z files.

(** A part is well accounted when its estimate is the seed plus the
    contributions of its units, and within budget when it holds two
    units or more. *)
Definition accounted (files : list SourceFile) (estimate : Z) : Prop :=
  estimate = (HEADER_SEED + sum_contributions files)%Z /\
  ((1 < List.length files)%nat -> (inject_Z estimate <= max_size_bytes)%Q).

Definition bin_ok (b : Bin) : Prop := accounted (bin_files b) (bin_estimate b).

Definition state_ok (st : PackState) : Prop :=
  Forall bin_ok (output_bins st) /\
  accounted (current_files st) (estimated_size st).

End GreedyLoop.

(** No part, closed or open, holds more than one unit. *)
Definition singles (st : PackState) : Prop :=
  Forall (fun b => List.length (bin_files b) = 1%nat) (output_bins st) /\
  (List.length (current_files st) <= 1)%nat /\
  (HEADER_SEED <= estimated_size st)%Z.

(** Two states of the loop, [s] under a smaller budget and [l] under a
    larger one: the run under the larger budget is never behind, it has closed
    fewer parts, or as many with an open part that is not fuller. *)
Definition ahead (s l : PackState) : Prop :=
  has_content s = has_content l /\
  (HEADER_SEED <= estimated_size s)%Z /\
  ((List.length (output_bins l) < List.length (output_bins s))%nat \/
   (List.length (output_bins l) = List.length (output_bins s) /\
    (estimated_size l <= estimated_size s)%Z)).

(** Parts are numbered from 1 without gaps, each is named after its
    number, and the open part carries the next number. *)
Definition numbered (part_output : nat -> string) (st : PackState) : Prop :=
  map bin_part (output_bins st) = seq 1 (List.length (output_bins st)) /\
  Forall (fun b => bin_output b = part_output (bin_part b)) (output_bins st) /\
  current_part st = S (List.length (output_bins st)).




(** *** The loop with its handler *)

(** The variables of the loop that [PackState] leaves out: the number of
    warnings the handler has appended to [current_elements], which count
    as content of the open part, and [output_files], the paths of the
    parts whose [doc.build] returned.  In [pack], [output_bins] holds
    every part handed to [doc.build], built or not. *)
Record LoopState : Type := mkLoopState {
  pack : PackState;
  warnings : nat;
  output_files : list string
}.

(** How one iteration ends: the loop goes on, or an exception raised in
    the handler leaves the function. *)
Inductive Turn : Type :=
| Goes_on (st : LoopState)
| Leaves (st : LoopState).

Section GuardedLoop.

Variable contribution : SourceFile -> Z.
Variable part_output : nat -> string.
Variable max_size_bytes : Q.
(** The text of the paragraph the handler appends, made of the unit and
    of [str(e)]. *)
Variable warning_text : SourceFile -> string -> string.
(** [Paragraph(text, style)]: [None] when the paragraph is built,
    [Some msg] when parsing [text] as markup raises an exception [e]
    with [str(e) = msg]. *)
Variable paragraph : string -> option string.
(** [doc.build(current_elements)] for a part: whether it returns. *)
Variable doc_build : Bin -> bool.

(** [len(current_elements) > len(header_elements) + 1] (or [+ 2]). *)
Definition has_elements (st : LoopState) : bool :=
  has_content (pack st) || (0 <? warnings st)%nat.

(** The open part is handed to [doc.build], its path is appended to
    [output_files] when the build returns, and the next part starts. *)
Definition build_part (st : LoopState) : LoopState :=
  let b := close_bin part_output (pack st) in
  {| pack := {| output_bins := output_bins (pack st) ++ [b];
                current_part := S (current_part (pack st));
                current_files := [];
                estimated_size := HEADER_SEED |};
     warnings := 0;
     output_files := if doc_build b then output_files st ++ [bin_output b]
                     else output_files st |}.

(** One iteration of the loop.  The part is closed, when the unit does
    not fit, before the heading [Paragraph(relative_path, ...)] is
    made.  When the heading raises, the unit is not added and the
    handler appends a warning paragraph; when that raises in turn, the
    exception leaves the function.  The heading is the one call of the
    body taken to raise: reading has handlers of its own, and the part
    headings, [Preformatted] and [KeepTogether] are taken to return. *)
Definition turn (st : LoopState) (f : SourceFile) : Turn :=
  let c := contribution f in
  let st1 :=
    if exceeds (estimated_size (pack st) + c) max_size_bytes && has_elements st
    then build_part st
    else st in
  match paragraph (fst f) with
  | None =>
      Goes_on {| pack := {| output_bins := output_bins (pack st1);
                            current_part := current_part (pack st1);
                            current_files := current_files (pack st1) ++ [f];
                            estimated_size := (estimated_size (pack st1) + c)%Z |};
                 warnings := warnings st1;
                 output_files := output_files st1 |}
  | Some msg =>
      match paragraph (warning_text f msg) with
      | None => Goes_on {| pack := pack st1;
                           warnings := S (warnings st1);
                           output_files := output_files st1 |}
      | Some _ => Leaves st1
      end
  end.

Fixpoint run_loop (st : LoopState) (files : list SourceFile) : Turn :=
  match files with
  | [] => Goes_on st
  | f :: rest =>
      match turn st f with
      | Goes_on st' => run_loop st' rest
      | Leaves st' => Leaves st'
      end
  end.

Definition loop_start : LoopState :=
  {| pack := initial_state; warnings := 0; output_files := [] |}.

(** The part built after the loop, when it has elements of its own. *)
Definition build_last_part (st : LoopState) : LoopState :=
  if has_elements st then build_part st else st.

(** The parts a run has handed to [doc.build]. *)
Definition parts_handed (t : Turn) : list Bin :=
  match t with
  | Goes_on st => output_bins (pack (build_last_part st))
  | Leaves st => output_bins (pack st)
  end.

End GuardedLoop.

(** The heading of the unit is built. *)
Definition heading_built (paragraph : string -> option string)
    (f : SourceFile) : bool :=
  match paragraph (fst f) with
  | None => true
  | Some _ => false
  end.

(** No heading of the list raises. *)
Definition headings_built (paragraph : string -> option string)
    (files : list SourceFile) : Prop :=
  forall f, In f files -> paragraph (fst f) = None.

Definition every_part_builds (doc_build : Bin -> bool) : Prop :=
  forall b, doc_build b = true.



(** The units a run has put into parts so far, closed or open. *)
Definition all_units (st : LoopState) : list SourceFile :=
  units_of (output_bins (pack st)) ++ current_files (pack st).

(** [output_files] holds the paths of the closed parts whose build
    returned, in order. *)
Definition files_follow_parts (doc_build : Bin -> bool) (st : LoopState) : Prop :=
  output_files st = map bin_output (filter doc_build (output_bins (pack st))).

(** The parts closed so far, and the open one when it has elements. *)
Definition parts_in_progress (st : LoopState) : nat :=
  (List.length (output_bins (pack st))
   + (if has_elements st then 1 else 0))%nat.

Section Packers.

Variable open_read : string -> ReadOutcome.

Definition read_content (filepath : string) : string :=
  content_of (open_read filepath).

Definition unit_cost (f : SourceFile) : Z :=
  file_contribution (read_content (snd f)).

Definition unit_cost_flat (f : SourceFile) : Z :=
  file_contribution_flat (read_content (snd f)).

(** [base_output.replace('.pdf', f'_part{current_part}.pdf')] *)
Definition category_part_output (base_output : string) (part : nat) : string :=
  str_replace base_output ".pdf" ("_part" ++ str_of_nat part ++ ".pdf").

(** The bins of [_split_category_files]: the parts it hands to
    [doc.build] when every heading is built. *)
Definition category_bins (base_output : string) (files : list SourceFile)
    (max_size_bytes : Q) : list Bin :=
  pack_bins unit_cost (category_part_output base_output) max_size_bytes files.

(** What [_split_category_files] returns when every heading and every
    part is built and the lone part is renamed. *)
Definition clean_category_files (base_output : string)
    (files : list SourceFile) (max_size_bytes : Q) : list string :=
  match files with
  | [] => []
  | _ =>
      let output_files :=
        map bin_output (category_bins base_output files max_size_bytes) in
      match output_files with
      | [only] => if str_in "_part1.pdf" only then [base_output] else output_files
      | _ => output_files
      end
  end.

(** [f"{base_name}_part{current_part}{ext}"] *)
Definition flat_part_output (output_path : string) (part : nat) : string :=
  let (base_name, ext) := splitext output_path in
  base_name ++ "_part" ++ str_of_nat part ++ ext.

Definition flat_bins (output_path : string) (code_files : list SourceFile)
    (max_pdf_size_mb : Q) : list Bin :=
  pack_bins unit_cost_flat (flat_part_output output_path)
    (max_pdf_size_mb * 1024 * 1024)%Q code_files.

Record CodeFiles : Type := mkCodeFiles {
  regular : list SourceFile;
  ios : list SourceFile;
  android : list SourceFile
}.

(** [f"{base_name}_regular{format_indicator}{ext}"] and its siblings. *)
Definition category_pdf (output_path category : string)
    (machine_format : bool) : string :=
  let (base_name, ext) := splitext output_path in
  base_name ++ "_" ++ category
    ++ (if machine_format then "_machine" else "") ++ ext.

(** [generate_single_document] builds one document at [output_path]
    and returns that path, whether [doc.build] returned or raised.  The
    run in which the handler of a unit raises in turn is left out. *)
Definition generate_single_document (output_path : string)
    (code_files : CodeFiles) : string :=
  output_path.

(** [generate_pdf] returns a path or a list of paths. *)
Inductive Generated : Type :=
| OnePath (output_path : string)
| PathList (output_files : list string).

Definition artifacts (g : Generated) : list string :=
  match g with
  | OnePath p => [p]
  | PathList l => l
  end.

(** What the call [generate_pdf(...)] gives its caller. *)
Inductive Generation : Type :=
| GenerationRaised
| GenerationReturned (output_files : Generated).

(** The collaborators of the packers besides [open]: the markup parser
    behind [Paragraph], [doc.build] and [os.rename]. *)
Variable paragraph : string -> option string.
Variable doc_build : Bin -> bool.
Variable os_rename : string -> string -> bool.

(** [f"Error processing file {relative_path}: {str(e)}"] *)
Definition category_warning (f : SourceFile) (msg : string) : string :=
  "Error processing file " ++ fst f ++ ": " ++ msg.

(** [f"Error processing file: {str(e)}"] *)
Definition flat_warning (_ : SourceFile) (msg : string) : string :=
  "Error processing file: " ++ msg.

(** The end of [_split_category_files]: a lone output file whose name
    has ["_part1.pdf"] is renamed to [base_output]; when [os.rename]
    raises, the handler leaves the list as it is. *)
Definition rename_single_part (base_output : string)
    (output_files : list string) : list string :=
  match output_files with
  | [only] =>
      if str_in "_part1.pdf" only && os_rename only base_output
      then [base_output]
      else output_files
  | _ => output_files
  end.

Definition _split_category_files (base_output : string)
    (files : list SourceFile) (max_size_bytes : Q) : Outcome (list string) :=
  match files with
  | [] => Returned []
  | _ =>
      match run_loop unit_cost (category_part_output base_output)
              max_size_bytes category_warning paragraph doc_build
              loop_start files with
      | Leaves _ => Raised
      | Goes_on st =>
          Returned
            (rename_single_part base_output
               (output_files
                  (build_last_part (category_part_output base_output)
                     doc_build st)))
      end
  end.

(** The parts [_split_category_files] hands to [doc.build], whether it
    returns or raises. *)
Definition category_parts (base_output : string)
    (files : list SourceFile) (max_size_bytes : Q) : list Bin :=
  parts_handed (category_part_output base_output) doc_build
    (run_loop unit_cost (category_part_output base_output)
       max_size_bytes category_warning paragraph doc_build loop_start files).

(** The end of [_generate_split_pdfs]: a lone output file is renamed to
    [output_path], whatever its name. *)
Definition rename_single_file (output_path : string)
    (output_files : list string) : list string :=
  match output_files with
  | [only] => if os_rename only output_path then [output_path] else output_files
  | _ => output_files
  end.

Definition _generate_split_pdfs (output_path : string)
    (code_files : list SourceFile) (max_pdf_size_mb : Q)
    : Outcome (list string) :=
  match run_loop unit_cost_flat (flat_part_output output_path)
          (max_pdf_size_mb * 1024 * 1024)%Q flat_warning paragraph doc_build
          loop_start code_files with
  | Leaves _ => Raised
  | Goes_on st =>
      Returned
        (rename_single_file output_path
           (output_files
              (build_last_part (flat_part_output output_path) doc_build st)))
  end.

(** The parts [_generate_split_pdfs] hands to [doc.build]. *)
Definition flat_parts (output_path : string)
    (code_files : list SourceFile) (max_pdf_size_mb : Q) : list Bin :=
  parts_handed (flat_part_output output_path) doc_build
    (run_loop unit_cost_flat (flat_part_output output_path)
       (max_pdf_size_mb * 1024 * 1024)%Q flat_warning paragraph doc_build
       loop_start code_files).

(** [if regular_files: ... output_files.extend(regular_pdfs)] and its
    two siblings. *)
Definition split_category (output_path category : string)
    (files : list SourceFile) (max_size_bytes : Q)
    (machine_format : bool) : Outcome (list string) :=
  match files with
  | [] => Returned []
  | _ => _split_category_files
           (category_pdf output_path category machine_format)
           files max_size_bytes
  end.

Definition _generate_split_pdfs_with_categories (output_path : string)
    (regular_files ios_files android_files : list SourceFile)
    (max_pdf_size_mb : Q) (machine_format : bool) : Outcome (list string) :=
  let max_size_bytes := (max_pdf_size_mb * 1048576)%Q in
  bind (split_category output_path "regular" regular_files max_size_bytes
          machine_format)
    (fun regular_pdfs =>
  bind (split_category output_path "ios" ios_files max_size_bytes
          machine_format)
    (fun ios_pdfs =>
  bind (split_category output_path "android" android_files max_size_bytes
          machine_format)
    (fun android_pdfs =>
  Returned (regular_pdfs ++ ios_pdfs ++ android_pdfs)%list))).

(** The branch of [generate_split_documents] for a dictionary of
    categories, which is what [collect_code_files] returns. *)
Definition generate_split_documents (output_path : string)
    (code_files : CodeFiles) (max_pdf_size_mb : Q)
    (machine_format : bool) : Outcome (list string) :=
  _generate_split_pdfs_with_categories output_path
    (regular code_files) (ios code_files) (android code_files)
    max_pdf_size_mb machine_format.

(** What [generate_pdf] passes on from [generate_split_documents]. *)
Definition generation_of (o : Outcome (list string)) : Generation :=
  match o with
  | Returned output_files => GenerationReturned (PathList output_files)
  | Raised => GenerationRaised
  end.

(** [generate_pdf] from the test of the budget on; the header elements
    built before it are taken to be built. *)
Definition generate_pdf (output_path : string) (code_files : CodeFiles)
    (max_pdf_size_mb : option Q) (machine_format : bool) : Generation :=
  match max_pdf_size_mb with
  | None =>
      GenerationReturned
        (OnePath (generate_single_document output_path code_files))
  | Some mb =>
      if Qle_bool mb 0
      then GenerationReturned
             (OnePath (generate_single_document output_path code_files))
      else generation_of
             (generate_split_documents output_path code_files mb
                machine_format)
  end.

End Packers.

(** [float(request.form.get('max_pdf_size', '0'))]: a finite number or
    a [ValueError]; the strings [float] reads as nan or as an infinity
    are left out. *)
Inductive FloatParse : Type :=
| Parsed (x : Q)
| ValueError.

(** The budget [upload_async] hands to the worker: [split_pdf_on] is
    [request.form.get('split_pdf', 'off') == 'on']. *)
Definition upload_max_pdf_size_mb (split_pdf_on : bool)
    (max_pdf_size : FloatParse) : option Q :=
  if split_pdf_on then
    match max_pdf_size with
    | Parsed x => if Qle_bool x 0 then Some (39 # 100) else Some x
    | ValueError => Some (39 # 100)
    end
  else Some (39 # 100).

(** *** [collect_code_files] *)

Definition CODE_EXTENSIONS : list string :=
  [".py"; ".java"; ".js"; ".jsx"; ".ts"; ".tsx"; ".html"; ".css"; ".scss"; ".sass";
   ".c"; ".cpp"; ".cs"; ".h"; ".hpp"; ".go"; ".rs"; ".rb"; ".php"; ".swift";
   ".scala"; ".groovy"; ".pl"; ".sh"; ".bat"; ".ps1"; ".sql"; ".r";
   ".dart"; ".lua"; ".clj"; ".ex"; ".exs"; ".erl"; ".fs"; ".f90"; ".ml";
   ".hs"; ".json"; ".xml"; ".yaml"; ".yml"; ".toml"; ".ini"; ".md"; ".jsx";
   ".vue"; ".svelte"; ".elm"].

Definition EXCLUDED_FILE_EXTENSIONS : list string :=
  [".kt"; ".kts"; ".jar"; ".properties";
   ".pbxproj"; ".xcconfig"; ".xcworkspacedata"; ".xcscheme";
   ".plist"; ".jks"; ".keystore"; ".apk"; ".ipa";
   ".so"; ".a"; ".dylib"; ".framework";
   ".class"; ".dex"; ".o"; ".d";
   ".iml"; ".gradle"; ".lock"; ".bin"].

(** The list as Python reads it: where the source has no comma between
    two literals they are one string, so ['gradle' 'Images.xcassets']
    is ["gradleImages.xcassets"] and ['logs' 'node_modules'] is
    ["logsnode_modules"]. *)
Definition COMMON_EXCLUDED_DIRS : list string :=
  [".git"; "node_modules"; "__pycache__"; "venv"; "env"; ".venv"; ".env";
   "dist"; "build"; "obj"; "bin";
   "__MACOSX"; ".trash"; ".expo"; ".gradle"; "gradleImages.xcassets";
   "android/app/src"; "Local Podspecs";
   "libs"; "jniLibs"; "intermediates"; "generated"; "outputs"; "tmp"; "temp";
   "captures";
   "release"; "debug"; "caches"; "xcuserdata"; "xcshareddata"; "DerivedData";
   "Classes"; "Frameworks"; "Headers"; "PrivateHeaders"; "buildSrc"; "log";
   "logsnode_modules";
   ".next"; "vendor"; "bower_components"; ".nuxt"; ".cache"; "coverage";
   "public/build"; "public/dist"].

Definition EXCLUDED_FILES : list string :=
  ["package-lock.json"; "yarn.lock"; "pnpm-lock.yaml"; "composer.lock";
   "Gemfile.lock"; "poetry.lock"; "Cargo.lock"; "go.sum"; ".DS_Store";
   "thumbs.db"; "ehthumbs.db"; "desktop.ini"; ".gitkeep"; ".gitattributes";
   ".gitignore"; ".npmignore"; ".env.local"; ".env.development"; ".env.test";
   ".env.production"; ".eslintcache"; ".eslintignore"; "tsconfig.tsbuildinfo";
   "junit.xml"; "coverage.xml"; ".coverage"; "coverage-final.json";
   "debug.log"; "npm-debug.log"; "yarn-debug.log"; "yarn-error.log";
   "pnpm-debug.log"; "report.*.json"; "stats.json"; "gradlew.bat";
   "AppDelegate.h"; "Podfile.properties.json"].

Definition ios_patterns : list string :=
  ["ios/"; ".xcodeproj/"; ".xcworkspace/"; ".pbxproj"; ".storyboard"; ".xib";
   ".swift"; "Images.xcassets/"; ".h"].

Definition android_patterns : list string :=
  ["android/"; "gradle/"; ".gradle"; ".xml"; "AndroidManifest.xml";
   ".properties"].

(** [x in l] for a list of strings. *)
Definition in_list (x : string) (l : list string) : bool :=
  existsb (String.eqb x) l.

(** A directory tree as [os.walk] lists it: the file names of a
    directory, and its subdirectories by name. *)
Inductive Tree : Type :=
| Node (filenames : list string) (dirs : Forest)
with Forest : Type :=
| NoDirs
| Dir (dirname : string) (content : Tree) (others : Forest).

(** Induction over a tree together with its forests. *)
Scheme Tree_mut := Induction for Tree Sort Prop
  with Forest_mut := Induction for Forest Sort Prop.

Inductive Category : Type := Regular | IOS | Android.

(** [os.path.relpath] of an entry [name] of the directory whose own
    relative path is [rel]; the root's is ["."]. *)
Definition rel_join (rel name : string) : string :=
  if String.eqb rel "." then name else rel ++ "/" ++ name.

Section Collect.

Variable code_extensions : list string.
Variable excluded_dirs : list string.
Variable excluded_extensions : list string.
Variable excluded_files : list string.

(** The test that sets [skip_dir] for one entry of [excluded_dirs]. *)
Definition excludes (dirpath dir_relative_path excluded : string) : bool :=
  in_list excluded (split_on "/" dirpath)
  || str_in ("/" ++ excluded ++ "/") ("/" ++ dir_relative_path ++ "/")
  || String.eqb dir_relative_path excluded
  || startswith dir_relative_path (excluded ++ "/").

Definition skip_dir (dirpath dir_relative_path : string) : bool :=
  existsb (excludes dirpath dir_relative_path) excluded_dirs.

(** The tests a file name passes before it is counted or collected. *)
Definition keep_file (filename : string) : bool :=
  negb (startswith filename "._")
  && negb (in_list filename excluded_files)
  && negb (existsb (endswith filename) excluded_extensions)
  && existsb (endswith filename) code_extensions.

Definition categorize (relative_path : string) : Category :=
  let p := str_replace relative_path backslash slash in
  if existsb (fun pattern => str_in pattern p) ios_patterns then IOS
  else if existsb (fun pattern => str_in pattern p) android_patterns then Android
  else Regular.

(** The first walk: [total_files]. *)
Fixpoint count_tree (dirpath rel : string) (t : Tree) : nat :=
  match t with
  | Node filenames dirs =>
      if skip_dir dirpath rel then 0%nat
      else (List.length (filter keep_file filenames)
            + count_forest dirpath rel dirs)%nat
  end
with count_forest (dirpath rel : string) (f : Forest) : nat :=
  match f with
  | NoDirs => 0%nat
  | Dir d t others =>
      ((if in_list d excluded_dirs then 0%nat
        else count_tree (path_join dirpath d) (rel_join rel d) t)
       + count_forest dirpath rel others)%nat
  end.

(** The second walk: the pairs [(relative_path, filepath)] in the order
    they are met, top-down. *)
Fixpoint walk_tree (dirpath rel : string) (t : Tree) : list SourceFile :=
  match t with
  | Node filenames dirs =>
      if skip_dir dirpath rel then []
      else map (fun filename => (rel_join rel filename, path_join dirpath filename))
               (filter keep_file filenames)
           ++ walk_forest dirpath rel dirs
  end
with walk_forest (dirpath rel : string) (f : Forest) : list SourceFile :=
  match f with
  | NoDirs => []
  | Dir d t others =>
      (if in_list d excluded_dirs then []
       else walk_tree (path_join dirpath d) (rel_join rel d) t)
      ++ walk_forest dirpath rel others
  end.

(** [l.sort(key=lambda x: x[0].lower())]: a stable sort, here by
    insertion; an entry goes before the entries of the same key that
    came after it. *)
Definition path_key (f : SourceFile) : string := lower (fst f).

Fixpoint insert_by_path (f : SourceFile) (l : list SourceFile) : list SourceFile :=
  match l with
  | [] => [f]
  | g :: l' =>
      if String.leb (path_key f) (path_key g) then f :: g :: l'
      else g :: insert_by_path f l'
  end.

Definition sort_by_path (l : list SourceFile) : list SourceFile :=
  fold_right insert_by_path [] l.

Definition has_category (c : Category) (f : SourceFile) : bool :=
  match categorize (fst f), c with
  | Regular, Regular | IOS, IOS | Android, Android => true
  | _, _ => false
  end.

(** [collect_code_files(root_path, ...)] over the tree found at
    [root_path]; [with_callback] tells whether a [progress_callback] was
    given, which is when the counting walk runs. *)
Definition collect_code_files (root_path : string) (tree : Tree)
    (with_callback : bool) : CodeFiles :=
  if with_callback && (count_tree root_path "." tree =? 0)%nat
  then {| regular := []; ios := []; android := [] |}
  else
    let found := walk_tree root_path "." tree in
    {| regular := sort_by_path (filter (has_category Regular) found);
       ios := sort_by_path (filter (has_category IOS) found);
       android := sort_by_path (filter (has_category Android) found) |}.

End Collect.

(** The path pieces of a relative path: its directories, then the file
    name. *)
Fixpoint rel_of (pieces : list string) : string :=
  match pieces with
  | [] => "."
  | [name] => name
  | d :: rest => d ++ "/" ++ rel_of rest
  end.

(** The order of the final sort: by lower-cased relative path. *)
Definition path_le (f g : SourceFile) : Prop :=
  String.leb (path_key f) (path_key g) = true.

(** No directory of the tree is called ["."], as in any listing. *)
Fixpoint dirs_are_named (t : Tree) : Prop :=
  match t with
  | Node _ dirs => forest_is_named dirs
  end
with forest_is_named (f : Forest) : Prop :=
  match f with
  | NoDirs => True
  | Dir d t others => d <> "." /\ dirs_are_named t /\ forest_is_named others
  end.

(** What is known of a directory met on the walk, given by its pieces
    below the root: none is ["."], none bears an excluded name. *)
Definition reached_dirs (excluded_dirs dirs : list string) : Prop :=
  Forall (fun d => d <> ".") dirs /\ Forall (fun d => ~ In d excluded_dirs) dirs.

(** The file [f] was met through directories without excluded names and
    passed the file tests. *)
Definition comes_from_allowed_places
    (code_extensions excluded_dirs excluded_extensions excluded_files
       : list string)
    (root_path : string) (f : SourceFile) : Prop :=
  exists dirs name,
    fst f = rel_of (dirs ++ [name])%list /\
    snd f = fold_left path_join (dirs ++ [name])%list root_path /\
    Forall (fun d => ~ In d excluded_dirs) dirs /\
    keep_file code_extensions excluded_extensions excluded_files name = true.

End Collector.

(* ================================================================== *)
(** ** pdf_splitter.py *)
(* ================================================================== *)

Module Splitter.

Import PyStr PyExc.
Local Open Scope string_scope.

(** A produced part: its file and the page range [start_page, end_page)
    written to it. *)
Record Part : Type := mkPart {
  part_number : nat;
  part_output : string;
  part_start : nat;
  part_end : nat
}.

Section Refiner.

(** [os.path.getsize(temp_output)] once the pages
    [start_page .. end_page - 1] have been written to it. *)
Variable file_bytes : nat -> nat -> Z.
Variable total_pages : nat.
Variable max_size_mb : Q.
Variable output_prefix : string.

Definition get_pdf_size (start_page end_page : nat) : Q :=
  (inject_Z (file_bytes start_page end_page) / (1024 * 1024))%Q.

Definition Qlt_bool (x y : Q) : bool := negb (Qle_bool y x).

(** [while temp_size < max_size_mb and end_page < total_pages]:
    returns the final [end_page] and the number of iterations. *)
Fixpoint grow (fuel start_page end_page : nat) : option (nat * nat) :=
  match fuel with
  | O => None
  | S fuel' =>
      if Qlt_bool (get_pdf_size start_page end_page) max_size_mb
         && (end_page <? total_pages)%nat
      then
        match grow fuel' start_page (Nat.min (end_page + 5) total_pages) with
        | Some (e, k) => Some (e, S k)
        | None => None
        end
      else Some (end_page, 0%nat)
  end.

(** [while temp_size > max_size_mb and end_page > start_page + 5] *)
Fixpoint shrink (fuel start_page end_page : nat) : option (nat * nat) :=
  match fuel with
  | O => None
  | S fuel' =>
      if Qlt_bool max_size_mb (get_pdf_size start_page end_page)
         && (start_page + 5 <? end_page)%nat
      then
        match shrink fuel' start_page (end_page - 5) with
        | Some (e, k) => Some (e, S k)
        | None => None
        end
      else Some (end_page, 0%nat)
  end.

(** The body of the outer loop up to the rename: the settled
    [end_page] of the part starting at [start_page], and its number of
    grow and shrink iterations. *)
Definition settle (fuel start_page : nat) : option (nat * nat) :=
  match grow fuel start_page (Nat.min (start_page + 10) total_pages) with
  | None => None
  | Some (e1, k1) =>
      match shrink fuel start_page e1 with
      | None => None
      | Some (e2, k2) => Some (e2, (k1 + k2)%nat)
      end
  end.

(** [while start_page < total_pages]: the parts in the order they are
    appended to [output_files], and the total number of grow and
    shrink iterations. *)
Fixpoint split_loop (fuel start_page current_part : nat)
    : option (list Part * nat) :=
  match fuel with
  | O => None
  | S fuel' =>
      if (start_page <? total_pages)%nat then
        match settle fuel start_page with
        | None => None
        | Some (end_page, k) =>
            match split_loop fuel' end_page (S current_part) with
            | None => None
            | Some (parts, steps) =>
                Some ({| part_number := current_part;
                         part_output := output_prefix ++ "_part"
                                        ++ str_of_nat current_part ++ ".pdf";
                         part_start := start_page;
                         part_end := end_page |} :: parts,
                      (k + steps)%nat)
            end
        end
      else Some ([], 0%nat)
  end.

End Refiner.

(** The parts form a chain over the pages [first .. last - 1]: each part
    starts where the previous one ended, none is empty, the first starts
    at [first] and the last ends at [last]. *)
Fixpoint chained (first last : nat) (parts : list Part) : Prop :=
  match parts with
  | [] => first = last
  | p :: rest =>
      part_start p = first /\ (first < part_end p)%nat /\
      chained (part_end p) last rest
  end.

(** Page [page] (counted from 0) is written to part [p]. *)
Definition holds_page (p : Part) (page : nat) : Prop :=
  (part_start p <= page < part_end p)%nat.

(** Appending pages to a range never makes the written file smaller. *)
Definition grows_with_pages (file_bytes : nat -> nat -> Z) : Prop :=
  forall start_page end_page end_page' : nat,
    (end_page <= end_page')%nat ->
    (file_bytes start_page end_page <= file_bytes start_page end_page')%Z.

(** What [split_pdf] finds at [input_path].  Only [os.path.exists] and
    [PdfReader(input_path)] are guarded; every later call sits outside
    any handler: [len(reader.pages)], [reader.pages[i]],
    [open(temp_output, "wb")], [writer.write], [os.path.getsize] and
    [os.rename].  [Pdf] is a document on which all of them return;
    [Unhandled] is one on which [PdfReader] returns and one of them
    raises, so that the exception leaves [split_pdf]. *)
Inductive InputFile : Type :=
| NoSuchFile
| ReaderError
| Pdf (total_pages : nat) (file_bytes : nat -> nat -> Z)
| Unhandled.

Definition raises (input : InputFile) : bool :=
  match input with
  | Unhandled => true
  | _ => false
  end.

(** The number of pages of the input, 0 when it cannot be read. *)
Definition pages_of (input : InputFile) : nat :=
  match input with
  | Pdf total_pages _ => total_pages
  | _ => 0%nat
  end.

Definition default_prefix (input_path : string) : string :=
  fst (splitext input_path) ++ "_split".

Definition split_pdf (fuel : nat) (input : InputFile) (input_path : string)
    (max_size_mb : Q) (output_prefix : option string)
    : option (Outcome (list string)) :=
  match input with
  | NoSuchFile => Some (Returned [])
  | ReaderError => Some (Returned [])
  | Pdf total_pages file_bytes =>
      let prefix := match output_prefix with
                    | Some p => p
                    | None => default_prefix input_path
                    end in
      match split_loop file_bytes total_pages max_size_mb prefix fuel 0 1 with
      | Some (parts, _) => Some (Returned (map part_output parts))
      | None => None
      end
  | Unhandled => Some Raised
  end.

(** What [parser.parse_args()] makes of the command line: it ends the
    process with status 2 when it rejects the arguments and with status
    0 after printing the help text, and returns the three arguments
    otherwise. *)
Inductive CommandLine : Type :=
| Rejected
| Help
| Arguments (input_pdf : string) (max_size : Q) (output_prefix : option string).

(** A line [main] prints on the standard output. *)
Inductive Line : Type :=
| HelpText
| SplitComplete (generated : nat)
| OutputLine (output_file : string) (size_mb : Q)
| FailedToSplit.

(** How the process ends: what was printed, and the exit status. *)
Record Exit : Type := mkExit {
  printed : list Line;
  status : Z
}.

(** [main] returns normally: the interpreter exits with status 0. *)
Definition EXIT_SUCCESS : Z := 0.
(** An exception nobody caught: traceback, status 1. *)
Definition EXIT_UNCAUGHT : Z := 1.
(** [argparse] rejected the command line. *)
Definition EXIT_USAGE : Z := 2.

(** The loop that prints one line per output file: the lines printed,
    and whether the loop came to its end.  [output_bytes] is
    [os.path.getsize] of an output file, [None] when it raises. *)
Fixpoint summary (output_bytes : string -> option Z)
    (output_files : list string) : list Line * bool :=
  match output_files with
  | [] => ([], true)
  | output_file :: rest =>
      match output_bytes output_file with
      | None => ([], false)
      | Some bytes =>
          let (lines, finished) := summary output_bytes rest in
          (OutputLine output_file (inject_Z bytes / (1024 * 1024))%Q :: lines,
           finished)
      end
  end.

Definition main (fuel : nat) (command_line : CommandLine) (input : InputFile)
    (output_bytes : string -> option Z) : option Exit :=
  match command_line with
  | Rejected => Some {| printed := []; status := EXIT_USAGE |}
  | Help => Some {| printed := [HelpText]; status := EXIT_SUCCESS |}
  | Arguments input_pdf max_size output_prefix =>
      match split_pdf fuel input input_pdf max_size output_prefix with
      | None => None
      | Some Raised => Some {| printed := []; status := EXIT_UNCAUGHT |}
      | Some (Returned []) =>
          Some {| printed := [FailedToSplit]; status := EXIT_SUCCESS |}
      | Some (Returned output_files) =>
          let (lines, finished) := summary output_bytes output_files in
          Some {| printed := SplitComplete (List.length output_files) :: lines;
                  status := if finished then EXIT_SUCCESS else EXIT_UNCAUGHT |}
      end
  end.

End Splitter.


(* ================================================================== *)
(** ** code_collector.py: progress, delivery and download *)
(* ================================================================== *)

Module Web.

Import PyStr PyExc Collector.
Local Open Scope string_scope.

(** Truth value of an optional string argument: given and not empty. *)
Definition truthy (s : option string) : bool :=
  match s with
  | Some x => negb (String.eqb x "")
  | None => false
  end.

(** *** [app.download_files] and [download_file] *)

(** The attribute [app.download_files]: absent until first written, then
    a dictionary from keys to file paths. *)
Definition Registry : Type := option (string -> option string).

(** [key in app.download_files] and [app.download_files[key]], [None]
    also when the attribute is absent. *)
Definition lookup (reg : Registry) (key : string) : option string :=
  match reg with
  | None => None
  | Some entries => entries key
  end.

(** [if not hasattr(app, 'download_files'): app.download_files = {}]
    followed by [app.download_files[key] = path]. *)
Definition register (reg : Registry) (key path : string) : Registry :=
  let entries := match reg with
                 | Some entries => entries
                 | None => fun _ => None
                 end in
  Some (fun k => if String.eqb k key then Some path else entries k).

Inductive Response : Type :=
| RedirectToIndex
| SendFile (file_path download_name : string).

(** [download_file]: [filename], [task_id] and [logs] are the request
    arguments, [''], [''] and ['false'] when missing; [on_disk] is
    [os.path.exists]. *)
Definition download_file (reg : Registry) (on_disk : string -> bool)
    (filename task_id logs : string) : Response :=
  let is_logs := String.eqb logs "true" in
  if String.eqb filename "" || String.eqb task_id "" then RedirectToIndex
  else
    let key := if is_logs then task_id ++ "_logs" else task_id in
    match lookup reg key with
    | None => RedirectToIndex
    | Some file_path =>
        if on_disk file_path then SendFile file_path filename
        else RedirectToIndex
    end.

(** *** [add_progress_update] and [save_logs_to_file] *)

(** The dictionary put on the queue; an absent key is [None], and
    ['complete'] is only ever set to [True]. *)
Record Update : Type := mkUpdate {
  timestamp : string;
  progress : option Z;
  message : option string;
  log : option string;
  type : option string;
  complete : bool;
  download_url : option string;
  logs_url : option string
}.

(** The module-level state the progress functions share. *)
Record AppState : Type := mkAppState {
  all_log_messages : list string;
  progress_queue : list Update;
  download_files : Registry;
  current_task_id : string
}.

(** [save_logs_to_file]: [upload_folder] is [app.config['UPLOAD_FOLDER']];
    [written] tells whether writing the file went through.  Returns the
    path, or [None] after the handled exception. *)
Definition save_logs_to_file (upload_folder : string) (written : bool)
    (st : AppState) : AppState * option string :=
  let logs_path :=
    path_join upload_folder ("process_logs_" ++ current_task_id st ++ ".txt") in
  if written then
    ({| all_log_messages := all_log_messages st;
        progress_queue := progress_queue st;
        download_files :=
          register (download_files st) (current_task_id st ++ "_logs") logs_path;
        current_task_id := current_task_id st |},
     Some logs_path)
  else (st, None).

(** [add_progress_update]: [now_iso] and [now_clock] are the two
    renderings of the current time. *)
Definition add_progress_update (upload_folder now_iso now_clock : string)
    (written : bool) (st : AppState)
    (progress : option Z) (message log : option string) (log_type : string)
    (complete : bool) (download_url : option string) : AppState :=
  let st1 :=
    if truthy log
    then {| all_log_messages :=
              all_log_messages st
              ++ ["[" ++ now_clock ++ "] "
                  ++ match log with Some l => l | None => "" end];
            progress_queue := progress_queue st;
            download_files := download_files st;
            current_task_id := current_task_id st |}
    else st in
  let saved :=
    if complete && negb (List.length (all_log_messages st1) =? 0)%nat
    then save_logs_to_file upload_folder written st1
    else (st1, None) in
  let st2 := fst saved in
  let update :=
    {| timestamp := now_iso;
       progress := progress;
       message := if truthy message then message else None;
       log := if truthy log then log else None;
       type := if truthy log then Some log_type else None;
       complete := complete;
       download_url := if complete && truthy download_url then download_url
                       else None;
       logs_url :=
         match snd saved with
         | Some p =>
             if negb (String.eqb p "")
             then Some ("/download?filename=process_logs.txt&task_id="
                        ++ current_task_id st ++ "&logs=true")
             else None
         | None => None
         end |} in
  {| all_log_messages := all_log_messages st2;
     progress_queue := progress_queue st2 ++ [update];
     download_files := download_files st2;
     current_task_id := current_task_id st2 |}.

(** *** [progress_stream] *)

(** What [progress_queue.get(timeout=1)] does on one turn of the loop. *)
Inductive Poll : Type :=
| Got (update : Update)
| QueueEmpty
| PollRaised (error : string).

(** The events of the stream. *)
Inductive Event : Type :=
| InvalidTaskId
| Connected
| Data (update : Update)
| Ping
| StreamError (error : string).

(** The loop of [generate] run over the polls given: the events it
    yields, and whether it has left the loop. *)
Fixpoint pump (polls : list Poll) : list Event * bool :=
  match polls with
  | [] => ([], false)
  | Got update :: rest =>
      if complete update then ([Data update], true)
      else let (events, finished) := pump rest in (Data update :: events, finished)
  | QueueEmpty :: rest =>
      let (events, finished) := pump rest in (Ping :: events, finished)
  | PollRaised error :: _ => ([StreamError error], true)
  end.

(** [generate]: [task_id] is the request argument and [current_task]
    the global at the time of the request. *)
Definition generate (task_id current_task : string) (polls : list Poll)
    : list Event * bool :=
  if negb (String.eqb task_id current_task) then ([InvalidTaskId], true)
  else let (events, finished) := pump polls in (Connected :: events, finished).

(** The event of a poll that does not end the stream. *)
Definition event_of (p : Poll) : Event :=
  match p with
  | Got update => Data update
  | QueueEmpty => Ping
  | PollRaised error => StreamError error
  end.

Definition keeps_streaming (p : Poll) : bool :=
  match p with
  | Got update => negb (complete update)
  | QueueEmpty => true
  | PollRaised _ => false
  end.

(** *** Delivery in [process_project_async_worker] *)

Inductive Delivery : Type :=
| TextArchive
| PdfArchive (members : list string)
| SinglePdf (download_path : string).

(** [not output_files] for what [generate_pdf] returned. *)
Definition nothing_generated (g : Generated) : bool :=
  match g with
  | OnePath p => String.eqb p ""
  | PathList l => (List.length l =? 0)%nat
  end.

(** The part of the worker after [generate_pdf]: [structure_pdf] is
    what [generate_improved_structure_pdf] returned, [on_disk] is
    [os.path.exists].  An archive lists the files that are on disk. *)
Definition deliver (generation : Generation) (structure_pdf : option string)
    (on_disk : string -> bool) : Delivery :=
  let structure_exists :=
    match structure_pdf with
    | Some p => negb (String.eqb p "") && on_disk p
    | None => false
    end in
  match generation with
  | GenerationRaised => TextArchive
  | GenerationReturned g =>
      if nothing_generated g then TextArchive
      else
        let output_files := artifacts g in
        let output_files :=
          match structure_pdf with
          | Some p =>
              if structure_exists && on_disk p
              then if in_list p output_files then output_files
                   else p :: output_files
              else output_files
          | None => output_files
          end in
        if (1 <? List.length output_files)%nat
        then PdfArchive (filter on_disk output_files)
        else SinglePdf (hd "" output_files)
  end.

(** [filtered_categories]: the categories named in
    [include_categories]; the others are missing keys, read back as
    empty lists. *)
Definition select_categories (include_categories : list string)
    (file_categories : CodeFiles) : CodeFiles :=
  {| regular := if in_list "regular" include_categories
                then regular file_categories else [];
     ios := if in_list "ios" include_categories
            then ios file_categories else [];
     android := if in_list "android" include_categories
                then android file_categories else [] |}.

Inductive WorkerResult : Type :=
| NoCodeFiles
| Delivered (delivery : Delivery).

(** [extract_dir] as [upload_async] makes it. *)
Definition upload_extract_dir (upload_folder task_id : string) : string :=
  path_join upload_folder ("extract_" ++ task_id).

(** The project root: the only entry of [extract_dir] when that is a
    directory, else [extract_dir] itself. *)
Definition project_root (extract_dir : string) (extracted : Tree)
    : string * Tree :=
  match extracted with
  | Node [] (Dir name content NoDirs) => (path_join extract_dir name, content)
  | _ => (extract_dir, extracted)
  end.

(** The loop that appends to [excluded_dirs] the entries of
    [COMMON_EXCLUDED_DIRS] it lacks. *)
Definition with_common_dirs (excluded_dirs : list string) : list string :=
  fold_left (fun dirs special_dir =>
               if in_list special_dir dirs then dirs
               else (dirs ++ [special_dir])%list)
            COMMON_EXCLUDED_DIRS excluded_dirs.

(** [file_categories] in the worker. *)
Definition collected_by_worker (extract_dir : string) (extracted : Tree)
    (excluded_dirs : list string) : CodeFiles :=
  let (project_dir, tree) := project_root extract_dir extracted in
  collect_code_files CODE_EXTENSIONS (with_common_dirs excluded_dirs)
    EXCLUDED_FILE_EXTENSIONS EXCLUDED_FILES project_dir tree true.

(** [process_project_async_worker] on the path where unpacking and
    building the archives raise nothing: [extracted] is what the upload
    unpacks to, [structure_pdf] what [generate_improved_structure_pdf]
    returns, and [generation_raises] tells whether [generate_pdf]
    raises before it reaches the packers, while it builds the header
    elements.  [paragraph], [doc_build] and [os_rename] are the
    collaborators of the packers. *)
Definition process_project_async_worker (open_read : string -> ReadOutcome)
    (paragraph : string -> option string) (doc_build : Bin -> bool)
    (os_rename : string -> string -> bool)
    (output_path extract_dir : string) (extracted : Tree)
    (excluded_dirs include_categories : list string) (max_pdf_size : option Q)
    (machine_format : bool) (structure_pdf : option string)
    (on_disk : string -> bool) (generation_raises : bool) : WorkerResult :=
  let file_categories := collected_by_worker extract_dir extracted excluded_dirs in
  let total_files :=
    (List.length (regular file_categories) + List.length (ios file_categories)
     + List.length (android file_categories))%nat in
  if (total_files =? 0)%nat then NoCodeFiles
  else
    let generation :=
      if generation_raises then GenerationRaised
      else generate_pdf open_read paragraph doc_build os_rename output_path
             (select_categories include_categories file_categories)
             max_pdf_size machine_format in
    Delivered (deliver generation structure_pdf on_disk).

(** *** [scan_zip] *)

Definition common_dirs : list string :=
  [".git"; "node_modules"; "__pycache__"; "venv"; "env"; ".venv"; ".env";
   "dist"; "build"; "obj"; "bin";
   "__MACOSX"; ".trash"; ".expo"; ".gradle"; "ios/Pods"; "Pods";
   "Local Podspecs"; "Images.xcassets";
   "android/app/src"].

(** The parts [detected_dirs] gains from one path: the non-empty ones,
    the last apart. *)
Definition directory_parts (normalized_path : string) : list string :=
  filter (fun part => negb (String.eqb part ""))
         (removelast (split_on "/" normalized_path)).

(** The test of the second pass for one path. *)
Definition found_anywhere (common_dir path : string) : bool :=
  str_in ("/" ++ common_dir ++ "/") path || startswith path (common_dir ++ "/").

Definition mac_file (path : string) : bool :=
  startswith path "._" || str_in "/._./" path.

(** [found_dirs] for the entry names of the archive. *)
Definition found_dirs (filenames : list string) : list string :=
  let all_paths := map (fun name => str_replace name backslash slash) filenames in
  let detected_dirs := flat_map directory_parts all_paths in
  let found := filter (fun dir_name => in_list dir_name detected_dirs) common_dirs in
  let found :=
    fold_left (fun found common_dir =>
                 if existsb (found_anywhere common_dir) all_paths
                    && negb (in_list common_dir found)
                 then (found ++ [common_dir])%list else found)
              common_dirs found in
  if existsb mac_file all_paths && negb (in_list "__MACOSX" found)
  then (found ++ ["__MACOSX"])%list else found.

Inductive ZipRead : Type :=
| Entries (filenames : list string)
| ZipRaised (error : string).

Inductive ScanBody : Type :=
| ScanError (error : string)
| DetectedDirs (detected_dirs : list string).

(** [scan_zip]: [project_zip] is the uploaded file, by its name and what
    reading it as an archive gives; the status comes with the body. *)
Definition scan_zip (project_zip : option (string * ZipRead)) : ScanBody * Z :=
  match project_zip with
  | None => (ScanError "No file uploaded", 400%Z)
  | Some (filename, archive) =>
      if String.eqb filename "" then (ScanError "Empty filename", 400%Z)
      else match archive with
           | Entries filenames => (DetectedDirs (found_dirs filenames), 200%Z)
           | ZipRaised error => (ScanError error, 500%Z)
           end
  end.

End Web.

(* ================================================================== *)
(** ** Properties of the greedy packer *)
(* ================================================================== *)

Import PyStr PyExc Collector.

(** *** The budget test *)

Lemma exceeds_true_iff (size : Z) (max_size_bytes : Q) :
  exceeds size max_size_bytes = true <-> (max_size_bytes < inject_Z size)%Q.
Proof.
  unfold exceeds. rewrite negb_true_iff. split.
  - intros H. apply Qnot_le_lt. intros Hle.
    apply Qle_bool_iff in Hle. congruence.
  - intros H. destruct (Qle_bool (inject_Z size) max_size_bytes) eqn:E; trivial.
    apply Qle_bool_iff in E. exfalso. exact (Qlt_not_le _ _ H E).
Qed.

Lemma exceeds_false_iff (size : Z) (max_size_bytes : Q) :
  exceeds size max_size_bytes = false <-> (inject_Z size <= max_size_bytes)%Q.
Proof.
  unfold exceeds. rewrite negb_false_iff. apply Qle_bool_iff.
Qed.

Lemma inject_Z_le (x y : Z) : (x <= y)%Z -> (inject_Z x <= inject_Z y)%Q.
Proof. intros H. unfold Qle. simpl. lia. Qed.

Lemma exceeds_monotone (s1 s2 : Z) (b1 b2 : Q) :
  (s2 <= s1)%Z -> (b1 <= b2)%Q ->
  exceeds s2 b2 = true -> exceeds s1 b1 = true.
Proof.
  rewrite !exceeds_true_iff. intros Hs Hb H.
  apply Qle_lt_trans with b2; trivial.
  apply Qlt_le_trans with (inject_Z s2); trivial.
  now apply inject_Z_le.
Qed.

(** *** Invariants of the loop *)

Section GreedyLoopFacts.

Variable contribution : SourceFile -> Z.
Variable part_output : nat -> string.
Variable max_size_bytes : Q.

Local Abbreviation step := (add_file contribution part_output max_size_bytes).
Local Abbreviation run := (fold_left (add_file contribution part_output max_size_bytes)).

Lemma sum_contributions_snoc (files : list SourceFile) (f : SourceFile) :
  sum_contributions contribution (files ++ [f]) = (sum_contributions contribution files + contribution f)%Z.
Proof.
  induction files as [|g files IH]; simpl; [lia|].
  fold (sum_contributions contribution (files ++ [f])) (sum_contributions contribution files). lia.
Qed.

Lemma units_of_snoc (bins : list Bin) (b : Bin) :
  units_of (bins ++ [b]) = units_of bins ++ bin_files b.
Proof.
  unfold units_of. rewrite map_app, concat_app. simpl. now rewrite app_nil_r.
Qed.

(** Every unit seen so far sits in a closed part or in the open one, in
    arrival order. *)
Lemma add_file_units (st : PackState) (f : SourceFile) :
  units_of (output_bins (step st f)) ++ current_files (step st f)
  = (units_of (output_bins st) ++ current_files st) ++ [f].
Proof.
  unfold add_file.
  destruct (exceeds _ _ && has_content st); simpl.
  - rewrite units_of_snoc. reflexivity.
  - now rewrite app_assoc.
Qed.

Lemma run_units (files : list SourceFile) (st : PackState) :
  units_of (output_bins (run files st)) ++ current_files (run files st)
  = (units_of (output_bins st) ++ current_files st) ++ files.
Proof.
  revert st. induction files as [|f files IH]; intros st; simpl.
  - now rewrite app_nil_r.
  - rewrite IH, add_file_units, <- app_assoc. reflexivity.
Qed.

Lemma has_content_false (st : PackState) :
  has_content st = false -> current_files st = [].
Proof.
  unfold has_content. destruct (current_files st); simpl; [trivial|discriminate].
Qed.

Lemma finish_units (st : PackState) :
  units_of (finish part_output st) = units_of (output_bins st) ++ current_files st.
Proof.
  unfold finish. destruct (has_content st) eqn:E.
  - now rewrite units_of_snoc.
  - rewrite (has_content_false _ E). now rewrite app_nil_r.
Qed.

Lemma pack_bins_units (files : list SourceFile) :
  units_of (pack_bins contribution part_output max_size_bytes files) = files.
Proof.
  unfold pack_bins. rewrite finish_units, run_units. reflexivity.
Qed.

Lemma add_file_ok (st : PackState) (f : SourceFile) :
  state_ok contribution max_size_bytes st -> state_ok contribution max_size_bytes (step st f).
Proof.
  intros [Hbins [Hsum Hfit]]. unfold add_file, state_ok, accounted.
  destruct (exceeds _ _) eqn:Ex; cbn [andb].
  - destruct (has_content st) eqn:Hc;
      cbn [output_bins current_files estimated_size].
    + split.
      * apply Forall_app. split; trivial.
        constructor; [|constructor]. split; assumption.
      * split.
        -- cbn [app sum_contributions fold_right]. lia.
        -- cbn [app List.length]. intros Hlen. lia.
    + split; trivial.
      rewrite (has_content_false _ Hc) in *. split.
      * cbn [app sum_contributions fold_right] in *. lia.
      * cbn [app List.length]. intros Hlen. lia.
  - cbn [output_bins current_files estimated_size].
    split; trivial. split.
    + rewrite sum_contributions_snoc. lia.
    + intros _. now apply exceeds_false_iff.
Qed.

Lemma run_ok (files : list SourceFile) (st : PackState) :
  state_ok contribution max_size_bytes st -> state_ok contribution max_size_bytes (run files st).
Proof.
  revert st. induction files as [|f files IH]; intros st H; simpl; trivial.
  apply IH. now apply add_file_ok.
Qed.

Lemma initial_state_ok : state_ok contribution max_size_bytes initial_state.
Proof.
  split; [constructor|]. unfold accounted.
  cbn [initial_state current_files estimated_size sum_contributions
       fold_right List.length].
  split; [lia|]. intros H. lia.
Qed.

Lemma finish_ok (st : PackState) :
  state_ok contribution max_size_bytes st -> Forall (bin_ok contribution max_size_bytes) (finish part_output st).
Proof.
  intros [Hbins Hcur]. unfold finish.
  destruct (has_content st); trivial.
  apply Forall_app. split; trivial. constructor; [exact Hcur|constructor].
Qed.

Lemma pack_bins_ok (files : list SourceFile) :
  Forall (bin_ok contribution max_size_bytes) (pack_bins contribution part_output max_size_bytes files).
Proof.
  unfold pack_bins. apply finish_ok, run_ok, initial_state_ok.
Qed.

(** When the seed and the smallest contribution already exceed the
    budget, the test of the loop holds whenever the open part has a
    unit, so no part ever receives a second one. *)
Section TightBudget.

Hypothesis contribution_floor :
  forall f, (MIN_FILE_CONTRIBUTION <= contribution f)%Z.
Hypothesis budget_tight :
  (max_size_bytes < inject_Z (HEADER_SEED + MIN_FILE_CONTRIBUTION))%Q.

Lemma add_file_singles (st : PackState) (f : SourceFile) :
  singles st -> singles (step st f).
Proof.
  intros [Hbins [Hlen Hest]]. unfold add_file, singles.
  assert (Hc := contribution_floor f).
  assert (Hmin : (0 <= MIN_FILE_CONTRIBUTION)%Z) by (unfold MIN_FILE_CONTRIBUTION; lia).
  destruct (has_content st) eqn:Hcont.
  - assert (Hex : exceeds (estimated_size st + contribution f) max_size_bytes = true).
    { apply exceeds_true_iff.
      apply Qlt_le_trans with (inject_Z (HEADER_SEED + MIN_FILE_CONTRIBUTION)); trivial.
      apply inject_Z_le. lia. }
    rewrite Hex.
    cbn [andb output_bins current_files estimated_size app List.length].
    split; [|split; lia].
    apply Forall_app. split; trivial. constructor; [|constructor].
    cbn [bin_files close_bin].
    unfold has_content in Hcont. apply Nat.ltb_lt in Hcont. lia.
  - rewrite andb_false_r. rewrite (has_content_false _ Hcont) in *.
    cbn [output_bins current_files estimated_size app List.length].
    split; [trivial|split; lia].
Qed.

Lemma run_singles (files : list SourceFile) (st : PackState) :
  singles st -> singles (run files st).
Proof.
  revert st. induction files as [|f files IH]; intros st H; simpl; trivial.
  apply IH. now apply add_file_singles.
Qed.

Lemma pack_bins_singles (files : list SourceFile) :
  Forall (fun b => List.length (bin_files b) = 1%nat)
         (pack_bins contribution part_output max_size_bytes files).
Proof.
  unfold pack_bins.
  assert (H : singles (run files initial_state)).
  { apply run_singles. unfold singles.
    cbn [initial_state output_bins current_files estimated_size List.length].
    split; [constructor|split; lia]. }
  destruct H as [Hbins [Hlen _]]. unfold finish.
  destruct (has_content (run files initial_state)) eqn:Hcont; trivial.
  apply Forall_app. split; trivial. constructor; [|constructor].
  cbn [bin_files close_bin].
  unfold has_content in Hcont. apply Nat.ltb_lt in Hcont. lia.
Qed.

End TightBudget.

End GreedyLoopFacts.

(** *** Two runs of the loop on the same units under two budgets *)

Section TwoBudgets.

Variable contribution : SourceFile -> Z.
Variable part_output : nat -> string.
Variables small large : Q.

Hypothesis contribution_nonneg : forall f, (0 <= contribution f)%Z.
Hypothesis budgets_ordered : (small <= large)%Q.

Lemma has_content_add_file (b : Q) (st : PackState) (f : SourceFile) :
  has_content (add_file contribution part_output b st f) = true.
Proof.
  unfold add_file, has_content.
  destruct (exceeds _ _ && _); cbn [current_files]; rewrite length_app;
    cbn [List.length]; apply Nat.ltb_lt; lia.
Qed.

Lemma add_file_ahead (s l : PackState) (f : SourceFile) :
  ahead s l ->
  ahead (add_file contribution part_output small s f)
        (add_file contribution part_output large l f).
Proof.
  intros [Hc [Hseed Hord]].
  assert (Hf := contribution_nonneg f).
  split; [now rewrite !has_content_add_file|].
  unfold add_file. rewrite <- Hc.
  destruct (has_content s) eqn:Hcs.
  - rewrite !andb_true_r.
    destruct (exceeds (estimated_size l + contribution f) large) eqn:El;
    destruct (exceeds (estimated_size s + contribution f) small) eqn:Es;
      cbn [output_bins estimated_size]; rewrite ?length_app; cbn [List.length].
    + split; [lia|]. destruct Hord as [Hlt|[Heq Hle]]; [left|right]; lia.
    + split; [lia|]. destruct Hord as [Hlt|[Heq Hle]].
      * destruct (Nat.eq_dec (List.length (output_bins l) + 1)
                             (List.length (output_bins s))) as [E|E].
        -- right. split; [exact E|lia].
        -- left. lia.
      * exfalso.
        assert (Es' : exceeds (estimated_size s + contribution f) small = true).
        { apply exceeds_monotone with (2 := budgets_ordered) (3 := El). lia. }
        congruence.
    + split; [lia|]. left. destruct Hord as [Hlt|[Heq Hle]]; lia.
    + split; [lia|]. destruct Hord as [Hlt|[Heq Hle]]; [left|right]; lia.
  - rewrite !andb_false_r. cbn [output_bins estimated_size]. split; [lia|].
    destruct Hord as [Hlt|[Heq Hle]]; [left|right]; lia.
Qed.

Lemma run_ahead (files : list SourceFile) (s l : PackState) :
  ahead s l ->
  ahead (fold_left (add_file contribution part_output small) files s)
        (fold_left (add_file contribution part_output large) files l).
Proof.
  revert s l. induction files as [|f files IH]; intros s l H; simpl; trivial.
  apply IH. now apply add_file_ahead.
Qed.

Lemma pack_bins_count_monotone (files : list SourceFile) :
  (List.length (pack_bins contribution part_output large files)
   <= List.length (pack_bins contribution part_output small files))%nat.
Proof.
  unfold pack_bins.
  assert (H : ahead (fold_left (add_file contribution part_output small) files initial_state)
                    (fold_left (add_file contribution part_output large) files initial_state)).
  { apply run_ahead. split; [reflexivity|].
    cbn [initial_state output_bins estimated_size List.length].
    split; [lia|]. right. split; lia. }
  destruct H as [Hc [_ Hord]]. unfold finish. rewrite <- Hc.
  destruct (has_content _); rewrite ?length_app; cbn [List.length];
    destruct Hord as [Hlt|[Heq _]]; lia.
Qed.

End TwoBudgets.

(** *** Numbering of the parts *)

Section Numbering.

Variable contribution : SourceFile -> Z.
Variable part_output : nat -> string.
Variable max_size_bytes : Q.




End Numbering.

(** *** [str.replace] and [in] *)

Lemma prefix_app (t s : string) : String.prefix t (t ++ s)%string = true.
Proof.
  induction t as [|a t IH]; simpl; [now destruct s|].
  destruct (ascii_dec a a) as [_|N]; [exact IH|now elim N].
Qed.

Lemma str_in_app (t u s : string) :
  str_in t s = true -> str_in t (u ++ s)%string = true.
Proof.
  intros H. induction u as [|a u IH]; trivial.
  cbn [append str_in]. rewrite IH. apply orb_true_r.
Qed.

Lemma str_in_prefix (t s : string) :
  String.prefix t s = true -> str_in t s = true.
Proof. intros H. destruct s; cbn [str_in]; rewrite H; reflexivity. Qed.

(** A string without any occurrence of [old] is left as it is. *)
Lemma replace_absent (old new s : string) :
  str_in old s = false -> str_replace s old new = s.
Proof.
  unfold str_replace. induction s as [|c s IH]; intros H; trivial.
  cbn [str_in] in H. apply orb_false_iff in H. destruct H as [Hp Hin].
  cbn [replace_from]. rewrite Hp, (IH Hin). reflexivity.
Qed.


(** *** The estimate of a unit *)

Lemma file_contribution_floor (content : string) :
  (MIN_FILE_CONTRIBUTION <= file_contribution content)%Z.
Proof. unfold file_contribution. lia. Qed.

Lemma unit_cost_floor (open_read : string -> ReadOutcome) (f : SourceFile) :
  (MIN_FILE_CONTRIBUTION <= unit_cost open_read f)%Z.
Proof. apply file_contribution_floor. Qed.

Lemma unit_cost_nonneg (open_read : string -> ReadOutcome) (f : SourceFile) :
  (0 <= unit_cost open_read f)%Z.
Proof.
  pose proof (unit_cost_floor open_read f). unfold MIN_FILE_CONTRIBUTION in *. lia.
Qed.

(** C6: the estimate of a content-bearing unit depends on the length of
    its content only.  In [_split_category_files] it is two bytes per
    character plus 5000 bytes, raised to the floor of 30 KiB when that
    is smaller, so it is never below the floor; in [_generate_split_pdfs]
    it is two bytes per character plus 5000 bytes, never below 5000.
    Contents of equal length, in particular equal contents, get equal
    estimates. *)
Theorem estimate_is_length_based_with_floor :
  forall content content' : string,
    file_contribution content
    = Z.max (2 * Z.of_nat (String.length content) + 5000) 30720 /\
    (30720 <= file_contribution content)%Z /\
    file_contribution_flat content
    = (2 * Z.of_nat (String.length content) + 5000)%Z /\
    (5000 <= file_contribution_flat content)%Z /\
    (String.length content = String.length content' ->
     file_contribution content = file_contribution content' /\
     file_contribution_flat content = file_contribution_flat content').
Proof.
  intros content content'.
  unfold file_contribution, file_contribution_flat, MIN_FILE_CONTRIBUTION.
  split; [lia|]. split; [lia|]. split; [lia|]. split; [lia|].
  intros H. rewrite H. split; reflexivity.
Qed.

Lemma estimate_is_length_based_with_floor_witness :
  file_contribution "print(1)" = file_contribution "print(2)" /\
  file_contribution_flat "print(1)" = file_contribution_flat "print(2)".
Proof.
  apply (estimate_is_length_based_with_floor "print(1)" "print(2)").
  reflexivity.
Defined.

(** *** The loop with its handler *)

Section GuardedLoopFacts.

Variable contribution : SourceFile -> Z.
Variable part_output : nat -> string.
Variable max_size_bytes : Q.
Variable warning_text : SourceFile -> string -> string.
Variable paragraph : string -> option string.
Variable doc_build : Bin -> bool.

Local Abbreviation add := (add_file contribution part_output max_size_bytes).
Local Abbreviation turn' :=
  (turn contribution part_output max_size_bytes warning_text paragraph doc_build).
Local Abbreviation run' :=
  (run_loop contribution part_output max_size_bytes warning_text paragraph
     doc_build).
Local Abbreviation build := (build_part part_output doc_build).
Local Abbreviation build_last := (build_last_part part_output doc_build).
Local Abbreviation follows := (files_follow_parts doc_build).
Local Abbreviation built := (heading_built paragraph).
Local Abbreviation room st f :=
  (if exceeds (estimated_size (pack st) + contribution f) max_size_bytes
      && has_elements st
   then build st else st).

Lemma units_of_app_one (bins : list Bin) (b : Bin) :
  units_of (bins ++ [b]) = (units_of bins ++ bin_files b)%list.
Proof.
  unfold units_of. rewrite map_app, concat_app. cbn [map List.concat].
  now rewrite app_nil_r.
Qed.

Lemma build_part_units (st : LoopState) : all_units (build st) = all_units st.
Proof.
  unfold all_units, build_part. cbv zeta. cbn [pack output_bins current_files].
  rewrite units_of_app_one. cbn [close_bin bin_files]. now rewrite app_nil_r.
Qed.

Lemma build_part_follows (st : LoopState) : follows st -> follows (build st).
Proof.
  unfold files_follow_parts, build_part. cbv zeta. intros H.
  cbn [pack output_bins output_files].
  rewrite filter_app, map_app, <- H. cbn [filter].
  destruct (doc_build (close_bin part_output (pack st))); cbn [map];
    [reflexivity|now rewrite app_nil_r].
Qed.

Lemma build_part_has_no_elements (st : LoopState) :
  has_elements (build st) = false.
Proof. reflexivity. Qed.

Lemma room_units (st : LoopState) (f : SourceFile) :
  all_units (room st f) = all_units st.
Proof. destruct (_ && _); [apply build_part_units|reflexivity]. Qed.

Lemma room_follows (st : LoopState) (f : SourceFile) :
  follows st -> follows (room st f).
Proof. intros H. destruct (_ && _); [now apply build_part_follows|exact H]. Qed.

Lemma room_parts (st : LoopState) (f : SourceFile) :
  (parts_in_progress (room st f) <= parts_in_progress st)%nat.
Proof.
  destruct (exceeds _ _); cbn [andb]; [|lia].
  destruct (has_elements st) eqn:E; [|lia].
  unfold parts_in_progress. rewrite E, build_part_has_no_elements.
  unfold build_part. cbv zeta. cbn [pack output_bins].
  rewrite length_app. cbn [List.length]. lia.
Qed.

(** A unit whose heading is built goes into the open part; another one
    goes nowhere. *)
Lemma turn_units (st : LoopState) (f : SourceFile) :
  match turn' st f with
  | Goes_on st' =>
      all_units st' = (all_units st ++ if built f then [f] else [])%list
  | Leaves st' => all_units st' = all_units st /\ built f = false
  end.
Proof.
  pose proof (room_units st f) as H1.
  unfold turn, heading_built. cbv zeta.
  destruct (paragraph (fst f)) as [msg|].
  - destruct (paragraph (warning_text f msg)).
    + split; trivial.
    + unfold all_units in *. cbn [pack]. rewrite H1. now rewrite app_nil_r.
  - unfold all_units in *. cbn [pack output_bins current_files].
    rewrite app_assoc, H1. reflexivity.
Qed.

Lemma turn_follows (st : LoopState) (f : SourceFile) :
  follows st ->
  match turn' st f with
  | Goes_on st' | Leaves st' => follows st'
  end.
Proof.
  intros H. pose proof (room_follows st f H) as H1.
  unfold turn. cbv zeta.
  destruct (paragraph (fst f)) as [msg|];
    [destruct (paragraph (warning_text f msg))|]; exact H1.
Qed.

Lemma turn_parts (st : LoopState) (f : SourceFile) :
  match turn' st f with
  | Goes_on st' | Leaves st' =>
      (parts_in_progress st' <= S (parts_in_progress st))%nat
  end.
Proof.
  pose proof (room_parts st f) as H1.
  unfold turn. cbv zeta.
  destruct (paragraph (fst f)) as [msg|];
    [destruct (paragraph (warning_text f msg))|].
  - lia.
  - unfold parts_in_progress in *. cbn [pack].
    repeat match goal with
           | |- context [if ?b then 1%nat else 0%nat] => destruct b
           | H : context [if ?b then 1%nat else 0%nat] |- _ => destruct b
           end; lia.
  - unfold parts_in_progress in *. cbn [pack output_bins].
    repeat match goal with
           | |- context [if ?b then 1%nat else 0%nat] => destruct b
           | H : context [if ?b then 1%nat else 0%nat] |- _ => destruct b
           end; lia.
Qed.

Lemma run_loop_units (files : list SourceFile) :
  forall st,
    match run' st files with
    | Goes_on st' => all_units st' = (all_units st ++ filter built files)%list
    | Leaves st' =>
        exists tail,
          (all_units st ++ filter built files)%list
          = (all_units st' ++ tail)%list
    end.
Proof.
  induction files as [|f files IH]; intros st; cbn [run_loop filter].
  - now rewrite app_nil_r.
  - pose proof (turn_units st f) as Ht. destruct (turn' st f) as [st1|st1].
    + specialize (IH st1). destruct (run' st1 files) as [st2|st2].
      * rewrite IH, Ht, <- app_assoc. now destruct (built f).
      * destruct IH as [tail IH]. exists tail.
        rewrite <- IH, Ht, <- app_assoc. now destruct (built f).
    + destruct Ht as [Ht Hf]. rewrite Hf. exists (filter built files).
      now rewrite Ht.
Qed.

Lemma run_loop_follows (files : list SourceFile) :
  forall st,
    follows st ->
    match run' st files with
    | Goes_on st' | Leaves st' => follows st'
    end.
Proof.
  induction files as [|f files IH]; intros st H; cbn [run_loop]; trivial.
  pose proof (turn_follows st f H) as Ht.
  destruct (turn' st f) as [st1|st1]; [exact (IH st1 Ht)|exact Ht].
Qed.

Lemma run_loop_parts (files : list SourceFile) :
  forall st,
    match run' st files with
    | Goes_on st' | Leaves st' =>
        (parts_in_progress st' <= parts_in_progress st + List.length files)%nat
    end.
Proof.
  induction files as [|f files IH]; intros st; cbn [run_loop List.length].
  - lia.
  - pose proof (turn_parts st f) as Ht.
    destruct (turn' st f) as [st1|st1]; [|lia].
    specialize (IH st1). destruct (run' st1 files); lia.
Qed.

Lemma build_last_units (st : LoopState) :
  units_of (output_bins (pack (build_last st))) = all_units st.
Proof.
  unfold build_last_part. destruct (has_elements st) eqn:E.
  - rewrite <- (build_part_units st). unfold all_units, build_part. cbv zeta.
    cbn [pack current_files]. now rewrite app_nil_r.
  - unfold all_units. unfold has_elements in E.
    apply orb_false_elim in E. destruct E as [E _].
    unfold has_content in E. destruct (current_files (pack st)); [|discriminate E].
    now rewrite app_nil_r.
Qed.

Lemma build_last_follows (st : LoopState) : follows st -> follows (build_last st).
Proof.
  intros H. unfold build_last_part.
  destruct (has_elements st); [now apply build_part_follows|exact H].
Qed.

Lemma build_last_count (st : LoopState) :
  List.length (output_bins (pack (build_last st))) = parts_in_progress st.
Proof.
  unfold build_last_part, parts_in_progress. destruct (has_elements st).
  - unfold build_part. cbv zeta. cbn [pack output_bins].
    rewrite length_app. reflexivity.
  - lia.
Qed.

Lemma files_no_more_than_parts (st : LoopState) :
  follows st ->
  (List.length (output_files st) <= List.length (output_bins (pack st)))%nat.
Proof.
  unfold files_follow_parts. intros ->. rewrite length_map. apply filter_length_le.
Qed.

Lemma loop_start_follows : follows loop_start.
Proof. reflexivity. Qed.

(** In either outcome the parts hold, in order, the first of the units
    whose heading was built; all of them when the loop comes to its
    end. *)
Lemma parts_hold_the_built_units (files : list SourceFile) :
  exists tail,
    filter built files
    = (units_of (parts_handed part_output doc_build (run' loop_start files))
       ++ tail)%list /\
    (forall st, run' loop_start files = Goes_on st -> tail = []).
Proof.
  pose proof (run_loop_units files loop_start) as H.
  destruct (run' loop_start files) as [st|st]; cbn [parts_handed].
  - exists []. rewrite build_last_units, H, app_nil_r. split; reflexivity.
  - destruct H as [tail H]. exists (current_files (pack st) ++ tail)%list.
    split; [|intros st' E; discriminate E].
    rewrite app_assoc. exact H.
Qed.

(** When the loop comes to its end, it has returned at most one file
    per unit. *)
Lemma files_no_more_than_units (files : list SourceFile) (st : LoopState) :
  run' loop_start files = Goes_on st ->
  (List.length (output_files (build_last st)) <= List.length files)%nat.
Proof.
  intros E.
  pose proof (run_loop_follows files loop_start loop_start_follows) as Hf.
  pose proof (run_loop_parts files loop_start) as Hp.
  rewrite E in Hf, Hp.
  pose proof (files_no_more_than_parts _ (build_last_follows st Hf)) as Hl.
  rewrite build_last_count in Hl.
  assert (parts_in_progress loop_start = 0%nat) by reflexivity. lia.
Qed.

(** A turn whose heading is built is the iteration [add_file]. *)
Lemma turn_when_built (st : LoopState) (f : SourceFile) :
  warnings st = 0%nat -> paragraph (fst f) = None ->
  exists st',
    turn' st f = Goes_on st' /\ warnings st' = 0%nat /\
    pack st' = add (pack st) f.
Proof.
  intros Hw Hp. unfold turn. cbv zeta. rewrite Hp.
  assert (He : has_elements st = has_content (pack st)).
  { unfold has_elements. rewrite Hw. apply orb_false_r. }
  rewrite He. eexists. split; [reflexivity|].
  unfold add_file. cbv zeta.
  destruct (exceeds _ _ && has_content (pack st)).
  - unfold build_part. cbv zeta. split; reflexivity.
  - split; [exact Hw|]. reflexivity.
Qed.

Lemma run_when_built (files : list SourceFile) :
  forall st,
    headings_built paragraph files -> warnings st = 0%nat ->
    exists st',
      run' st files = Goes_on st' /\ warnings st' = 0%nat /\
      pack st' = fold_left add files (pack st).
Proof.
  induction files as [|f files IH]; intros st Hb Hw; cbn [run_loop fold_left].
  - now exists st.
  - destruct (turn_when_built st f Hw (Hb f (or_introl eq_refl)))
      as [st1 [E1 [Hw1 Hp1]]].
    rewrite E1.
    destruct (IH st1 (fun g Hg => Hb g (or_intror Hg)) Hw1) as [st2 [E2 [Hw2 Hp2]]].
    exists st2. split; [exact E2|]. split; [exact Hw2|]. now rewrite Hp2, Hp1.
Qed.

(** When every heading is built the parts handed to [doc.build] are the
    bins of [pack_bins], and the files gathered are those of the bins
    whose build returned. *)
Lemma loop_when_built (files : list SourceFile) :
  headings_built paragraph files ->
  exists st,
    run' loop_start files = Goes_on st /\
    output_bins (pack (build_last st))
    = pack_bins contribution part_output max_size_bytes files /\
    output_files (build_last st)
    = map bin_output
        (filter doc_build
           (pack_bins contribution part_output max_size_bytes files)).
Proof.
  intros Hb.
  destruct (run_when_built files loop_start Hb eq_refl) as [st [E [Hw Hp]]].
  exists st. split; [exact E|].
  pose proof (run_loop_follows files loop_start loop_start_follows) as Hf.
  rewrite E in Hf. apply build_last_follows in Hf.
  assert (Hbins : output_bins (pack (build_last st))
                  = pack_bins contribution part_output max_size_bytes files).
  { unfold pack_bins, finish, build_last_part, has_elements.
    cbn [loop_start pack] in Hp. rewrite <- Hp, Hw. cbn [Nat.ltb Nat.leb].
    rewrite orb_false_r. destruct (has_content (pack st)); reflexivity. }
  split; [exact Hbins|].
  unfold files_follow_parts in Hf. now rewrite Hf, Hbins.
Qed.

Local Abbreviation sound st := (state_ok contribution max_size_bytes (pack st)).

Lemma build_part_sound (st : LoopState) : sound st -> sound (build st).
Proof.
  intros [Hbins Hacc]. unfold build_part, state_ok. cbv zeta.
  cbn [pack output_bins current_files estimated_size]. split.
  - apply Forall_app. split; [exact Hbins|].
    constructor; [exact Hacc|constructor].
  - unfold accounted. cbn [sum_contributions fold_right List.length].
    split; [lia|intros H; lia].
Qed.

(** A unit joins an open part that holds a unit only when the estimate
    stays within the budget; a unit whose heading raises changes
    neither the units nor the estimate. *)
Lemma turn_sound (st : LoopState) (f : SourceFile) :
  sound st ->
  match turn' st f with
  | Goes_on st' | Leaves st' => sound st'
  end.
Proof.
  intros H.
  assert (H1 : sound (room st f)).
  { destruct (_ && _); [now apply build_part_sound|exact H]. }
  assert (Hfit : (1 < List.length (current_files (pack (room st f)) ++ [f]))%nat ->
                 (inject_Z (estimated_size (pack (room st f)) + contribution f)
                  <= max_size_bytes)%Q).
  { destruct (exceeds (estimated_size (pack st) + contribution f) max_size_bytes)
      eqn:Ex; cbn [andb].
    - destruct (has_elements st) eqn:He.
      + unfold build_part. cbv zeta. cbn [pack current_files app List.length].
        intros Hlen. lia.
      + unfold has_elements in He. apply orb_false_iff in He.
        destruct He as [Hc _]. rewrite (has_content_false _ Hc).
        cbn [app List.length]. intros Hlen. lia.
    - intros _. now apply exceeds_false_iff. }
  unfold turn. cbv zeta.
  destruct (paragraph (fst f)) as [msg|];
    [destruct (paragraph (warning_text f msg)); exact H1|].
  destruct H1 as [Hbins [Hsum _]]. unfold state_ok, accounted.
  cbn [pack output_bins current_files estimated_size].
  split; [exact Hbins|]. split; [|exact Hfit].
  rewrite sum_contributions_snoc. lia.
Qed.

Lemma run_loop_sound (files : list SourceFile) :
  forall st,
    sound st ->
    match run' st files with
    | Goes_on st' | Leaves st' => sound st'
    end.
Proof.
  induction files as [|f files IH]; intros st H; cbn [run_loop]; trivial.
  pose proof (turn_sound st f H) as Ht.
  destruct (turn' st f) as [st1|st1]; [exact (IH st1 Ht)|exact Ht].
Qed.

(** In either outcome every part handed to [doc.build] is well
    accounted. *)
Lemma handed_parts_are_accounted (files : list SourceFile) :
  Forall (bin_ok contribution max_size_bytes)
         (parts_handed part_output doc_build (run' loop_start files)).
Proof.
  pose proof (run_loop_sound files loop_start
                (initial_state_ok contribution max_size_bytes)) as H.
  destruct (run' loop_start files) as [st|st]; cbn [parts_handed].
  - unfold build_last_part.
    destruct (has_elements st); [|exact (proj1 H)].
    exact (proj1 (build_part_sound st H)).
  - exact (proj1 H).
Qed.

Local Abbreviation named st := (numbered part_output (pack st)).

Lemma build_part_named (st : LoopState) : named st -> named (build st).
Proof.
  intros [Hparts [Hnames Hcur]]. unfold build_part, numbered. cbv zeta.
  cbn [pack output_bins current_part]. split; [|split].
  - rewrite map_app, length_app, seq_app, Hparts.
    cbn [map List.length seq bin_part close_bin Nat.add]. now rewrite Hcur.
  - apply Forall_app. split; [exact Hnames|].
    constructor; [reflexivity|constructor].
  - rewrite length_app. cbn [List.length]. rewrite Hcur. lia.
Qed.

Lemma turn_named (st : LoopState) (f : SourceFile) :
  named st ->
  match turn' st f with
  | Goes_on st' | Leaves st' => named st'
  end.
Proof.
  intros H.
  assert (H1 : named (room st f)).
  { destruct (_ && _); [now apply build_part_named|exact H]. }
  unfold turn. cbv zeta.
  destruct (paragraph (fst f)) as [msg|];
    [destruct (paragraph (warning_text f msg))|]; exact H1.
Qed.

Lemma run_loop_named (files : list SourceFile) :
  forall st,
    named st ->
    match run' st files with
    | Goes_on st' | Leaves st' => named st'
    end.
Proof.
  induction files as [|f files IH]; intros st H; cbn [run_loop]; trivial.
  pose proof (turn_named st f H) as Ht.
  destruct (turn' st f) as [st1|st1]; [exact (IH st1 Ht)|exact Ht].
Qed.

Lemma loop_start_named : named loop_start.
Proof. split; [reflexivity|split; [constructor|reflexivity]]. Qed.

Lemma build_last_named (st : LoopState) : named st -> named (build_last st).
Proof.
  intros H. unfold build_last_part.
  destruct (has_elements st); [now apply build_part_named|exact H].
Qed.

(** In either outcome the parts handed to [doc.build] are numbered from
    1 without gaps and named after their numbers. *)
Lemma handed_parts_are_numbered (files : list SourceFile) :
  let bins := parts_handed part_output doc_build (run' loop_start files) in
  map bin_part bins = seq 1 (List.length bins) /\
  map bin_output bins = map part_output (seq 1 (List.length bins)).
Proof.
  pose proof (run_loop_named files loop_start loop_start_named) as Hn.
  cbv zeta.
  assert (H : numbered part_output
                (match run' loop_start files with
                 | Goes_on st => pack (build_last st)
                 | Leaves st => pack st
                 end)).
  { destruct (run' loop_start files) as [st|st];
      [now apply build_last_named|exact Hn]. }
  assert (E : parts_handed part_output doc_build (run' loop_start files)
              = output_bins (match run' loop_start files with
                             | Goes_on st => pack (build_last st)
                             | Leaves st => pack st
                             end)).
  { destruct (run' loop_start files); reflexivity. }
  rewrite E. destruct H as [H1 [H2 _]]. split; [exact H1|].
  rewrite <- H1, map_map. apply map_ext_in. intros b Hb.
  rewrite Forall_forall in H2. now apply H2.
Qed.

(** When the loop comes to its end, the files gathered are the paths of
    the parts whose build returned, in the order of the parts. *)
Lemma gathered_files_are_the_built_parts (files : list SourceFile)
    (st : LoopState) :
  run' loop_start files = Goes_on st ->
  output_files (build_last st)
  = map bin_output
      (filter doc_build
         (parts_handed part_output doc_build (run' loop_start files))).
Proof.
  intros E.
  pose proof (run_loop_follows files loop_start loop_start_follows) as Hf.
  rewrite E in Hf. apply build_last_follows in Hf.
  rewrite E. exact Hf.
Qed.


End GuardedLoopFacts.

(** *** The packers with their collaborators *)

Lemma filter_all (A : Type) (p : A -> bool) (l : list A) :
  (forall x, p x = true) -> filter p l = l.
Proof.
  intros H. induction l as [|x l IH]; cbn [filter]; [reflexivity|].
  now rewrite H, IH.
Qed.

Section PackersWithCollaborators.

Variable open_read : string -> ReadOutcome.
Variable paragraph : string -> option string.
Variable doc_build : Bin -> bool.
Variable os_rename : string -> string -> bool.

Local Abbreviation split_files :=
  (_split_category_files open_read paragraph doc_build os_rename).
Local Abbreviation split_flat :=
  (_generate_split_pdfs open_read paragraph doc_build os_rename).

(** When every heading is built, [_split_category_files] hands the bins
    of [category_bins] to [doc.build] and returns the paths of those
    whose build returned, the lone one renamed. *)
Lemma split_category_files_when_built (base_output : string)
    (files : list SourceFile) (max_size_bytes : Q) :
  headings_built paragraph files ->
  split_files base_output files max_size_bytes
  = Returned
      (rename_single_part os_rename base_output
         (map bin_output
            (filter doc_build
               (category_bins open_read base_output files max_size_bytes)))) /\
  category_parts open_read paragraph doc_build base_output files max_size_bytes
  = category_bins open_read base_output files max_size_bytes.
Proof.
  intros Hb. unfold _split_category_files, category_parts, category_bins.
  destruct (loop_when_built (unit_cost open_read)
              (category_part_output base_output) max_size_bytes
              category_warning paragraph doc_build files Hb)
    as [st [E [Hbins Hfiles]]].
  rewrite E. cbn [parts_handed]. rewrite Hfiles, Hbins.
  split; [|reflexivity].
  destruct files as [|f files]; reflexivity.
Qed.

Lemma rename_single_part_length (base_output : string)
    (output_files : list string) :
  List.length (rename_single_part os_rename base_output output_files)
  = List.length output_files.
Proof.
  unfold rename_single_part.
  destruct output_files as [|only [|other rest]]; try reflexivity.
  destruct (_ && _); reflexivity.
Qed.


Lemma generate_split_pdfs_when_built (output_path : string)
    (code_files : list SourceFile) (max_pdf_size_mb : Q) :
  headings_built paragraph code_files ->
  split_flat output_path code_files max_pdf_size_mb
  = Returned
      (rename_single_file os_rename output_path
         (map bin_output
            (filter doc_build
               (flat_bins open_read output_path code_files max_pdf_size_mb)))) /\
  flat_parts open_read paragraph doc_build output_path code_files max_pdf_size_mb
  = flat_bins open_read output_path code_files max_pdf_size_mb.
Proof.
  intros Hb. unfold _generate_split_pdfs, flat_parts, flat_bins.
  destruct (loop_when_built (unit_cost_flat open_read)
              (flat_part_output output_path) (max_pdf_size_mb * 1024 * 1024)%Q
              flat_warning paragraph doc_build code_files Hb)
    as [st [E [Hbins Hfiles]]].
  rewrite E. cbn [parts_handed]. rewrite Hfiles, Hbins.
  split; reflexivity.
Qed.

Lemma generate_pdf_without_budget (output_path : string) (code_files : CodeFiles)
    (max_pdf_size_mb : option Q) (machine_format : bool) :
  max_pdf_size_mb = None \/
  (exists q, max_pdf_size_mb = Some q /\ (q <= 0)%Q) ->
  generate_pdf open_read paragraph doc_build os_rename output_path code_files
    max_pdf_size_mb machine_format
  = GenerationReturned (OnePath output_path).
Proof.
  intros [H|[q [H Hq]]]; subst; unfold generate_pdf; trivial.
  apply Qle_bool_iff in Hq. now rewrite Hq.
Qed.

Lemma generate_pdf_with_budget (output_path : string) (code_files : CodeFiles)
    (q : Q) (machine_format : bool) :
  (0 < q)%Q ->
  generate_pdf open_read paragraph doc_build os_rename output_path code_files
    (Some q) machine_format
  = generation_of
      (generate_split_documents open_read paragraph doc_build os_rename
         output_path code_files q machine_format).
Proof.
  intros Hq. unfold generate_pdf.
  destruct (Qle_bool q 0) eqn:E; trivial.
  apply Qle_bool_iff in E. exfalso. exact (Qlt_not_le _ _ Hq E).
Qed.



(** Whatever the collaborators do, a packer that returns has returned
    at most one file per unit. *)
Lemma split_category_files_count (base_output : string)
    (files : list SourceFile) (max_size_bytes : Q) (returned : list string) :
  split_files base_output files max_size_bytes = Returned returned ->
  (List.length returned <= List.length files)%nat.
Proof.
  unfold _split_category_files.
  destruct files as [|f files];
    [intros H; injection H as <-; cbn [List.length]; lia|].
  pose proof (files_no_more_than_units (unit_cost open_read)
                (category_part_output base_output) max_size_bytes
                category_warning paragraph doc_build (f :: files)) as Hn.
  destruct (run_loop _ _ _ _ _ _ loop_start (f :: files)) as [st|st];
    [|intros H; discriminate H].
  intros H. injection H as <-. rewrite rename_single_part_length.
  exact (Hn st eq_refl).
Qed.

(** What [_split_category_files] returns are the paths of the parts it
    handed to [doc.build] and whose build returned, in the order of the
    parts, the lone one renamed. *)
Lemma split_category_files_returns (base_output : string)
    (files : list SourceFile) (max_size_bytes : Q) (returned : list string) :
  split_files base_output files max_size_bytes = Returned returned ->
  returned
  = rename_single_part os_rename base_output
      (map bin_output
         (filter doc_build
            (category_parts open_read paragraph doc_build base_output files
               max_size_bytes))).
Proof.
  unfold _split_category_files, category_parts.
  destruct files as [|f files]; [intros H; injection H as <-; reflexivity|].
  pose proof (gathered_files_are_the_built_parts (unit_cost open_read)
                (category_part_output base_output) max_size_bytes
                category_warning paragraph doc_build (f :: files)) as Hg.
  destruct (run_loop _ _ _ _ _ _ loop_start (f :: files)) as [st|st];
    [|intros H; discriminate H].
  intros H. injection H as <-. now rewrite (Hg st eq_refl).
Qed.


Lemma flat_parts_hold_the_built_units (output_path : string)
    (code_files : list SourceFile) (max_pdf_size_mb : Q) :
  exists tail,
    filter (heading_built paragraph) code_files
    = (units_of (flat_parts open_read paragraph doc_build output_path
                   code_files max_pdf_size_mb) ++ tail)%list /\
    (forall returned,
        split_flat output_path code_files max_pdf_size_mb = Returned returned ->
        tail = []).
Proof.
  destruct (parts_hold_the_built_units (unit_cost_flat open_read)
              (flat_part_output output_path) (max_pdf_size_mb * 1024 * 1024)%Q
              flat_warning paragraph doc_build code_files) as [tail [H1 H2]].
  exists tail. split; [exact H1|]. intros returned Hr.
  unfold _generate_split_pdfs in Hr.
  destruct (run_loop _ _ _ _ _ _ loop_start code_files) as [st|st];
    [exact (H2 st eq_refl)|discriminate Hr].
Qed.

(** When every heading and every part is built, the packer returns one
    file per bin, whether the rename of a lone part returns or not. *)
Lemma split_category_files_one_per_bin (base_output : string)
    (files : list SourceFile) (max_size_bytes : Q) :
  headings_built paragraph files -> every_part_builds doc_build ->
  exists returned,
    split_files base_output files max_size_bytes = Returned returned /\
    List.length returned
    = List.length (category_bins open_read base_output files max_size_bytes).
Proof.
  intros Hb Hd. eexists.
  split; [exact (proj1 (split_category_files_when_built base_output files
                          max_size_bytes Hb))|].
  now rewrite rename_single_part_length, length_map, (filter_all _ _ _ Hd).
Qed.

Lemma split_category_one_per_bin (output_path category : string)
    (files : list SourceFile) (max_size_bytes : Q) (machine_format : bool) :
  headings_built paragraph files -> every_part_builds doc_build ->
  exists returned,
    split_category open_read paragraph doc_build os_rename output_path category
      files max_size_bytes machine_format
    = Returned returned /\
    List.length returned
    = List.length (category_bins open_read
                     (category_pdf output_path category machine_format)
                     files max_size_bytes).
Proof.
  intros Hb Hd. unfold split_category.
  destruct files as [|f files]; [now exists []|].
  now apply split_category_files_one_per_bin.
Qed.

(** When every heading is built, a category returns the paths of its
    bins whose build returned. *)
Lemma split_category_when_built (output_path category : string)
    (files : list SourceFile) (max_size_bytes : Q) (machine_format : bool) :
  headings_built paragraph files ->
  exists returned,
    split_category open_read paragraph doc_build os_rename output_path category
      files max_size_bytes machine_format
    = Returned returned /\
    List.length returned
    = List.length
        (filter doc_build
           (category_bins open_read
              (category_pdf output_path category machine_format)
              files max_size_bytes)).
Proof.
  intros Hb. unfold split_category.
  destruct files as [|f files]; [now exists []|].
  eexists.
  split; [exact (proj1 (split_category_files_when_built _ (f :: files)
                          max_size_bytes Hb))|].
  now rewrite rename_single_part_length, length_map.
Qed.

End PackersWithCollaborators.

(** *** Coverage and budget *)



(** C1: every part produced by [_split_category_files] records as its
    estimate the 1 MiB seed plus the contributions of its units, and a
    part with more than one unit has an estimate that does not exceed
    the budget.  A single unit is always emitted as one part holding
    that unit alone, whatever the budget. *)
Theorem multi_unit_bins_respect_the_budget :
  forall (open_read : string -> ReadOutcome) (base_output : string)
         (files : list SourceFile) (max_size_bytes : Q),
    Forall
      (fun b =>
         bin_estimate b
         = (1048576 + sum_contributions (unit_cost open_read) (bin_files b))%Z /\
         ((1 < List.length (bin_files b))%nat ->
          (inject_Z (bin_estimate b) <= max_size_bytes)%Q))
      (category_bins open_read base_output files max_size_bytes) /\
    (forall f : SourceFile,
        map bin_files (category_bins open_read base_output [f] max_size_bytes)
        = [[f]]).
Proof.
  intros. split.
  - exact (pack_bins_ok (unit_cost open_read)
             (category_part_output base_output) max_size_bytes files).
  - intros f. unfold category_bins, pack_bins.
    cbn [fold_left]. unfold add_file at 1.
    replace (has_content initial_state) with false by reflexivity.
    rewrite andb_false_r. reflexivity.
Qed.

Lemma multi_unit_bins_respect_the_budget_witness :
  (inject_Z (1048576 + 30720 + 30720) <= 2 * 1048576)%Q.
Proof.
  pose proof (proj1 (multi_unit_bins_respect_the_budget
                       (fun _ => ReadOk "x"%string) "out.pdf"%string
                       [("a", "a"); ("b", "b")]%string (2 * 1048576)%Q)) as H.
  rewrite Forall_forall in H.
  refine (proj2 (H (mkBin 1 "out_part1.pdf"%string
                      [("a", "a"); ("b", "b")]%string
                      (1048576 + 30720 + 30720)) _) _).
  - vm_compute. left. reflexivity.
  - cbn [bin_files List.length]. lia.
Defined.

(** *** One unit per part under a tight budget *)

Lemma singles_count (bins : list Bin) :
  Forall (fun b => List.length (bin_files b) = 1%nat) bins ->
  List.length (units_of bins) = List.length bins.
Proof.
  unfold units_of. induction 1 as [|b bins Hb _ IH]; trivial.
  cbn [map List.concat List.length]. rewrite length_app, Hb, IH. reflexivity.
Qed.



(** *** Number of parts and budget *)

Lemma split_category_files_length (open_read : string -> ReadOutcome)
    (base_output : string) (files : list SourceFile) (max_size_bytes : Q) :
  List.length (clean_category_files open_read base_output files max_size_bytes)
  = List.length (category_bins open_read base_output files max_size_bytes).
Proof.
  unfold clean_category_files. destruct files as [|f files]; [reflexivity|].
  cbv zeta.
  rewrite <- (length_map bin_output
                (category_bins open_read base_output (f :: files) max_size_bytes)).
  destruct (map bin_output _) as [|only [|other rest]]; try reflexivity.
  destruct (str_in "_part1.pdf" only); reflexivity.
Qed.

(** C8: for budgets [B1 <= B2], [_split_category_files] closes at least
    as many parts under [B1] as under [B2], and returns at least as many
    output files: raising the budget never raises the number of parts.
    The files are those it returns when every heading and every part
    is built. *)
Theorem larger_budget_never_more_bins :
  forall (open_read : string -> ReadOutcome) (base_output : string)
         (files : list SourceFile) (B1 B2 : Q),
    (0 < B1)%Q -> (B1 <= B2)%Q ->
    (List.length (category_bins open_read base_output files B2)
     <= List.length (category_bins open_read base_output files B1))%nat /\
    (List.length (clean_category_files open_read base_output files B2)
     <= List.length (clean_category_files open_read base_output files B1))%nat /\
    (forall (paragraph : string -> option string) (doc_build : Bin -> bool)
            (os_rename : string -> string -> bool),
        headings_built paragraph files -> every_part_builds doc_build ->
        exists files1 files2,
          _split_category_files open_read paragraph doc_build os_rename
            base_output files B1 = Returned files1 /\
          _split_category_files open_read paragraph doc_build os_rename
            base_output files B2 = Returned files2 /\
          (List.length files2 <= List.length files1)%nat).
Proof.
  intros open_read base_output files B1 B2 _ Hle.
  assert (H : (List.length (category_bins open_read base_output files B2)
               <= List.length (category_bins open_read base_output files B1))%nat).
  { unfold category_bins. apply pack_bins_count_monotone; trivial.
    apply unit_cost_nonneg. }
  split; trivial. split; [now rewrite !split_category_files_length|].
  intros paragraph doc_build os_rename Hb Hd.
  destruct (split_category_files_one_per_bin open_read paragraph doc_build
              os_rename base_output files B1 Hb Hd) as [files1 [E1 L1]].
  destruct (split_category_files_one_per_bin open_read paragraph doc_build
              os_rename base_output files B2 Hb Hd) as [files2 [E2 L2]].
  exists files1, files2. split; [exact E1|]. split; [exact E2|].
  rewrite L1, L2. exact H.
Qed.

Lemma larger_budget_never_more_bins_witness :
  (List.length (category_bins (fun _ => ReadOk "x"%string) "out.pdf"%string
                  [("a", "a"); ("b", "b")]%string (2 * 1048576))
   <= List.length (category_bins (fun _ => ReadOk "x"%string) "out.pdf"%string
                     [("a", "a"); ("b", "b")]%string ((39 # 100) * 1048576)))%nat.
Proof.
  apply (larger_budget_never_more_bins (fun _ => ReadOk "x"%string)
           "out.pdf"%string [("a", "a"); ("b", "b")]%string
           ((39 # 100) * 1048576) (2 * 1048576)).
  - vm_compute. reflexivity.
  - vm_compute. intros H. discriminate H.
Defined.

(** *** Naming of a single artifact *)

Section SingleArtifact.

Variable open_read : string -> ReadOutcome.
Variable base_output : string.






End SingleArtifact.




(** *** Budgets that are absent, zero or negative *)

(** C7, as stated, fails at the submission surface: a job uploaded with
    splitting switched on and a budget of 0 runs with the 0.39 MB
    default, and two small files come out as two parts. *)
Lemma upload_with_zero_budget_is_partitioned :
  generate_pdf (fun _ => ReadOk "x"%string) (fun _ => None) (fun _ => true)
    (fun _ _ => true) "out.pdf"%string
    (mkCodeFiles [("a.py", "/p/a.py"); ("b.py", "/p/b.py")]%string [] [])
    (upload_max_pdf_size_mb true (Parsed 0)) false
  = GenerationReturned
      (PathList ["out_regular_part1.pdf"; "out_regular_part2.pdf"]%string).
Proof. vm_compute. reflexivity. Qed.

(** C7, amended: [generate_pdf] does not partition when the budget it is
    given is absent, zero or negative: it returns the one document
    [output_path].  [upload_async] never hands over such a budget: a
    budget that is absent, unparsable, zero or negative is replaced by
    0.39 MB, so every job submitted through it takes the splitting
    path. *)
Theorem only_generate_pdf_skips_partitioning :
  forall (open_read : string -> ReadOutcome)
         (paragraph : string -> option string) (doc_build : Bin -> bool)
         (os_rename : string -> string -> bool) (output_path : string)
         (code_files : CodeFiles) (machine_format : bool),
    (forall max_pdf_size_mb : option Q,
        max_pdf_size_mb = None \/
        (exists q, max_pdf_size_mb = Some q /\ (q <= 0)%Q) ->
        generate_pdf open_read paragraph doc_build os_rename output_path
          code_files max_pdf_size_mb machine_format
        = GenerationReturned (OnePath output_path)) /\
    (forall (split_pdf_on : bool) (max_pdf_size : FloatParse),
        exists q,
          upload_max_pdf_size_mb split_pdf_on max_pdf_size = Some q /\
          (0 < q)%Q /\
          generate_pdf open_read paragraph doc_build os_rename output_path
            code_files (Some q) machine_format
          = generation_of
              (generate_split_documents open_read paragraph doc_build
                 os_rename output_path code_files q machine_format)) /\
    (forall max_pdf_size : FloatParse,
        upload_max_pdf_size_mb false max_pdf_size = Some (39 # 100)) /\
    (forall x : Q,
        (x <= 0)%Q -> upload_max_pdf_size_mb true (Parsed x) = Some (39 # 100)) /\
    upload_max_pdf_size_mb true ValueError = Some (39 # 100).
Proof.
  intros open_read paragraph doc_build os_rename output_path code_files
         machine_format.
  pose proof (fun q => generate_pdf_with_budget open_read paragraph doc_build
                         os_rename output_path code_files q machine_format)
    as Hpos.
  assert (Hdef : (0 < 39 # 100)%Q) by reflexivity.
  split; [intros mb H; now apply generate_pdf_without_budget|].
  split; [|split; [reflexivity|split; [|reflexivity]]].
  - intros [|] [x|]; unfold upload_max_pdf_size_mb.
    + destruct (Qle_bool x 0) eqn:E.
      * exists (39 # 100). auto.
      * exists x. assert (Hx : (0 < x)%Q).
        { apply Qnot_le_lt. intros Hle. apply Qle_bool_iff in Hle. congruence. }
        auto.
    + exists (39 # 100). auto.
    + exists (39 # 100). auto.
    + exists (39 # 100). auto.
  - intros x Hx. unfold upload_max_pdf_size_mb.
    apply Qle_bool_iff in Hx. now rewrite Hx.
Qed.

Lemma only_generate_pdf_skips_partitioning_witness :
  generate_pdf (fun _ => ReadOk "x"%string) (fun _ => None) (fun _ => true)
    (fun _ _ => true) "out.pdf"%string
    (mkCodeFiles [("a.py", "/p/a.py"); ("b.py", "/p/b.py")]%string [] [])
    (Some 0) false
  = GenerationReturned (OnePath "out.pdf"%string).
Proof.
  apply (proj1 (only_generate_pdf_skips_partitioning
                  (fun _ => ReadOk "x"%string) (fun _ => None) (fun _ => true)
                  (fun _ _ => true) "out.pdf"%string
                  (mkCodeFiles [("a.py", "/p/a.py"); ("b.py", "/p/b.py")]%string
                     [] [])
                  false)).
  right. exists 0. split; [reflexivity|]. vm_compute. intros H. discriminate H.
Defined.

(* ================================================================== *)
(** ** Properties of the range refiner *)
(* ================================================================== *)

Import Splitter.

Lemma Qlt_bool_true_iff (x y : Q) : Qlt_bool x y = true <-> (x < y)%Q.
Proof.
  unfold Qlt_bool. rewrite negb_true_iff. split.
  - intros H. apply Qnot_le_lt. intros Hle.
    apply Qle_bool_iff in Hle. congruence.
  - intros H. destruct (Qle_bool y x) eqn:E; trivial.
    apply Qle_bool_iff in E. exfalso. exact (Qlt_not_le _ _ H E).
Qed.

Section RefinerFacts.

Variable file_bytes : nat -> nat -> Z.
Variable total_pages : nat.
Variable max_size_mb : Q.
Variable output_prefix : string.

Local Abbreviation size := (get_pdf_size file_bytes).
Local Abbreviation grow' := (grow file_bytes total_pages max_size_mb).
Local Abbreviation shrink' := (shrink file_bytes max_size_mb).
Local Abbreviation settle' := (settle file_bytes total_pages max_size_mb).
Local Abbreviation loop := (split_loop file_bytes total_pages max_size_mb output_prefix).

(** The growing loop ends within [total_pages - end_page] iterations.
    When it iterated [k > 0] times, the range whose size made it iterate
    last is [end_page + 5 * (k - 1)], which was not yet the whole
    document. *)
Lemma grow_spec (fuel start_page end_page : nat) :
  (end_page <= total_pages)%nat -> (total_pages - end_page < fuel)%nat ->
  exists e k,
    grow' fuel start_page end_page = Some (e, k) /\
    (end_page <= e <= total_pages)%nat /\
    (k = 0%nat -> e = end_page) /\
    ((0 < k)%nat ->
     let last := (end_page + 5 * (k - 1))%nat in
     (last < total_pages)%nat /\ e = Nat.min (last + 5) total_pages /\
     (size start_page last < max_size_mb)%Q).
Proof.
  revert end_page. induction fuel as [|fuel IH]; intros end_page Hle Hfuel; [lia|].
  cbn [grow].
  destruct (Qlt_bool (size start_page end_page) max_size_mb
            && (end_page <? total_pages)%nat) eqn:Hcond.
  - apply andb_true_iff in Hcond. destruct Hcond as [Hsize Hlt].
    apply Qlt_bool_true_iff in Hsize. apply Nat.ltb_lt in Hlt.
    destruct (IH (Nat.min (end_page + 5) total_pages)) as [e [k [Hrun [Hb [Hz Hp]]]]];
      [lia|lia|].
    rewrite Hrun. exists e, (S k). split; [reflexivity|].
    split; [lia|]. split; [lia|]. intros _. cbv zeta.
    destruct k as [|k].
    + rewrite (Hz eq_refl). replace (end_page + 5 * (1 - 1))%nat with end_page by lia.
      now repeat split.
    + destruct Hp as [Hl [He Hs]]; [lia|].
      assert (Hstep : Nat.min (end_page + 5) total_pages = (end_page + 5)%nat) by lia.
      rewrite Hstep in *.
      replace (end_page + 5 * (S (S k) - 1))%nat
        with (end_page + 5 + 5 * (S k - 1))%nat by lia.
      now repeat split.
  - exists end_page, 0%nat. split; [reflexivity|]. split; [lia|].
    split; [trivial|]. intros H. lia.
Qed.

(** The shrinking loop ends within [end_page - start_page] iterations,
    takes 5 pages away each time, and never empties the range. *)
Lemma shrink_spec (fuel start_page end_page : nat) :
  (end_page - start_page < fuel)%nat ->
  exists e h,
    shrink' fuel start_page end_page = Some (e, h) /\
    (e + 5 * h = end_page)%nat /\
    ((start_page < end_page)%nat -> (start_page < e)%nat) /\
    ((0 < h)%nat ->
     (max_size_mb < size start_page end_page)%Q /\
     (start_page + 5 < end_page)%nat) /\
    ((1 < h)%nat ->
     (max_size_mb < size start_page (end_page - 5))%Q /\
     (start_page + 5 < end_page - 5)%nat).
Proof.
  revert end_page. induction fuel as [|fuel IH]; intros end_page Hfuel; [lia|].
  cbn [shrink].
  destruct (Qlt_bool max_size_mb (size start_page end_page)
            && (start_page + 5 <? end_page)%nat) eqn:Hcond.
  - apply andb_true_iff in Hcond. destruct Hcond as [Hsize Hlt].
    apply Qlt_bool_true_iff in Hsize. apply Nat.ltb_lt in Hlt.
    destruct (IH (end_page - 5)%nat) as [e [h [Hrun [Hsum [Hpos [H1 H2]]]]]]; [lia|].
    rewrite Hrun. exists e, (S h). split; [reflexivity|].
    split; [lia|]. split; [lia|]. split; [now split|].
    intros Hh. apply H1. lia.
  - exists end_page, 0%nat. split; [reflexivity|]. split; [lia|].
    split; [trivial|]. split; intros H; lia.
Qed.

(** Every part settles on a non-empty range inside the document. *)
Lemma settle_total (fuel start_page : nat) :
  (start_page < total_pages)%nat -> (total_pages - start_page < fuel)%nat ->
  exists e k,
    settle' fuel start_page = Some (e, k) /\
    (start_page < e <= total_pages)%nat.
Proof.
  intros Hlt Hfuel. unfold settle.
  destruct (grow_spec fuel start_page (Nat.min (start_page + 10) total_pages))
    as [e1 [k1 [Hg [Hb1 _]]]]; [lia|lia|].
  rewrite Hg.
  destruct (shrink_spec fuel start_page e1) as [e2 [k2 [Hs [Hsum [Hpos _]]]]]; [lia|].
  rewrite Hs. exists e2, (k1 + k2)%nat. split; [reflexivity|]. lia.
Qed.

(** At most 5 pages left: they form the last part, with no re-render. *)
Lemma settle_last_pages (fuel start_page : nat) :
  (start_page < total_pages <= start_page + 5)%nat -> (0 < fuel)%nat ->
  settle' fuel start_page = Some (total_pages, 0%nat).
Proof.
  intros Hlast Hfuel. destruct fuel as [|fuel]; [lia|].
  unfold settle. cbn [grow].
  replace (Nat.min (start_page + 10) total_pages) with total_pages by lia.
  replace (total_pages <? total_pages)%nat with false
    by (symmetry; apply Nat.ltb_ge; lia).
  rewrite andb_false_r. cbn [shrink].
  replace (start_page + 5 <? total_pages)%nat with false
    by (symmetry; apply Nat.ltb_ge; lia).
  rewrite andb_false_r. reflexivity.
Qed.

Lemma get_pdf_size_monotone (start_page end_page end_page' : nat) :
  grows_with_pages file_bytes -> (end_page <= end_page')%nat ->
  (size start_page end_page <= size start_page end_page')%Q.
Proof.
  intros Hmono Hle. unfold get_pdf_size, Qdiv.
  apply Qmult_le_compat_r.
  - apply inject_Z_le. now apply Hmono.
  - vm_compute. intros H. discriminate H.
Qed.

(** When files grow with their pages, a part costs at most one re-render
    per 5 pages it takes, unless it stops 5 pages before the end of the
    document; then the count is within the pages that were left. *)
Lemma settle_bound (fuel start_page e k : nat) :
  grows_with_pages file_bytes ->
  (start_page < total_pages)%nat -> (total_pages - start_page < fuel)%nat ->
  settle' fuel start_page = Some (e, k) ->
  (5 * k <= e - start_page)%nat \/
  ((e + 5)%nat = total_pages /\ (5 * k <= total_pages - start_page)%nat).
Proof.
  intros Hmono Hlt Hfuel. unfold settle.
  destruct (grow_spec fuel start_page (Nat.min (start_page + 10) total_pages))
    as [e1 [k1 [Hg [Hb1 [Hz1 Hp1]]]]]; [lia|lia|].
  rewrite Hg.
  destruct (shrink_spec fuel start_page e1)
    as [e2 [k2 [Hs [Hsum [Hpos [Hh1 Hh2]]]]]]; [lia|].
  rewrite Hs. intros H. injection H as He Hk. subst e k.
  destruct k1 as [|k1].
  - specialize (Hz1 eq_refl). subst e1.
    assert (Hk2 : (k2 <= 1)%nat).
    { destruct (le_lt_dec k2 1) as [|Hgt]; trivial.
      destruct (Hh2 Hgt) as [_ Hfar]. lia. }
    destruct k2 as [|[|k2]]; [left; lia| |lia].
    destruct (Hh1 ltac:(lia)) as [_ Hfar]. lia.
  - destruct Hp1 as [Hlast [He1 Hsize]]; [lia|]. cbv zeta in *.
    replace (S k1 - 1)%nat with k1 in * by lia.
    assert (Hten : Nat.min (start_page + 10) total_pages = (start_page + 10)%nat) by lia.
    rewrite Hten in *.
    assert (Hk2 : (k2 <= 1)%nat).
    { destruct (le_lt_dec k2 1) as [|Hgt]; trivial.
      destruct (Hh2 Hgt) as [Hbig _]. exfalso.
      apply (Qlt_irrefl max_size_mb).
      apply Qlt_trans with (size start_page (e1 - 5)); trivial.
      apply Qle_lt_trans with (2 := Hsize).
      apply get_pdf_size_monotone; trivial. lia. }
    destruct k2 as [|[|k2]]; [left; lia| |lia].
    lia.
Qed.

End RefinerFacts.

(** *** Chains of parts *)

Lemma chained_bounds (parts : list Part) (first last : nat) :
  chained first last parts ->
  (first <= last)%nat /\
  Forall (fun q => (first <= part_start q)%nat /\ (part_end q <= last)%nat) parts.
Proof.
  revert first. induction parts as [|p rest IH]; intros first H; cbn [chained] in H.
  - split; [lia|constructor].
  - destruct H as [Hs [Hlt Hrest]]. destruct (IH _ Hrest) as [Hle Hall].
    split; [lia|]. constructor; [lia|].
    eapply Forall_impl; [|exact Hall]. cbv beta. intros q [H1 H2]. lia.
Qed.

(** Every page of a chain is written to one part and to no other. *)
Lemma chained_cover (parts : list Part) (first last page : nat) :
  chained first last parts -> (first <= page < last)%nat ->
  exists q, In q parts /\ holds_page q page /\
            forall q', In q' parts -> holds_page q' page -> q' = q.
Proof.
  revert first. induction parts as [|p rest IH]; intros first H Hpage;
    cbn [chained] in H; [lia|].
  destruct H as [Hs [Hlt Hrest]].
  destruct (chained_bounds _ _ _ Hrest) as [_ Hall]. rewrite Forall_forall in Hall.
  destruct (lt_dec page (part_end p)) as [Hin|Hout].
  - exists p. split; [now left|]. split; [unfold holds_page; lia|].
    intros q' [Hq|Hq] Hholds; [now symmetry|].
    destruct (Hall _ Hq) as [Hlow _]. unfold holds_page in Hholds. lia.
  - destruct (IH _ Hrest) as [q [Hq [Hholds Huniq]]]; [lia|].
    exists q. split; [now right|]. split; trivial.
    intros q' [Hq'|Hq'] Hh; [|now apply Huniq].
    subst q'. unfold holds_page in Hh. lia.
Qed.

(** *** The outer loop *)

Section LoopFacts.

Variable file_bytes : nat -> nat -> Z.
Variable total_pages : nat.
Variable max_size_mb : Q.
Variable output_prefix : string.

Local Abbreviation loop := (split_loop file_bytes total_pages max_size_mb output_prefix).

Lemma loop_last_pages (fuel start_page current_part : nat) :
  (start_page < total_pages <= start_page + 5)%nat -> (2 <= fuel)%nat ->
  loop fuel start_page current_part
  = Some ([{| part_number := current_part;
              part_output := (output_prefix ++ "_part"
                              ++ str_of_nat current_part ++ ".pdf")%string;
              part_start := start_page;
              part_end := total_pages |}], 0%nat).
Proof.
  intros Hlast Hfuel. destruct fuel as [|[|fuel]]; try lia.
  cbn [split_loop].
  replace (start_page <? total_pages)%nat with true
    by (symmetry; apply Nat.ltb_lt; lia).
  rewrite settle_last_pages by lia.
  replace (total_pages <? total_pages)%nat with false
    by (symmetry; apply Nat.ltb_ge; lia).
  reflexivity.
Qed.

(** With more fuel than pages left the loop returns; its parts are
    numbered from [current_part] and chain from [start_page] to the end
    of the document.  When files grow with their pages the grow and
    shrink iterations number at most a fifth of the pages left. *)
Lemma loop_spec (fuel start_page current_part : nat) :
  (start_page <= total_pages)%nat -> (total_pages - start_page < fuel)%nat ->
  exists parts steps,
    loop fuel start_page current_part = Some (parts, steps) /\
    chained start_page total_pages parts /\
    map part_number parts = seq current_part (List.length parts) /\
    (grows_with_pages file_bytes ->
     (5 * steps <= total_pages - start_page)%nat).
Proof.
  revert start_page current_part.
  induction fuel as [|fuel IH]; intros start_page current_part Hle Hfuel; [lia|].
  cbn [split_loop].
  destruct (start_page <? total_pages)%nat eqn:Hlt.
  - apply Nat.ltb_lt in Hlt.
    destruct (settle_total file_bytes total_pages max_size_mb (S fuel) start_page)
      as [e [k [Hset Hrange]]]; [lia|lia|].
    rewrite Hset.
    destruct (IH e (S current_part)) as [parts [steps [Hrun [Hch [Hnum Hbound]]]]];
      [lia|lia|].
    rewrite Hrun. eexists. eexists. split; [reflexivity|].
    split; [|split].
    + cbn [chained part_start part_end]. split; [reflexivity|]. split; [lia|exact Hch].
    + cbn [map List.length seq part_number]. now rewrite Hnum.
    + intros Hmono. specialize (Hbound Hmono).
      destruct (settle_bound file_bytes total_pages max_size_mb (S fuel)
                  start_page e k Hmono Hlt Hfuel Hset) as [Hk|[Hend Hk]]; [lia|].
      rewrite (loop_last_pages fuel e (S current_part)) in Hrun by lia.
      injection Hrun as _ Hsteps. lia.
  - apply Nat.ltb_ge in Hlt. exists [], 0%nat. split; [reflexivity|].
    split; [cbn [chained]; lia|]. split; [reflexivity|]. intros _. lia.
Qed.

End LoopFacts.




(* ================================================================== *)
(** ** Further properties of the packers *)
(* ================================================================== *)

(** *** Parts are never empty *)

Section PartsOfTheLoop.

Variable contribution : SourceFile -> Z.
Variable part_output : nat -> string.
Variable max_size_bytes : Q.

Lemma add_file_nonempty (st : PackState) (f : SourceFile) :
  Forall (fun b => bin_files b <> []) (output_bins st) ->
  Forall (fun b => bin_files b <> [])
         (output_bins (add_file contribution part_output max_size_bytes st f)).
Proof.
  intros H. unfold add_file.
  destruct (exceeds _ _); cbn [andb]; trivial.
  destruct (has_content st) eqn:Hc; cbn [output_bins]; trivial.
  apply Forall_app. split; trivial. constructor; [|constructor].
  cbn [bin_files close_bin]. intros E. unfold has_content in Hc.
  rewrite E in Hc. discriminate Hc.
Qed.

Lemma pack_bins_nonempty (files : list SourceFile) :
  Forall (fun b => bin_files b <> [])
         (pack_bins contribution part_output max_size_bytes files).
Proof.
  unfold pack_bins.
  assert (H : forall st,
             Forall (fun b => bin_files b <> []) (output_bins st) ->
             Forall (fun b => bin_files b <> [])
               (output_bins (fold_left
                  (add_file contribution part_output max_size_bytes) files st))).
  { induction files as [|f files IH]; intros st Hst; cbn [fold_left]; trivial.
    apply IH. now apply add_file_nonempty. }
  specialize (H initial_state (Forall_nil _)).
  unfold finish. destruct (has_content _) eqn:Hc; trivial.
  apply Forall_app. split; trivial. constructor; [|constructor].
  cbn [bin_files close_bin]. intros E. unfold has_content in Hc.
  rewrite E in Hc. discriminate Hc.
Qed.

Lemma nonempty_parts_count (bins : list Bin) :
  Forall (fun b => bin_files b <> []) bins ->
  (List.length bins <= List.length (units_of bins))%nat.
Proof.
  unfold units_of. induction 1 as [|b bins Hb _ IH]; cbn [map List.concat List.length].
  - lia.
  - rewrite length_app. destruct (bin_files b); [now elim Hb|].
    cbn [List.length]. lia.
Qed.

Lemma pack_bins_count_bounds (files : list SourceFile) :
  (List.length (pack_bins contribution part_output max_size_bytes files)
   <= List.length files)%nat /\
  (files <> [] ->
   (1 <= List.length (pack_bins contribution part_output max_size_bytes files))%nat).
Proof.
  split.
  - rewrite <- (pack_bins_units contribution part_output max_size_bytes files) at 2.
    apply nonempty_parts_count, pack_bins_nonempty.
  - intros Hne.
    destruct (pack_bins contribution part_output max_size_bytes files) eqn:E.
    + exfalso. apply Hne.
      rewrite <- (pack_bins_units contribution part_output max_size_bytes files).
      now rewrite E.
    + cbn [List.length]. lia.
Qed.

(** *** A part is closed only when the next unit does not fit *)





End PartsOfTheLoop.

(** *** What [_split_category_files] returns *)

Lemma category_bins_nil (open_read : string -> ReadOutcome)
    (base_output : string) (max_size_bytes : Q) :
  category_bins open_read base_output [] max_size_bytes = [].
Proof. reflexivity. Qed.

Lemma rename_of_many (os_rename : string -> string -> bool)
    (base_output : string) (output_files : list string) :
  (2 <= List.length output_files)%nat ->
  rename_single_part os_rename base_output output_files = output_files.
Proof.
  destruct output_files as [|only [|other rest]]; cbn [List.length];
    [lia|lia|reflexivity].
Qed.

Lemma rename_file_of_many (os_rename : string -> string -> bool)
    (output_path : string) (output_files : list string) :
  (2 <= List.length output_files)%nat ->
  rename_single_file os_rename output_path output_files = output_files.
Proof.
  destruct output_files as [|only [|other rest]]; cbn [List.length];
    [lia|lia|reflexivity].
Qed.

Lemma map_to_one_value (A B : Type) (g : A -> B) (c : B) (l : list A) :
  (forall x, In x l -> g x = c) -> map g l = repeat c (List.length l).
Proof.
  induction l as [|x l IH]; intros H; cbn [map List.length repeat]; trivial.
  rewrite (H x (or_introl eq_refl)), IH; trivial.
  intros y Hy. apply H. now right.
Qed.

(** X1: the parts [_split_category_files] hands to [doc.build] are
    numbered 1, 2, ... without gaps, the k-th is written to
    [base_output] with [".pdf"] replaced by ["_part<k>.pdf"], and what
    the function returns are the paths of the parts whose build
    returned, in part order, a lone one renamed.  When every heading
    and every part is built and there are two parts or more, it returns
    the path of every part. *)
Theorem category_parts_are_numbered_from_one :
  forall (open_read : string -> ReadOutcome)
         (paragraph : string -> option string) (doc_build : Bin -> bool)
         (os_rename : string -> string -> bool) (base_output : string)
         (files : list SourceFile) (max_size_bytes : Q),
    let parts :=
      category_parts open_read paragraph doc_build base_output files
        max_size_bytes in
    let part_name k :=
      str_replace base_output ".pdf" ("_part" ++ str_of_nat k ++ ".pdf")%string in
    map bin_part parts = seq 1 (List.length parts) /\
    map bin_output parts = map part_name (seq 1 (List.length parts)) /\
    (forall returned,
        _split_category_files open_read paragraph doc_build os_rename
          base_output files max_size_bytes = Returned returned ->
        returned
        = rename_single_part os_rename base_output
            (map bin_output (filter doc_build parts))) /\
    (headings_built paragraph files -> every_part_builds doc_build ->
     (2 <= List.length parts)%nat ->
     _split_category_files open_read paragraph doc_build os_rename
       base_output files max_size_bytes
     = Returned (map part_name (seq 1 (List.length parts)))).
Proof.
  intros open_read paragraph doc_build os_rename base_output files
         max_size_bytes parts part_name.
  destruct (handed_parts_are_numbered (unit_cost open_read)
              (category_part_output base_output) max_size_bytes
              category_warning paragraph doc_build files) as [Hparts Hnames].
  fold (category_parts open_read paragraph doc_build base_output files
          max_size_bytes) in Hparts, Hnames.
  fold parts in Hparts, Hnames.
  split; [exact Hparts|]. split; [exact Hnames|].
  split; [intros returned; apply split_category_files_returns|].
  intros Hb Hd Htwo.
  destruct (split_category_files_when_built open_read paragraph doc_build
              os_rename base_output files max_size_bytes Hb) as [Hr Hp].
  fold parts in Hp. rewrite Hr, <- Hp, (filter_all _ _ _ Hd).
  rewrite rename_of_many by (now rewrite length_map).
  f_equal. exact Hnames.
Qed.

Lemma category_parts_are_numbered_from_one_witness :
  _split_category_files (fun _ => ReadOk "x"%string) (fun _ => None)
    (fun _ => true) (fun _ _ => true) "out.pdf"%string
    [("a", "a"); ("b", "b")]%string 1000000
  = Returned ["out_part1.pdf"; "out_part2.pdf"]%string.
Proof.
  apply (proj2 (proj2 (proj2 (category_parts_are_numbered_from_one
                  (fun _ => ReadOk "x"%string) (fun _ => None) (fun _ => true)
                  (fun _ _ => true) "out.pdf"%string
                  [("a", "a"); ("b", "b")]%string 1000000)))).
  - intros f _. reflexivity.
  - intros b. reflexivity.
  - vm_compute. lia.
Defined.

(** X2: [_split_category_files] returns at most one file per unit,
    whatever its collaborators do, and an empty list for an empty unit
    list.  When every heading is built no part is empty, and when every
    part is built too, the returned list is empty only for an empty
    unit list. *)
Theorem category_parts_are_never_empty :
  forall (open_read : string -> ReadOutcome)
         (paragraph : string -> option string) (doc_build : Bin -> bool)
         (os_rename : string -> string -> bool) (base_output : string)
         (files : list SourceFile) (max_size_bytes : Q),
    (forall returned,
        _split_category_files open_read paragraph doc_build os_rename
          base_output files max_size_bytes = Returned returned ->
        (List.length returned <= List.length files)%nat) /\
    (files = [] ->
     _split_category_files open_read paragraph doc_build os_rename
       base_output files max_size_bytes = Returned []) /\
    (headings_built paragraph files ->
     Forall (fun b => bin_files b <> [])
            (category_parts open_read paragraph doc_build base_output files
               max_size_bytes) /\
     (every_part_builds doc_build ->
      exists returned,
        _split_category_files open_read paragraph doc_build os_rename
          base_output files max_size_bytes = Returned returned /\
        (returned = [] <-> files = []))).
Proof.
  intros open_read paragraph doc_build os_rename base_output files
         max_size_bytes.
  split; [intros returned; apply split_category_files_count|].
  split; [intros ->; reflexivity|].
  intros Hb.
  destruct (split_category_files_when_built open_read paragraph doc_build
              os_rename base_output files max_size_bytes Hb) as [_ Hp].
  split; [rewrite Hp; apply pack_bins_nonempty|].
  intros Hd.
  destruct (split_category_files_one_per_bin open_read paragraph doc_build
              os_rename base_output files max_size_bytes Hb Hd)
    as [returned [Hr Hlen]].
  exists returned. split; [exact Hr|].
  destruct (pack_bins_count_bounds (unit_cost open_read)
              (category_part_output base_output) max_size_bytes files)
    as [_ Hge].
  fold (category_bins open_read base_output files max_size_bytes) in Hge.
  rewrite <- Hlen in Hge. split.
  - intros E. destruct files as [|f files]; trivial.
    rewrite E in Hge. cbn [List.length] in Hge.
    assert (Hne : f :: files <> []) by discriminate. specialize (Hge Hne). lia.
  - intros E. subst files. cbn [category_bins] in Hlen.
    rewrite category_bins_nil in Hlen.
    destruct returned; [reflexivity|discriminate Hlen].
Qed.




(** X4: when [base_output] contains no [".pdf"], the replacement that
    builds part names changes nothing: every part is written to
    [base_output] itself, and the returned list repeats that one path
    once per part whose build returned. *)
Theorem parts_share_one_path_without_pdf_in_the_name :
  forall (open_read : string -> ReadOutcome)
         (paragraph : string -> option string) (doc_build : Bin -> bool)
         (os_rename : string -> string -> bool) (base_output : string)
         (files : list SourceFile) (max_size_bytes : Q),
    str_in ".pdf" base_output = false ->
    (forall returned,
        _split_category_files open_read paragraph doc_build os_rename
          base_output files max_size_bytes = Returned returned ->
        returned
        = repeat base_output
            (List.length
               (filter doc_build
                  (category_parts open_read paragraph doc_build base_output
                     files max_size_bytes)))) /\
    (headings_built paragraph files -> every_part_builds doc_build ->
     _split_category_files open_read paragraph doc_build os_rename
       base_output files max_size_bytes
     = Returned
         (repeat base_output
            (List.length
               (category_bins open_read base_output files max_size_bytes)))).
Proof.
  intros open_read paragraph doc_build os_rename base_output files
         max_size_bytes Hno.
  assert (Hgen : forall returned,
             _split_category_files open_read paragraph doc_build os_rename
               base_output files max_size_bytes = Returned returned ->
             returned
             = repeat base_output
                 (List.length
                    (filter doc_build
                       (category_parts open_read paragraph doc_build
                          base_output files max_size_bytes)))).
  { intros returned Hr.
    apply split_category_files_returns in Hr.
    destruct (handed_parts_are_numbered (unit_cost open_read)
                (category_part_output base_output) max_size_bytes
                category_warning paragraph doc_build files) as [_ Hnames].
    fold (category_parts open_read paragraph doc_build base_output files
            max_size_bytes) in Hnames.
    set (parts := category_parts open_read paragraph doc_build base_output
                    files max_size_bytes) in *.
    assert (Hall : map bin_output (filter doc_build parts)
                   = repeat base_output (List.length (filter doc_build parts))).
    { apply map_to_one_value. intros b Hb.
      apply filter_In in Hb. destruct Hb as [Hb _].
      assert (Hin : In (bin_output b) (map bin_output parts))
        by (apply in_map; exact Hb).
      rewrite Hnames in Hin. apply in_map_iff in Hin.
      destruct Hin as [k [Hk _]]. rewrite <- Hk.
      unfold category_part_output. now apply replace_absent. }
    rewrite Hall in Hr. rewrite Hr. unfold rename_single_part.
    destruct (List.length (filter doc_build parts)) as [|[|n]];
      cbn [repeat]; trivial.
    destruct (_ && _); reflexivity. }
  split; [exact Hgen|].
  intros Hb Hd.
  destruct (split_category_files_when_built open_read paragraph doc_build
              os_rename base_output files max_size_bytes Hb) as [Hr Hp].
  rewrite Hr. f_equal. rewrite (Hgen _ Hr), Hp, (filter_all _ _ _ Hd).
  reflexivity.
Qed.

Lemma parts_share_one_path_without_pdf_in_the_name_witness :
  _split_category_files (fun _ => ReadOk "x"%string) (fun _ => None)
    (fun _ => true) (fun _ _ => true) "out"%string
    [("a", "a"); ("b", "b")]%string 1000000
  = Returned ["out"; "out"]%string.
Proof.
  apply (proj2 (parts_share_one_path_without_pdf_in_the_name
                  (fun _ => ReadOk "x"%string) (fun _ => None) (fun _ => true)
                  (fun _ _ => true) "out"%string
                  [("a", "a"); ("b", "b")]%string 1000000 eq_refl)).
  - intros f _. reflexivity.
  - intros b. reflexivity.
Defined.

(** *** The flat packer [_generate_split_pdfs] *)

(** X5: the units of the parts of [_generate_split_pdfs] are, in order,
    the first of the units whose heading is built, all of them when it
    returns: a unit whose heading raises is skipped.  The parts are
    numbered from 1.  When every heading is built the parts hold the
    input units in their order, each part records the 1 MiB seed plus
    [2 * len + 5000] per unit, a part with more than one unit stays
    within [max_pdf_size_mb * 1024 * 1024], and two or more parts that
    are all built are returned as [<base_name>_part<k><ext>] for
    k = 1, 2, ... *)
Theorem flat_packer_covers_units_within_budget :
  forall (open_read : string -> ReadOutcome)
         (paragraph : string -> option string) (doc_build : Bin -> bool)
         (os_rename : string -> string -> bool) (output_path : string)
         (code_files : list SourceFile) (max_pdf_size_mb : Q),
    let parts :=
      flat_parts open_read paragraph doc_build output_path code_files
        max_pdf_size_mb in
    (exists tail,
        filter (heading_built paragraph) code_files
        = (units_of parts ++ tail)%list /\
        (forall returned,
            _generate_split_pdfs open_read paragraph doc_build os_rename
              output_path code_files max_pdf_size_mb = Returned returned ->
            tail = [])) /\
    map bin_part parts = seq 1 (List.length parts) /\
    (headings_built paragraph code_files ->
     units_of parts = code_files /\
     Forall
       (fun b =>
          bin_estimate b
          = (1048576 + sum_contributions (unit_cost_flat open_read) (bin_files b))%Z /\
          ((1 < List.length (bin_files b))%nat ->
           (inject_Z (bin_estimate b) <= max_pdf_size_mb * 1024 * 1024)%Q))
       parts /\
     (every_part_builds doc_build -> (2 <= List.length parts)%nat ->
      _generate_split_pdfs open_read paragraph doc_build os_rename
        output_path code_files max_pdf_size_mb
      = Returned
          (map (fun k => (fst (splitext output_path) ++ "_part" ++ str_of_nat k
                          ++ snd (splitext output_path))%string)
               (seq 1 (List.length parts))))).
Proof.
  intros open_read paragraph doc_build os_rename output_path code_files
         max_pdf_size_mb parts.
  split; [apply flat_parts_hold_the_built_units|].
  destruct (handed_parts_are_numbered (unit_cost_flat open_read)
              (flat_part_output output_path) (max_pdf_size_mb * 1024 * 1024)%Q
              flat_warning paragraph doc_build code_files) as [Hparts Hnames].
  fold (flat_parts open_read paragraph doc_build output_path code_files
          max_pdf_size_mb) in Hparts, Hnames.
  fold parts in Hparts, Hnames.
  split; [exact Hparts|].
  intros Hb.
  destruct (generate_split_pdfs_when_built open_read paragraph doc_build
              os_rename output_path code_files max_pdf_size_mb Hb) as [Hr Hp].
  fold parts in Hp.
  split; [rewrite Hp; apply pack_bins_units|].
  split; [rewrite Hp;
          exact (pack_bins_ok (unit_cost_flat open_read)
                   (flat_part_output output_path)
                   (max_pdf_size_mb * 1024 * 1024)%Q code_files)|].
  intros Hd Htwo.
  rewrite Hr, <- Hp, (filter_all _ _ _ Hd).
  rewrite rename_file_of_many by (now rewrite length_map).
  f_equal. rewrite Hnames. apply map_ext. intros k.
  unfold flat_part_output. now destruct (splitext output_path).
Qed.

Lemma flat_packer_covers_units_within_budget_witness :
  _generate_split_pdfs (fun _ => ReadOk "x"%string) (fun _ => None)
    (fun _ => true) (fun _ _ => true) "up/out.pdf"%string
    [("a", "a"); ("b", "b")]%string (39 # 100)
  = Returned ["up/out_part1.pdf"; "up/out_part2.pdf"]%string.
Proof.
  refine (proj2 (proj2 (proj2 (proj2 (flat_packer_covers_units_within_budget
                  (fun _ => ReadOk "x"%string) (fun _ => None) (fun _ => true)
                  (fun _ _ => true) "up/out.pdf"%string
                  [("a", "a"); ("b", "b")]%string (39 # 100))) _)) _ _).
  - intros f _. reflexivity.
  - intros b. reflexivity.
  - vm_compute. lia.
Defined.

(** X24: whatever [Paragraph], [doc.build] and [os.rename] do, every
    part that [_split_category_files] or [_generate_split_pdfs] hands
    to [doc.build] records as its estimate the 1 MiB seed plus the
    contributions of its units, and a part with more than one unit
    stays within the budget: a unit skipped because its heading raised
    leaves no trace in the estimate, and a warning never makes room for
    a unit that does not fit. *)
Theorem handed_parts_respect_the_budget :
  forall (open_read : string -> ReadOutcome)
         (paragraph : string -> option string) (doc_build : Bin -> bool)
         (output_path : string) (files : list SourceFile)
         (max_size_bytes max_pdf_size_mb : Q),
    Forall
      (fun b =>
         bin_estimate b
         = (1048576 + sum_contributions (unit_cost open_read) (bin_files b))%Z /\
         ((1 < List.length (bin_files b))%nat ->
          (inject_Z (bin_estimate b) <= max_size_bytes)%Q))
      (category_parts open_read paragraph doc_build output_path files
         max_size_bytes) /\
    Forall
      (fun b =>
         bin_estimate b
         = (1048576 + sum_contributions (unit_cost_flat open_read) (bin_files b))%Z /\
         ((1 < List.length (bin_files b))%nat ->
          (inject_Z (bin_estimate b) <= max_pdf_size_mb * 1024 * 1024)%Q))
      (flat_parts open_read paragraph doc_build output_path files
         max_pdf_size_mb).
Proof.
  intros open_read paragraph doc_build output_path files max_size_bytes
         max_pdf_size_mb.
  split.
  - exact (handed_parts_are_accounted (unit_cost open_read)
             (category_part_output output_path) max_size_bytes
             category_warning paragraph doc_build files).
  - exact (handed_parts_are_accounted (unit_cost_flat open_read)
             (flat_part_output output_path) (max_pdf_size_mb * 1024 * 1024)%Q
             flat_warning paragraph doc_build files).
Qed.

(** *** The per-category driver *)

Lemma category_bins_one_per_unit (open_read : string -> ReadOutcome)
    (base_output : string) (files : list SourceFile) (max_size_bytes : Q) :
  (max_size_bytes < inject_Z (HEADER_SEED + MIN_FILE_CONTRIBUTION))%Q ->
  List.length (category_bins open_read base_output files max_size_bytes)
  = List.length files.
Proof.
  intros Htight.
  rewrite <- (pack_bins_units (unit_cost open_read)
                (category_part_output base_output) max_size_bytes files) at 2.
  symmetry. apply singles_count.
  apply pack_bins_singles; [apply unit_cost_floor|exact Htight].
Qed.

Lemma split_category_count (open_read : string -> ReadOutcome)
    (paragraph : string -> option string) (doc_build : Bin -> bool)
    (os_rename : string -> string -> bool) (output_path category : string)
    (files : list SourceFile) (max_size_bytes : Q) (machine_format : bool)
    (returned : list string) :
  split_category open_read paragraph doc_build os_rename output_path category
    files max_size_bytes machine_format = Returned returned ->
  (List.length returned <= List.length files)%nat.
Proof.
  unfold split_category.
  destruct files as [|f files];
    [intros H; injection H as <-; cbn [List.length]; lia|].
  apply split_category_files_count.
Qed.

(** X6: with a positive budget [generate_pdf] packs the regular, the
    iOS and the Android category one after the other, each on its own
    and under its own name, and returns the files of the regular
    category, then those of the iOS category, then those of the Android
    category: at most one file per unit.  When the packer of a category
    raises, [generate_pdf] raises.  When every heading and every part
    is built, each category gives one file per bin, and the list is
    empty exactly when all three categories are. *)
Theorem categories_are_packed_one_after_the_other :
  forall (open_read : string -> ReadOutcome)
         (paragraph : string -> option string) (doc_build : Bin -> bool)
         (os_rename : string -> string -> bool) (output_path : string)
         (code_files : CodeFiles) (max_pdf_size_mb : Q) (machine_format : bool),
    (0 < max_pdf_size_mb)%Q ->
    let files_of category files :=
      split_category open_read paragraph doc_build os_rename output_path
        category files (max_pdf_size_mb * 1048576) machine_format in
    let bins_of category files :=
      category_bins open_read (category_pdf output_path category machine_format)
        files (max_pdf_size_mb * 1048576) in
    let generated :=
      generate_pdf open_read paragraph doc_build os_rename output_path
        code_files (Some max_pdf_size_mb) machine_format in
    (forall regular_pdfs ios_pdfs android_pdfs : list string,
        files_of "regular"%string (regular code_files) = Returned regular_pdfs ->
        files_of "ios"%string (ios code_files) = Returned ios_pdfs ->
        files_of "android"%string (android code_files) = Returned android_pdfs ->
        generated
        = GenerationReturned
            (PathList (regular_pdfs ++ ios_pdfs ++ android_pdfs)%list) /\
        (List.length (regular_pdfs ++ ios_pdfs ++ android_pdfs)%list
         <= List.length (regular code_files) + List.length (ios code_files)
            + List.length (android code_files))%nat) /\
    (files_of "regular"%string (regular code_files) = Raised \/
     files_of "ios"%string (ios code_files) = Raised \/
     files_of "android"%string (android code_files) = Raised ->
     generated = GenerationRaised) /\
    (headings_built paragraph (regular code_files) ->
     headings_built paragraph (ios code_files) ->
     headings_built paragraph (android code_files) ->
     every_part_builds doc_build ->
     exists regular_pdfs ios_pdfs android_pdfs : list string,
       generated
       = GenerationReturned
           (PathList (regular_pdfs ++ ios_pdfs ++ android_pdfs)%list) /\
       files_of "regular"%string (regular code_files) = Returned regular_pdfs /\
       files_of "ios"%string (ios code_files) = Returned ios_pdfs /\
       files_of "android"%string (android code_files) = Returned android_pdfs /\
       List.length regular_pdfs
       = List.length (bins_of "regular"%string (regular code_files)) /\
       List.length ios_pdfs
       = List.length (bins_of "ios"%string (ios code_files)) /\
       List.length android_pdfs
       = List.length (bins_of "android"%string (android code_files)) /\
       ((regular_pdfs ++ ios_pdfs ++ android_pdfs)%list = [] <->
        regular code_files = [] /\ ios code_files = [] /\
        android code_files = [])).
Proof.
  intros open_read paragraph doc_build os_rename output_path code_files
         max_pdf_size_mb machine_format Hpos files_of bins_of generated.
  assert (Hg : generated
               = generation_of
                   (bind (files_of "regular"%string (regular code_files))
                      (fun regular_pdfs =>
                    bind (files_of "ios"%string (ios code_files))
                      (fun ios_pdfs =>
                    bind (files_of "android"%string (android code_files))
                      (fun android_pdfs =>
                    Returned (regular_pdfs ++ ios_pdfs ++ android_pdfs)%list))))).
  { unfold generated. rewrite generate_pdf_with_budget by exact Hpos.
    reflexivity. }
  assert (Hall : forall regular_pdfs ios_pdfs android_pdfs : list string,
             files_of "regular"%string (regular code_files)
             = Returned regular_pdfs ->
             files_of "ios"%string (ios code_files) = Returned ios_pdfs ->
             files_of "android"%string (android code_files)
             = Returned android_pdfs ->
             generated
             = GenerationReturned
                 (PathList (regular_pdfs ++ ios_pdfs ++ android_pdfs)%list)).
  { intros r i a Er Ei Ea. rewrite Hg, Er, Ei, Ea. reflexivity. }
  split; [|split].
  - intros r i a Er Ei Ea. split; [now apply Hall|].
    apply split_category_count in Er, Ei, Ea.
    rewrite !length_app. lia.
  - intros H. rewrite Hg.
    destruct (files_of "regular"%string (regular code_files)) as [r|];
      [|reflexivity].
    destruct (files_of "ios"%string (ios code_files)) as [i|]; [|reflexivity].
    destruct (files_of "android"%string (android code_files)) as [a|];
      [|reflexivity].
    destruct H as [H|[H|H]]; discriminate H.
  - intros Hr Hi Ha Hd.
    destruct (split_category_one_per_bin open_read paragraph doc_build
                os_rename output_path "regular" (regular code_files)
                (max_pdf_size_mb * 1048576) machine_format Hr Hd)
      as [r [Er Lr]].
    destruct (split_category_one_per_bin open_read paragraph doc_build
                os_rename output_path "ios" (ios code_files)
                (max_pdf_size_mb * 1048576) machine_format Hi Hd)
      as [i [Ei Li]].
    destruct (split_category_one_per_bin open_read paragraph doc_build
                os_rename output_path "android" (android code_files)
                (max_pdf_size_mb * 1048576) machine_format Ha Hd)
      as [a [Ea La]].
    exists r, i, a.
    split; [now apply Hall|].
    split; [exact Er|]. split; [exact Ei|]. split; [exact Ea|].
    split; [exact Lr|]. split; [exact Li|]. split; [exact La|].
    destruct (pack_bins_count_bounds (unit_cost open_read)
                (category_part_output
                   (category_pdf output_path "regular" machine_format))
                (max_pdf_size_mb * 1048576) (regular code_files)) as [_ Gr].
    destruct (pack_bins_count_bounds (unit_cost open_read)
                (category_part_output
                   (category_pdf output_path "ios" machine_format))
                (max_pdf_size_mb * 1048576) (ios code_files)) as [_ Gi].
    destruct (pack_bins_count_bounds (unit_cost open_read)
                (category_part_output
                   (category_pdf output_path "android" machine_format))
                (max_pdf_size_mb * 1048576) (android code_files)) as [_ Ga].
    unfold category_bins in Lr, Li, La. rewrite <- Lr in Gr.
    rewrite <- Li in Gi. rewrite <- La in Ga.
    split.
    + intros E. apply (f_equal (@List.length string)) in E.
      rewrite !length_app in E. cbn [List.length] in E.
      destruct (regular code_files) as [|r0 rs];
        [|assert (H : r0 :: rs <> []) by discriminate; specialize (Gr H); lia].
      destruct (ios code_files) as [|i0 irest];
        [|assert (H : i0 :: irest <> []) by discriminate; specialize (Gi H); lia].
      destruct (android code_files) as [|a0 arest];
        [|assert (H : a0 :: arest <> []) by discriminate; specialize (Ga H); lia].
      now repeat split.
    + intros [E1 [E2 E3]]. rewrite E1 in Lr. rewrite E2 in Li. rewrite E3 in La.
      cbn in Lr, Li, La.
      destruct r; [|discriminate Lr]. destruct i; [|discriminate Li].
      destruct a; [|discriminate La]. reflexivity.
Qed.

Lemma categories_are_packed_one_after_the_other_witness :
  generate_pdf (fun _ => ReadOk "x"%string) (fun _ => None) (fun _ => true)
    (fun _ _ => true) "out.pdf"%string
    (mkCodeFiles [("a.py", "/p/a.py")]%string [("b.swift", "/p/b.swift")]%string [])
    (Some 2) false
  = GenerationReturned (PathList ["out_regular.pdf"; "out_ios.pdf"]%string).
Proof.
  apply (proj1 (proj1 (categories_are_packed_one_after_the_other
                  (fun _ => ReadOk "x"%string) (fun _ => None) (fun _ => true)
                  (fun _ _ => true) "out.pdf"%string
                  (mkCodeFiles [("a.py", "/p/a.py")]%string
                     [("b.swift", "/p/b.swift")]%string [])
                  2 false eq_refl)
                ["out_regular.pdf"%string] ["out_ios.pdf"%string] []
                eq_refl eq_refl eq_refl)).
Defined.

(** X7: when every heading and every part is built, [generate_pdf]
    under a positive budget below the 1 MiB seed plus the 30 KiB floor
    returns exactly one file per unit.  The 0.39 MB that [upload_async]
    uses when splitting is not switched on is such a budget, so a job
    submitted that way yields as many code PDFs as it has code
    files. *)
Theorem tight_budget_gives_one_pdf_per_file :
  forall (open_read : string -> ReadOutcome)
         (paragraph : string -> option string) (doc_build : Bin -> bool)
         (os_rename : string -> string -> bool) (output_path : string)
         (code_files : CodeFiles) (machine_format : bool),
    headings_built paragraph (regular code_files) ->
    headings_built paragraph (ios code_files) ->
    headings_built paragraph (android code_files) ->
    every_part_builds doc_build ->
    let total := (List.length (regular code_files)
                  + List.length (ios code_files)
                  + List.length (android code_files))%nat in
    (forall max_pdf_size_mb : Q,
        (0 < max_pdf_size_mb)%Q ->
        (max_pdf_size_mb * 1048576 < inject_Z (1048576 + 30720))%Q ->
        exists output_files,
          generate_pdf open_read paragraph doc_build os_rename output_path
            code_files (Some max_pdf_size_mb) machine_format
          = GenerationReturned (PathList output_files) /\
          List.length output_files = total) /\
    (forall max_pdf_size : FloatParse,
        exists output_files,
          generate_pdf open_read paragraph doc_build os_rename output_path
            code_files (upload_max_pdf_size_mb false max_pdf_size)
            machine_format
          = GenerationReturned (PathList output_files) /\
          List.length output_files = total).
Proof.
  intros open_read paragraph doc_build os_rename output_path code_files
         machine_format Hr Hi Ha Hd total.
  assert (Hgen : forall max_pdf_size_mb : Q,
             (0 < max_pdf_size_mb)%Q ->
             (max_pdf_size_mb * 1048576 < inject_Z (1048576 + 30720))%Q ->
             exists output_files,
               generate_pdf open_read paragraph doc_build os_rename output_path
                 code_files (Some max_pdf_size_mb) machine_format
               = GenerationReturned (PathList output_files) /\
               List.length output_files = total).
  { intros mb Hpos Htight.
    destruct (split_category_one_per_bin open_read paragraph doc_build
                os_rename output_path "regular" (regular code_files)
                (mb * 1048576) machine_format Hr Hd) as [r [Er Lr]].
    destruct (split_category_one_per_bin open_read paragraph doc_build
                os_rename output_path "ios" (ios code_files)
                (mb * 1048576) machine_format Hi Hd) as [i [Ei Li]].
    destruct (split_category_one_per_bin open_read paragraph doc_build
                os_rename output_path "android" (android code_files)
                (mb * 1048576) machine_format Ha Hd) as [a [Ea La]].
    rewrite category_bins_one_per_unit in Lr, Li, La by exact Htight.
    exists (r ++ i ++ a)%list. split.
    - rewrite generate_pdf_with_budget by exact Hpos.
      unfold generate_split_documents, _generate_split_pdfs_with_categories.
      cbv zeta. rewrite Er, Ei, Ea. reflexivity.
    - rewrite !length_app, Lr, Li, La. unfold total. lia. }
  split; [exact Hgen|].
  intros field. apply Hgen; reflexivity.
Qed.

Lemma tight_budget_gives_one_pdf_per_file_witness :
  exists output_files,
    generate_pdf (fun _ => ReadOk "x"%string) (fun _ => None) (fun _ => true)
      (fun _ _ => true) "out.pdf"%string
      (mkCodeFiles [("a.py", "/p/a.py"); ("b.py", "/p/b.py")]%string
         [("c.swift", "/p/c.swift")]%string [])
      (Some (39 # 100)) false
    = GenerationReturned (PathList output_files) /\
    List.length output_files = 3%nat.
Proof.
  refine (proj1 (tight_budget_gives_one_pdf_per_file
                  (fun _ => ReadOk "x"%string) (fun _ => None) (fun _ => true)
                  (fun _ _ => true) "out.pdf"%string
                  (mkCodeFiles [("a.py", "/p/a.py"); ("b.py", "/p/b.py")]%string
                     [("c.swift", "/p/c.swift")]%string [])
                  false _ _ _ _) (39 # 100) _ _).
  - intros f _. reflexivity.
  - intros f _. reflexivity.
  - intros f _. reflexivity.
  - intros b. reflexivity.
  - reflexivity.
  - reflexivity.
Defined.

(* ================================================================== *)
(** ** Further properties of the range refiner *)
(* ================================================================== *)

Section RefinerExits.

Variable file_bytes : nat -> nat -> Z.
Variable total_pages : nat.
Variable max_size_mb : Q.
Variable output_prefix : string.

Local Abbreviation size := (get_pdf_size file_bytes).
Local Abbreviation grow' := (grow file_bytes total_pages max_size_mb).
Local Abbreviation shrink' := (shrink file_bytes max_size_mb).
Local Abbreviation settle' := (settle file_bytes total_pages max_size_mb).
Local Abbreviation loop := (split_loop file_bytes total_pages max_size_mb output_prefix).

(** The growing loop leaves with a range that is not under the budget,
    or with no page left to add. *)
Lemma grow_exit (fuel start_page end_page e k : nat) :
  grow' fuel start_page end_page = Some (e, k) ->
  (end_page <= e)%nat /\
  (~ (size start_page e < max_size_mb)%Q \/ ~ (e < total_pages)%nat).
Proof.
  revert end_page k. induction fuel as [|fuel IH]; intros end_page k H;
    [discriminate H|].
  cbn [grow] in H.
  destruct (Qlt_bool (size start_page end_page) max_size_mb) eqn:Hsize;
    destruct (end_page <? total_pages)%nat eqn:Hlt; cbn [andb] in H.
  - destruct (grow' fuel start_page (Nat.min (end_page + 5) total_pages))
      as [[e' k']|] eqn:Hrec; [|discriminate H].
    injection H as <- <-. destruct (IH _ _ Hrec) as [Hle Hexit].
    apply Nat.ltb_lt in Hlt. split; [lia|exact Hexit].
  - injection H as <- <-. apply Nat.ltb_ge in Hlt. split; [lia|right; lia].
  - injection H as <- <-. split; [lia|left].
    intros Hs. apply Qlt_bool_true_iff in Hs. congruence.
  - injection H as <- <-. split; [lia|left].
    intros Hs. apply Qlt_bool_true_iff in Hs. congruence.
Qed.

(** The shrinking loop leaves with a range that is not over the budget,
    or with at most 5 pages.  When it iterated, the range 5 pages longer
    than the one it leaves with was over the budget. *)
Lemma shrink_exit (fuel start_page end_page e h : nat) :
  shrink' fuel start_page end_page = Some (e, h) ->
  (~ (max_size_mb < size start_page e)%Q \/ (e <= start_page + 5)%nat) /\
  (h = 0%nat -> e = end_page) /\
  ((0 < h)%nat ->
   (max_size_mb < size start_page (e + 5))%Q /\ (e + 5 <= end_page)%nat).
Proof.
  revert end_page h. induction fuel as [|fuel IH]; intros end_page h H;
    [discriminate H|].
  cbn [shrink] in H.
  destruct (Qlt_bool max_size_mb (size start_page end_page)) eqn:Hsize;
    destruct (start_page + 5 <? end_page)%nat eqn:Hlt; cbn [andb] in H.
  - destruct (shrink' fuel start_page (end_page - 5)) as [[e' h']|] eqn:Hrec;
      [|discriminate H].
    injection H as <- <-. destruct (IH _ _ Hrec) as [Hexit [Hzero Hpos]].
    apply Nat.ltb_lt in Hlt. apply Qlt_bool_true_iff in Hsize.
    split; [exact Hexit|]. split; [intros E; lia|]. intros _.
    destruct h' as [|h'].
    + rewrite (Hzero eq_refl).
      replace (end_page - 5 + 5)%nat with end_page by lia. split; [trivial|lia].
    + destruct Hpos as [Hbig Hle]; [lia|]. split; [trivial|lia].
  - injection H as <- <-. apply Nat.ltb_ge in Hlt.
    split; [right; lia|]. split; [trivial|lia].
  - injection H as <- <-. split; [left|split; [trivial|lia]].
    intros Hs. apply Qlt_bool_true_iff in Hs. congruence.
  - injection H as <- <-. split; [left|split; [trivial|lia]].
    intros Hs. apply Qlt_bool_true_iff in Hs. congruence.
Qed.

Lemma settle_inv (fuel start_page e k : nat) :
  settle' fuel start_page = Some (e, k) ->
  exists e1 k1 k2,
    grow' fuel start_page (Nat.min (start_page + 10) total_pages) = Some (e1, k1) /\
    shrink' fuel start_page e1 = Some (e, k2) /\ k = (k1 + k2)%nat.
Proof.
  unfold settle. intros H.
  destruct (grow' fuel start_page _) as [[e1 k1]|]; [|discriminate H].
  destruct (shrink' fuel start_page e1) as [[e2 k2]|] eqn:Hs; [|discriminate H].
  injection H as <- <-. now exists e1, k1, k2.
Qed.

(** What holds of every settled range holds of every part. *)
Lemma loop_parts (good : nat -> nat -> Prop) :
  (forall fuel start_page e k,
      (start_page < total_pages)%nat ->
      settle' fuel start_page = Some (e, k) -> good start_page e) ->
  forall fuel start_page current_part parts steps,
    loop fuel start_page current_part = Some (parts, steps) ->
    Forall (fun p => good (part_start p) (part_end p)) parts.
Proof.
  intros Hgood. induction fuel as [|fuel IH];
    intros start_page current_part parts steps H; [discriminate H|].
  cbn [split_loop] in H.
  destruct (start_page <? total_pages)%nat eqn:Hlt.
  - apply Nat.ltb_lt in Hlt.
    destruct (settle' (S fuel) start_page) as [[e k]|] eqn:Hset; [|discriminate H].
    destruct (loop fuel e (S current_part)) as [[rest n]|] eqn:Hrec;
      [|discriminate H].
    injection H as <- <-. constructor.
    + cbn [part_start part_end]. exact (Hgood _ _ _ _ Hlt Hset).
    + exact (IH _ _ _ _ Hrec).
  - injection H as <- <-. constructor.
Qed.

Lemma loop_names (fuel start_page current_part : nat) (parts : list Part)
    (steps : nat) :
  loop fuel start_page current_part = Some (parts, steps) ->
  map part_output parts
  = map (fun k => (output_prefix ++ "_part" ++ str_of_nat k ++ ".pdf")%string)
        (seq current_part (List.length parts)).
Proof.
  revert start_page current_part parts steps.
  induction fuel as [|fuel IH]; intros start_page current_part parts steps H;
    [discriminate H|].
  cbn [split_loop] in H.
  destruct (start_page <? total_pages)%nat.
  - destruct (settle' (S fuel) start_page) as [[e k]|]; [|discriminate H].
    destruct (loop fuel e (S current_part)) as [[rest n]|] eqn:Hrec;
      [|discriminate H].
    injection H as <- <-. cbn [map List.length seq part_output].
    now rewrite (IH _ _ _ _ Hrec).
  - injection H as <- <-. reflexivity.
Qed.

Lemma chained_length (parts : list Part) (first last : nat) :
  chained first last parts -> (List.length parts <= last - first)%nat.
Proof.
  revert first. induction parts as [|p rest IH]; intros first H;
    cbn [chained List.length] in *; [lia|].
  destruct H as [Hs [Hlt Hrest]]. specialize (IH _ Hrest).
  destruct (chained_bounds _ _ _ Hrest) as [Hle _]. lia.
Qed.

End RefinerExits.

(** X8: every part the refiner produces is within the budget or holds
    at most 5 pages: the shrinking loop only stops on one of the two. *)
Theorem refined_parts_fit_or_hold_five_pages :
  forall (file_bytes : nat -> nat -> Z) (total_pages : nat) (max_size_mb : Q)
         (output_prefix : string) (fuel : nat),
    (total_pages < fuel)%nat ->
    exists parts steps,
      split_loop file_bytes total_pages max_size_mb output_prefix fuel 0 1
      = Some (parts, steps) /\
      Forall (fun p =>
                (get_pdf_size file_bytes (part_start p) (part_end p)
                 <= max_size_mb)%Q \/
                (part_end p <= part_start p + 5)%nat)
             parts.
Proof.
  intros file_bytes total_pages max_size_mb output_prefix fuel Hfuel.
  destruct (loop_spec file_bytes total_pages max_size_mb output_prefix fuel 0 1)
    as [parts [steps [Hrun _]]]; [lia|lia|].
  exists parts, steps. split; [exact Hrun|].
  refine (loop_parts file_bytes total_pages max_size_mb output_prefix
            (fun s e => (get_pdf_size file_bytes s e <= max_size_mb)%Q \/
                        (e <= s + 5)%nat) _ fuel 0%nat 1%nat parts steps Hrun).
  intros f s e k _ Hset.
  destruct (settle_inv _ _ _ _ _ _ _ Hset) as [e1 [k1 [k2 [_ [Hs _]]]]].
  destruct (shrink_exit _ _ _ _ _ _ _ Hs) as [[Hfit|Hshort] _]; [left|now right].
  now apply Qnot_lt_le.
Qed.

Lemma refined_parts_fit_or_hold_five_pages_witness :
  exists parts steps,
    split_loop (fun s e => (Z.of_nat (e - s) * 1048576)%Z) 23 13 "doc"%string 24 0 1
    = Some (parts, steps) /\
    Forall (fun p =>
              (get_pdf_size (fun s e => (Z.of_nat (e - s) * 1048576)%Z)
                 (part_start p) (part_end p) <= 13)%Q \/
              (part_end p <= part_start p + 5)%nat)
           parts.
Proof.
  apply refined_parts_fit_or_hold_five_pages. lia.
Defined.

(** *** Oversized pages *)

(** C5, as stated, fails: in a 5-page document whose pages weigh 1 MB
    each, page 0 alone exceeds a budget of 0.39 MB, yet the refiner
    emits it together with the four pages after it, in one part. *)
Lemma oversized_page_shares_its_part :
  (39 # 100 < get_pdf_size (fun s e => (Z.of_nat (e - s) * 1048576)%Z) 0 1)%Q /\
  split_loop (fun s e => (Z.of_nat (e - s) * 1048576)%Z) 5 (39 # 100)
    "doc"%string 6 0 1
  = Some ([{| part_number := 1; part_output := "doc_part1.pdf"%string;
              part_start := 0; part_end := 5 |}], 0%nat).
Proof. split; vm_compute; reflexivity. Qed.

(** C5, amended: no page is dropped, whatever its size: for every
    document and budget each page is written to exactly one produced
    part.  A page that alone exceeds the budget is not always given a
    part of its own: a range is retracted 5 pages at a time and only
    while it holds more than 5 pages, so a part that measures more than
    the budget is emitted as soon as it holds at most 5 pages, and a
    document of at most 5 pages comes out as one part holding all its
    pages. *)
Theorem every_page_is_in_exactly_one_part :
  forall (file_bytes : nat -> nat -> Z) (total_pages : nat) (max_size_mb : Q)
         (output_prefix : string) (fuel : nat),
    (total_pages < fuel)%nat ->
    exists parts steps,
      split_loop file_bytes total_pages max_size_mb output_prefix fuel 0 1
      = Some (parts, steps) /\
      (forall page : nat,
          (page < total_pages)%nat ->
          exists q, In q parts /\ holds_page q page /\
                    forall q', In q' parts -> holds_page q' page -> q' = q) /\
      Forall (fun p =>
                (max_size_mb
                 < get_pdf_size file_bytes (part_start p) (part_end p))%Q ->
                (part_end p <= part_start p + 5)%nat)
             parts /\
      ((1 <= total_pages <= 5)%nat ->
       exists q, parts = [q] /\ part_start q = 0%nat /\ part_end q = total_pages).
Proof.
  intros file_bytes total_pages max_size_mb output_prefix fuel Hfuel.
  destruct (loop_spec file_bytes total_pages max_size_mb output_prefix fuel 0 1)
    as [parts [steps [Hrun [Hch _]]]]; [lia|lia|].
  exists parts, steps. split; [exact Hrun|]. split; [|split].
  - intros page Hpage. apply (chained_cover parts 0 total_pages); trivial. lia.
  - refine (loop_parts file_bytes total_pages max_size_mb output_prefix
              (fun s e => (max_size_mb < get_pdf_size file_bytes s e)%Q ->
                          (e <= s + 5)%nat)
              _ fuel 0%nat 1%nat parts steps Hrun).
    intros f s e k _ Hset Hover.
    destruct (settle_inv _ _ _ _ _ _ _ Hset) as [e1 [k1 [k2 [_ [Hs _]]]]].
    destruct (shrink_exit _ _ _ _ _ _ _ Hs) as [[Hfit|Hshort] _];
      [contradiction|exact Hshort].
  - intros Hsmall.
    rewrite loop_last_pages in Hrun by lia.
    injection Hrun as Hparts _. subst parts.
    eexists. split; [reflexivity|]. split; reflexivity.
Qed.

Lemma every_page_is_in_exactly_one_part_witness :
  exists parts steps,
    split_loop (fun s e => (Z.of_nat (e - s) * 1048576)%Z) 5 (39 # 100)
      "doc"%string 6 0 1
    = Some (parts, steps) /\
    (forall page : nat,
        (page < 5)%nat ->
        exists q, In q parts /\ holds_page q page /\
                  forall q', In q' parts -> holds_page q' page -> q' = q) /\
    Forall (fun p =>
              (39 # 100
               < get_pdf_size (fun s e => (Z.of_nat (e - s) * 1048576)%Z)
                   (part_start p) (part_end p))%Q ->
              (part_end p <= part_start p + 5)%nat)
           parts /\
    ((1 <= 5 <= 5)%nat ->
     exists q, parts = [q] /\ part_start q = 0%nat /\ part_end q = 5%nat).
Proof.
  apply every_page_is_in_exactly_one_part. lia.
Defined.

(** *** The command-line entry *)

Lemma summary_lines (output_bytes : string -> option Z)
    (output_files : list string) :
  ~ In FailedToSplit (fst (summary output_bytes output_files)).
Proof.
  induction output_files as [|f rest IH]; cbn [summary]; [intros []|].
  destruct (output_bytes f) as [bytes|]; [|intros []].
  destruct (summary output_bytes rest) as [lines finished].
  cbn [fst In] in *. intros [H|H]; [discriminate H|exact (IH H)].
Qed.

Lemma summary_finished (output_bytes : string -> option Z)
    (output_files : list string) :
  snd (summary output_bytes output_files) = false
  <-> exists output_file,
        In output_file output_files /\ output_bytes output_file = None.
Proof.
  induction output_files as [|f rest IH]; cbn [summary].
  - split; [intros H; discriminate H|intros [f [[] _]]].
  - destruct (output_bytes f) as [bytes|] eqn:Ef.
    + destruct (summary output_bytes rest) as [lines finished].
      cbn [snd] in *. rewrite IH. split.
      * intros [g [Hg Eg]]. exists g. split; [now right|exact Eg].
      * intros [g [[<-|Hg] Eg]]; [congruence|]. now exists g.
    + cbn [snd]. split; [intros _|reflexivity]. exists f. split; [now left|exact Ef].
Qed.

(** C9, as stated, fails: for an input file that does not exist no part
    is produced, [main] prints the failure message and still ends with
    status 0. *)
Lemma missing_input_exits_with_success :
  split_pdf 1 NoSuchFile "missing.pdf"%string (39 # 100) None
  = Some (Returned []) /\
  main 1 (Arguments "missing.pdf"%string (39 # 100) None) NoSuchFile
    (fun _ => None)
  = Some {| printed := [FailedToSplit]; status := 0 |}.
Proof. split; reflexivity. Qed.

(** C9, amended: the exit status tells whether [main] returned, not
    whether a part was produced.  [main] never sets a status: when
    [split_pdf] returns no part it prints the failure message and ends
    with status 0 like a run that produced parts, so only the printed
    message tells the two apart.  The status is 1 exactly when an
    exception leaves [main]: one raised by a call [split_pdf] makes
    outside its handlers, or by measuring an output file for the
    summary; it is 2 when the command line is rejected, and 0 after the
    help text. *)
Theorem exit_status_tells_only_whether_main_returned :
  forall (fuel : nat) (input : InputFile) (output_bytes : string -> option Z),
    (pages_of input < fuel)%nat ->
    main fuel Rejected input output_bytes
    = Some {| printed := []; status := 2 |} /\
    main fuel Help input output_bytes
    = Some {| printed := [HelpText]; status := 0 |} /\
    forall (input_pdf : string) (max_size : Q) (output_prefix : option string),
    exists outcome exit,
      split_pdf fuel input input_pdf max_size output_prefix = Some outcome /\
      main fuel (Arguments input_pdf max_size output_prefix) input output_bytes
      = Some exit /\
      (outcome = Returned [] ->
       exit = {| printed := [FailedToSplit]; status := 0 |}) /\
      (In FailedToSplit (printed exit) <-> outcome = Returned []) /\
      (status exit = 0%Z \/ status exit = 1%Z) /\
      (status exit = 1%Z <->
       outcome = Raised \/
       exists output_files output_file,
         outcome = Returned output_files /\ In output_file output_files /\
         output_bytes output_file = None).
Proof.
  intros fuel input output_bytes Hfuel.
  split; [reflexivity|]. split; [reflexivity|].
  intros input_pdf max_size output_prefix.
  assert (Hret : exists outcome,
             split_pdf fuel input input_pdf max_size output_prefix
             = Some outcome).
  { destruct input as [| |total_pages file_bytes|]; cbn [split_pdf];
      try (now eexists).
    cbn [pages_of] in Hfuel.
    destruct (loop_spec file_bytes total_pages max_size
                (match output_prefix with
                 | Some p => p
                 | None => default_prefix input_pdf
                 end) fuel 0 1) as [parts [steps [Hrun _]]]; [lia|lia|].
    rewrite Hrun. now eexists. }
  destruct Hret as [outcome Hret]. exists outcome.
  unfold main. rewrite Hret.
  destruct outcome as [[|first rest]|].
  - eexists. split; [reflexivity|]. split; [reflexivity|].
    split; [reflexivity|]. cbn [printed status In].
    split; [split; [reflexivity|now left]|]. split; [now left|].
    split; [intros H; discriminate H|].
    intros [H|[files [f [H [Hin _]]]]]; [discriminate H|].
    injection H as <-. destruct Hin.
  - pose proof (summary_lines output_bytes (first :: rest)) as Hlines.
    pose proof (summary_finished output_bytes (first :: rest)) as Hfin.
    destruct (summary output_bytes (first :: rest)) as [lines finished].
    cbn [fst snd] in Hlines, Hfin.
    eexists. split; [reflexivity|]. split; [reflexivity|].
    cbn [printed status In].
    split; [intros H; discriminate H|].
    split; [split; [intros [H|H]; [discriminate H|contradiction]
                   |intros H; discriminate H]|].
    destruct finished.
    + split; [now left|]. split; [intros H; discriminate H|].
      intros [H|[files [f [H [Hin Hnone]]]]]; [discriminate H|].
      injection H as <-.
      assert (true = false) as E; [|discriminate E].
      apply Hfin. now exists f.
    + split; [now right|]. split; [|reflexivity].
      intros _. right. destruct (proj1 Hfin eq_refl) as [f [Hin Hnone]].
      now exists (first :: rest), f.
  - eexists. split; [reflexivity|]. split; [reflexivity|].
    cbn [printed status In].
    split; [intros H; discriminate H|].
    split; [split; [intros []|intros H; discriminate H]|].
    split; [now right|]. split; [now left|reflexivity].
Qed.

Lemma exit_status_tells_only_whether_main_returned_witness :
  main 24 Rejected (Pdf 23 (fun s e => (Z.of_nat (e - s) * 1048576)%Z))
    (fun _ => Some 1048576%Z)
  = Some {| printed := []; status := 2 |} /\
  main 24 Help (Pdf 23 (fun s e => (Z.of_nat (e - s) * 1048576)%Z))
    (fun _ => Some 1048576%Z)
  = Some {| printed := [HelpText]; status := 0 |} /\
  forall (input_pdf : string) (max_size : Q) (output_prefix : option string),
  exists outcome exit,
    split_pdf 24 (Pdf 23 (fun s e => (Z.of_nat (e - s) * 1048576)%Z))
      input_pdf max_size output_prefix = Some outcome /\
    main 24 (Arguments input_pdf max_size output_prefix)
      (Pdf 23 (fun s e => (Z.of_nat (e - s) * 1048576)%Z))
      (fun _ => Some 1048576%Z)
    = Some exit /\
    (outcome = Returned [] ->
     exit = {| printed := [FailedToSplit]; status := 0 |}) /\
    (In FailedToSplit (printed exit) <-> outcome = Returned []) /\
    (status exit = 0%Z \/ status exit = 1%Z) /\
    (status exit = 1%Z <->
     outcome = Raised \/
     exists output_files output_file,
       outcome = Returned output_files /\ In output_file output_files /\
       (fun _ : string => Some 1048576%Z) output_file = None).
Proof.
  apply (exit_status_tells_only_whether_main_returned 24
           (Pdf 23 (fun s e => (Z.of_nat (e - s) * 1048576)%Z))
           (fun _ => Some 1048576%Z)).
  cbn [pages_of]. lia.
Defined.

(** X9: the files [split_pdf] returns are named
    [<prefix>_part1.pdf], [<prefix>_part2.pdf], ... in the order the
    parts were cut, where the prefix is [output_prefix] or, when none is
    given, the input path without its extension followed by ["_split"].
    It returns unless one of the calls it makes outside its handlers
    raises; the exception then leaves it. *)
Theorem split_pdf_names_parts_in_order :
  forall (fuel : nat) (input : InputFile) (input_path : string)
         (max_size_mb : Q) (output_prefix : option string),
    (pages_of input < fuel)%nat ->
    let prefix := match output_prefix with
                  | Some p => p
                  | None => (fst (splitext input_path) ++ "_split")%string
                  end in
    (raises input = true ->
     split_pdf fuel input input_path max_size_mb output_prefix = Some Raised) /\
    (raises input = false ->
     exists n,
       split_pdf fuel input input_path max_size_mb output_prefix
       = Some (Returned
                 (map (fun k => (prefix ++ "_part" ++ str_of_nat k ++ ".pdf")%string)
                      (seq 1 n)))).
Proof.
  intros fuel input input_path max_size_mb output_prefix Hfuel prefix.
  destruct input as [| |total_pages file_bytes|]; cbn [split_pdf raises];
    (split; intros Hr; [try discriminate Hr|try discriminate Hr]);
    try reflexivity; try (now exists 0%nat).
  cbn [pages_of] in Hfuel. fold (default_prefix input_path) in prefix.
  fold prefix.
  destruct (loop_spec file_bytes total_pages max_size_mb prefix fuel 0 1)
    as [parts [steps [Hrun _]]]; [lia|lia|].
  rewrite Hrun. exists (List.length parts). do 2 f_equal.
  exact (loop_names _ _ _ _ _ _ _ _ _ Hrun).
Qed.

Lemma split_pdf_names_parts_in_order_witness :
  exists n,
    split_pdf 24 (Pdf 23 (fun s e => (Z.of_nat (e - s) * 1048576)%Z))
      "in/doc.pdf" 13 None
    = Some (Returned
              (map (fun k => ("in/doc_split" ++ "_part" ++ str_of_nat k ++ ".pdf")%string)
                   (seq 1 n))).
Proof.
  apply (split_pdf_names_parts_in_order 24
           (Pdf 23 (fun s e => (Z.of_nat (e - s) * 1048576)%Z))
           "in/doc.pdf" 13 None).
  - cbn [pages_of]. lia.
  - reflexivity.
Defined.

(** X10: [split_pdf] returns at most one file per page, and no file
    exactly when there is no page to write: the input is missing, cannot
    be read, or has zero pages.  It returns unless one of the calls it
    makes outside its handlers raises; the exception then leaves it. *)
Theorem split_pdf_is_empty_only_without_pages :
  forall (fuel : nat) (input : InputFile) (input_path : string)
         (max_size_mb : Q) (output_prefix : option string),
    (pages_of input < fuel)%nat ->
    (raises input = true ->
     split_pdf fuel input input_path max_size_mb output_prefix = Some Raised) /\
    (raises input = false ->
     exists output_files,
       split_pdf fuel input input_path max_size_mb output_prefix
       = Some (Returned output_files) /\
       (List.length output_files <= pages_of input)%nat /\
       (output_files = [] <-> pages_of input = 0%nat)).
Proof.
  intros fuel input input_path max_size_mb output_prefix Hfuel.
  destruct input as [| |total_pages file_bytes|];
    cbn [split_pdf pages_of raises] in *;
    (split; intros Hr; [try discriminate Hr|try discriminate Hr]);
    try reflexivity;
    try (exists []; repeat split; trivial; cbn [List.length]; lia).
  destruct (loop_spec file_bytes total_pages max_size_mb
              (match output_prefix with
               | Some p => p
               | None => default_prefix input_path
               end) fuel 0 1) as [parts [steps [Hrun [Hch _]]]]; [lia|lia|].
  rewrite Hrun. eexists. split; [reflexivity|].
  rewrite length_map. pose proof (chained_length _ _ _ Hch) as Hlen.
  split; [lia|]. split.
  - intros E. destruct parts as [|p rest]; [|discriminate E].
    cbn [chained] in Hch. lia.
  - intros E. subst total_pages. destruct parts as [|p rest]; trivial.
    cbn [List.length] in Hlen. lia.
Qed.

Lemma split_pdf_is_empty_only_without_pages_witness :
  exists output_files,
    split_pdf 1 (Pdf 0 (fun s e => 0%Z)) "empty.pdf" (39 # 100) None
    = Some (Returned output_files) /\
    (List.length output_files <= 0)%nat /\
    (output_files = [] <-> 0%nat = 0%nat).
Proof.
  apply (split_pdf_is_empty_only_without_pages 1 (Pdf 0 (fun s e => 0%Z))
           "empty.pdf" (39 # 100) None).
  - cbn [pages_of]. lia.
  - reflexivity.
Defined.

Section UnderBudget.

Variable file_bytes : nat -> nat -> Z.
Variable total_pages : nat.
Variable max_size_mb : Q.
Variable output_prefix : string.

Local Abbreviation size := (get_pdf_size file_bytes).

Lemma grow_to_the_end (fuel start_page end_page : nat) :
  (forall e, (e <= total_pages)%nat -> (size start_page e < max_size_mb)%Q) ->
  (end_page <= total_pages)%nat -> (total_pages - end_page < fuel)%nat ->
  grow file_bytes total_pages max_size_mb fuel start_page end_page
  = Some (total_pages, ((total_pages - end_page + 4) / 5)%nat).
Proof.
  intros Hunder. revert end_page.
  induction fuel as [|fuel IH]; intros end_page Hle Hfuel; [lia|].
  cbn [grow].
  assert (Hs : Qlt_bool (size start_page end_page) max_size_mb = true)
    by (apply Qlt_bool_true_iff; now apply Hunder).
  rewrite Hs. cbn [andb].
  destruct (end_page <? total_pages)%nat eqn:Hlt.
  - apply Nat.ltb_lt in Hlt. rewrite IH by lia. f_equal. f_equal.
    destruct (le_lt_dec (end_page + 5) total_pages) as [Hfar|Hnear].
    + replace (Nat.min (end_page + 5) total_pages) with (end_page + 5)%nat by lia.
      replace (total_pages - end_page + 4)%nat
        with (total_pages - (end_page + 5) + 4 + 1 * 5)%nat by lia.
      rewrite Nat.div_add by lia. lia.
    + replace (Nat.min (end_page + 5) total_pages) with total_pages by lia.
      replace (total_pages - total_pages + 4)%nat with 4%nat by lia.
      assert (H1 : ((total_pages - end_page + 4) / 5 = 1)%nat).
      { symmetry.
        apply Nat.div_unique with (total_pages - end_page + 4 - 5)%nat; lia. }
      rewrite H1. reflexivity.
  - apply Nat.ltb_ge in Hlt. assert (E : end_page = total_pages) by lia.
    subst end_page. rewrite Nat.sub_diag. reflexivity.
Qed.

End UnderBudget.

(** X11: a document whose first pages, however many are taken, always
    measure under the budget is not split: the refiner returns one part
    with all pages, after growing the initial 10-page range 5 pages at a
    time, which takes [(total_pages - 10 + 4) / 5] re-renders. *)
Theorem document_under_budget_is_one_part :
  forall (file_bytes : nat -> nat -> Z) (total_pages : nat) (max_size_mb : Q)
         (output_prefix : string) (fuel : nat),
    (1 <= total_pages)%nat -> (total_pages < fuel)%nat ->
    (forall e, (e <= total_pages)%nat ->
               (get_pdf_size file_bytes 0 e < max_size_mb)%Q) ->
    split_loop file_bytes total_pages max_size_mb output_prefix fuel 0 1
    = Some ([{| part_number := 1;
                part_output := (output_prefix ++ "_part" ++ str_of_nat 1
                                ++ ".pdf")%string;
                part_start := 0;
                part_end := total_pages |}],
            ((total_pages - 10 + 4) / 5)%nat).
Proof.
  intros file_bytes total_pages max_size_mb output_prefix fuel Hone Hfuel Hunder.
  destruct fuel as [|[|fuel]]; try lia.
  cbn [split_loop].
  replace (0 <? total_pages)%nat with true by (symmetry; apply Nat.ltb_lt; lia).
  unfold settle.
  rewrite (grow_to_the_end file_bytes total_pages max_size_mb (S (S fuel)) 0
             (Nat.min (0 + 10) total_pages) Hunder) by lia.
  cbn [shrink].
  assert (Hs : Qlt_bool max_size_mb (get_pdf_size file_bytes 0 total_pages) = false).
  { destruct (Qlt_bool _ _) eqn:E; trivial.
    apply Qlt_bool_true_iff in E. exfalso.
    apply (Qlt_irrefl max_size_mb).
    apply Qlt_trans with (1 := E). apply Hunder. lia. }
  rewrite Hs. cbn [andb].
  replace (total_pages <? total_pages)%nat with false
    by (symmetry; apply Nat.ltb_ge; lia).
  f_equal. f_equal.
  replace (total_pages - Nat.min (0 + 10) total_pages)%nat
    with (total_pages - 10)%nat by lia.
  lia.
Qed.

Lemma document_under_budget_is_one_part_witness :
  split_loop (fun s e => (Z.of_nat (e - s) * 1048576)%Z) 23 100 "doc"%string 24 0 1
  = Some ([{| part_number := 1;
              part_output := ("doc" ++ "_part" ++ str_of_nat 1 ++ ".pdf")%string;
              part_start := 0;
              part_end := 23 |}],
          ((23 - 10 + 4) / 5)%nat).
Proof.
  apply document_under_budget_is_one_part; [lia|lia|].
  intros e He.
  apply Qle_lt_trans
    with (get_pdf_size (fun s e => (Z.of_nat (e - s) * 1048576)%Z) 0 23).
  - apply get_pdf_size_monotone; [|exact He]. intros s a b H. lia.
  - vm_compute. reflexivity.
Defined.

Lemma grow_stays_inside (file_bytes : nat -> nat -> Z) (total_pages : nat)
    (max_size_mb : Q) (fuel start_page end_page e k : nat) :
  grow file_bytes total_pages max_size_mb fuel start_page end_page = Some (e, k) ->
  (end_page <= total_pages)%nat -> (e <= total_pages)%nat.
Proof.
  revert end_page k. induction fuel as [|fuel IH]; intros end_page k H Hle;
    [discriminate H|].
  cbn [grow] in H.
  destruct (Qlt_bool _ _ && (end_page <? total_pages)%nat).
  - destruct (grow file_bytes total_pages max_size_mb fuel start_page
                (Nat.min (end_page + 5) total_pages)) as [[e' k']|] eqn:Hrec;
      [|discriminate H].
    injection H as <- <-. apply (IH _ _ Hrec). lia.
  - injection H as <- <-. exact Hle.
Qed.

(** X12: when written files grow with their pages, no part but the last
    could have taken 5 more pages: for every part that ends before the
    last page, the range extended by 5 pages (or up to the last page,
    if fewer are left) measures at least the budget. *)
Theorem refined_parts_could_not_take_five_more_pages :
  forall (file_bytes : nat -> nat -> Z) (total_pages : nat) (max_size_mb : Q)
         (output_prefix : string) (fuel : nat),
    grows_with_pages file_bytes ->
    (total_pages < fuel)%nat ->
    exists parts steps,
      split_loop file_bytes total_pages max_size_mb output_prefix fuel 0 1
      = Some (parts, steps) /\
      Forall (fun p =>
                (part_end p < total_pages)%nat ->
                (max_size_mb
                 <= get_pdf_size file_bytes (part_start p)
                      (Nat.min (part_end p + 5) total_pages))%Q)
             parts.
Proof.
  intros file_bytes total_pages max_size_mb output_prefix fuel Hmono Hfuel.
  destruct (loop_spec file_bytes total_pages max_size_mb output_prefix fuel 0 1)
    as [parts [steps [Hrun _]]]; [lia|lia|].
  exists parts, steps. split; [exact Hrun|].
  refine (loop_parts file_bytes total_pages max_size_mb output_prefix
            (fun s e =>
               (e < total_pages)%nat ->
               (max_size_mb
                <= get_pdf_size file_bytes s (Nat.min (e + 5) total_pages))%Q)
            _ fuel 0%nat 1%nat parts steps Hrun).
  intros f s e k _ Hset Hend.
  destruct (settle_inv _ _ _ _ _ _ _ Hset) as [e1 [k1 [k2 [Hg [Hs _]]]]].
  destruct (grow_exit _ _ _ _ _ _ _ _ Hg) as [_ Hgexit].
  pose proof (grow_stays_inside _ _ _ _ _ _ _ _ Hg ltac:(lia)) as He1.
  destruct (shrink_exit _ _ _ _ _ _ _ Hs) as [_ [Hzero Hpos]].
  destruct k2 as [|k2].
  - rewrite (Hzero eq_refl) in *.
    destruct Hgexit as [Hnot|Hnot]; [|lia].
    apply Qle_trans with (get_pdf_size file_bytes s e1).
    + now apply Qnot_lt_le.
    + apply get_pdf_size_monotone; trivial. lia.
  - destruct Hpos as [Hbig Hle]; [lia|].
    replace (Nat.min (e + 5) total_pages) with (e + 5)%nat by lia.
    now apply Qlt_le_weak.
Qed.

Lemma refined_parts_could_not_take_five_more_pages_witness :
  exists parts steps,
    split_loop (fun s e => (Z.of_nat (e - s) * 1048576)%Z) 23 13 "doc"%string 24 0 1
    = Some (parts, steps) /\
    Forall (fun p =>
              (part_end p < 23)%nat ->
              (13 <= get_pdf_size (fun s e => (Z.of_nat (e - s) * 1048576)%Z)
                       (part_start p) (Nat.min (part_end p + 5) 23))%Q)
           parts.
Proof.
  apply refined_parts_could_not_take_five_more_pages.
  - intros s a b H. lia.
  - lia.
Defined.

(* ================================================================== *)
(** ** Properties of [collect_code_files] *)
(* ================================================================== *)

Open Scope string_scope.

Lemma in_list_true (x : string) (l : list string) :
  in_list x l = true <-> In x l.
Proof.
  unfold in_list. rewrite existsb_exists. split.
  - intros [y [Hy E]]. apply String.eqb_eq in E. now subst y.
  - intros H. exists x. split; trivial. apply String.eqb_refl.
Qed.

Section CollectFacts.

Variable code_extensions : list string.
Variable excluded_dirs : list string.
Variable excluded_extensions : list string.
Variable excluded_files : list string.

Local Abbreviation count_tree' :=
  (count_tree code_extensions excluded_dirs excluded_extensions excluded_files).
Local Abbreviation count_forest' :=
  (count_forest code_extensions excluded_dirs excluded_extensions excluded_files).
Local Abbreviation walk_tree' :=
  (walk_tree code_extensions excluded_dirs excluded_extensions excluded_files).
Local Abbreviation walk_forest' :=
  (walk_forest code_extensions excluded_dirs excluded_extensions excluded_files).
Local Abbreviation collect :=
  (collect_code_files code_extensions excluded_dirs excluded_extensions
     excluded_files).

(** The counting walk counts what the collecting walk collects. *)
Lemma count_is_length_of_walk (t : Tree) :
  forall dirpath rel,
    count_tree' dirpath rel t = List.length (walk_tree' dirpath rel t).
Proof.
  induction t using Tree_mut
    with (P0 := fun f => forall dirpath rel,
                  count_forest' dirpath rel f
                  = List.length (walk_forest' dirpath rel f));
    intros dirpath rel; cbn [count_tree count_forest walk_tree walk_forest].
  - destruct (skip_dir excluded_dirs dirpath rel); [reflexivity|].
    rewrite length_app, length_map, IHt. reflexivity.
  - reflexivity.
  - rewrite length_app, IHt0.
    destruct (in_list dirname excluded_dirs); [reflexivity|].
    now rewrite IHt.
Qed.

Lemma skip_dir_by_component (dirpath rel excluded : string) :
  In excluded excluded_dirs -> In excluded (split_on "/" dirpath) ->
  skip_dir excluded_dirs dirpath rel = true.
Proof.
  intros Hex Hin. unfold skip_dir. apply existsb_exists.
  exists excluded. split; trivial. unfold excludes.
  apply in_list_true in Hin. now rewrite Hin.
Qed.

Lemma collect_without_callback (root_path : string) (tree : Tree) :
  collect root_path tree true = collect root_path tree false.
Proof.
  unfold collect_code_files. cbn [andb].
  destruct (count_tree' root_path "." tree =? 0)%nat eqn:E; [|reflexivity].
  apply Nat.eqb_eq in E. rewrite count_is_length_of_walk in E.
  destruct (walk_tree' root_path "." tree); [reflexivity|discriminate E].
Qed.

End CollectFacts.

(** X13: when a piece of [root_path] itself (split at ["/"]) is one of
    the excluded directory names, the root directory is skipped and
    nothing below it is visited: [collect_code_files] returns three
    empty lists whatever the tree holds.  [tmp] is among the default
    names, so this is what a project extracted under [/tmp] gets. *)
Theorem excluded_name_in_root_path_empties_the_collection :
  forall (code_extensions excluded_dirs excluded_extensions excluded_files
            : list string)
         (root_path : string) (tree : Tree) (with_callback : bool)
         (excluded : string),
    In excluded excluded_dirs ->
    In excluded (split_on "/" root_path) ->
    collect_code_files code_extensions excluded_dirs excluded_extensions
      excluded_files root_path tree with_callback
    = {| regular := []; ios := []; android := [] |}.
Proof.
  intros ce ed ee ef root_path tree with_callback excluded Hex Hin.
  assert (Hskip := skip_dir_by_component ed root_path "." excluded Hex Hin).
  unfold collect_code_files.
  destruct tree as [filenames dirs]. cbn [count_tree walk_tree].
  rewrite Hskip. now destruct (with_callback && _).
Qed.

Lemma excluded_name_in_root_path_empties_the_collection_witness :
  collect_code_files CODE_EXTENSIONS COMMON_EXCLUDED_DIRS
    EXCLUDED_FILE_EXTENSIONS EXCLUDED_FILES "/tmp/tmpab12cd/extract_1"
    (Node ["main.py"] (Dir "src" (Node ["app.js"] NoDirs) NoDirs)) true
  = {| regular := []; ios := []; android := [] |}.
Proof.
  apply (excluded_name_in_root_path_empties_the_collection
           CODE_EXTENSIONS COMMON_EXCLUDED_DIRS EXCLUDED_FILE_EXTENSIONS
           EXCLUDED_FILES "/tmp/tmpab12cd/extract_1"
           (Node ["main.py"] (Dir "src" (Node ["app.js"] NoDirs) NoDirs))
           true "tmp").
  - apply in_list_true. reflexivity.
  - apply in_list_true. reflexivity.
Defined.

(** *** Categories *)

Lemma prefix_empty (s : string) : String.prefix EmptyString s = true.
Proof. now destruct s. Qed.

Lemma replace_backslashes_cons (c : ascii) (s : string) :
  str_replace (String c s) backslash slash
  = if Ascii.eqb c (ascii_of_nat 92)
    then String "/" (str_replace s backslash slash)
    else String c (str_replace s backslash slash).
Proof.
  unfold str_replace, backslash, slash. cbn [replace_from String.prefix String.length].
  destruct (ascii_dec (ascii_of_nat 92) c) as [E|N].
  - rewrite prefix_empty. subst c. now rewrite Ascii.eqb_refl.
  - destruct (Ascii.eqb c (ascii_of_nat 92)) eqn:E; [|reflexivity].
    apply Ascii.eqb_eq in E. now elim N.
Qed.

Lemma replace_backslashes_app (a b : string) :
  str_replace (a ++ b) backslash slash
  = (str_replace a backslash slash ++ str_replace b backslash slash)%string.
Proof.
  induction a as [|c a IH]; [reflexivity|].
  cbn [append]. rewrite !replace_backslashes_cons, IH.
  now destruct (Ascii.eqb c (ascii_of_nat 92)).
Qed.

(** X14: a relative path with [".h"] anywhere in it is filed under iOS,
    whatever its directory: the iOS patterns are looked for as
    substrings and are tried first.  So every [.h], [.hpp], [.hs] and
    [.html] file lands in the iOS category. *)
Theorem paths_with_dot_h_are_ios :
  forall stem rest : string,
    categorize (stem ++ ".h" ++ rest) = IOS.
Proof.
  intros stem rest. unfold categorize. cbv zeta.
  assert (H : str_in ".h" (str_replace (stem ++ ".h" ++ rest) backslash slash)
              = true).
  { rewrite replace_backslashes_app. apply str_in_app.
    change (".h" ++ rest)%string with (String "." (String "h" rest)).
    rewrite !replace_backslashes_cons.
    change (Ascii.eqb "." (ascii_of_nat 92)) with false.
    change (Ascii.eqb "h" (ascii_of_nat 92)) with false.
    cbv iota. apply str_in_prefix.
    apply (prefix_app ".h" (str_replace rest backslash slash)). }
  assert (E : existsb
                (fun pattern =>
                   str_in pattern
                     (str_replace (stem ++ ".h" ++ rest) backslash slash))
                ios_patterns = true).
  { apply existsb_exists. exists ".h"%string. split; [|exact H].
    unfold ios_patterns. cbn [In]. intuition. }
  now rewrite E.
Qed.

(** *** Sorting and sharing out of the collected files *)

Lemma insert_by_path_perm (f : SourceFile) (l : list SourceFile) :
  Permutation (insert_by_path f l) (f :: l).
Proof.
  induction l as [|g l IH]; cbn [insert_by_path]; [reflexivity|].
  destruct (String.leb (path_key f) (path_key g)); [reflexivity|].
  rewrite IH. apply perm_swap.
Qed.

Lemma sort_by_path_perm (l : list SourceFile) :
  Permutation (sort_by_path l) l.
Proof.
  unfold sort_by_path. induction l as [|f l IH]; cbn [fold_right]; [reflexivity|].
  rewrite insert_by_path_perm. now constructor.
Qed.

Lemma insert_by_path_hd (a f : SourceFile) (l : list SourceFile) :
  HdRel path_le a l -> path_le a f -> HdRel path_le a (insert_by_path f l).
Proof.
  intros Hl Hf. destruct l as [|g l]; cbn [insert_by_path].
  - now constructor.
  - destruct (String.leb (path_key f) (path_key g)); constructor; trivial.
    now apply HdRel_inv in Hl.
Qed.

Lemma insert_by_path_sorted (f : SourceFile) (l : list SourceFile) :
  Sorted path_le l -> Sorted path_le (insert_by_path f l).
Proof.
  induction 1 as [|g l Hs IH Hhd]; cbn [insert_by_path].
  - repeat constructor.
  - destruct (String.leb (path_key f) (path_key g)) eqn:E.
    + constructor; [now constructor|]. constructor. exact E.
    + constructor; trivial. apply insert_by_path_hd; trivial.
      unfold path_le.
      destruct (String.leb_total (path_key f) (path_key g)) as [H|H];
        [congruence|exact H].
Qed.

Lemma sort_by_path_sorted (l : list SourceFile) :
  Sorted path_le (sort_by_path l).
Proof.
  unfold sort_by_path. induction l as [|f l IH]; cbn [fold_right].
  - constructor.
  - now apply insert_by_path_sorted.
Qed.

Lemma categories_share_out (l : list SourceFile) :
  Permutation
    (filter (has_category Regular) l ++ filter (has_category IOS) l
     ++ filter (has_category Android) l)
    l.
Proof.
  induction l as [|f l IH]; [reflexivity|].
  cbn [filter].
  assert (HR : has_category Regular f
               = match categorize (fst f) with Regular => true | _ => false end)
    by (unfold has_category; now destruct (categorize (fst f))).
  assert (HI : has_category IOS f
               = match categorize (fst f) with IOS => true | _ => false end)
    by (unfold has_category; now destruct (categorize (fst f))).
  assert (HA : has_category Android f
               = match categorize (fst f) with Android => true | _ => false end)
    by (unfold has_category; now destruct (categorize (fst f))).
  rewrite HR, HI, HA.
  destruct (categorize (fst f)); cbn [app].
  - apply perm_skip. exact IH.
  - rewrite <- Permutation_middle. apply perm_skip. exact IH.
  - rewrite app_assoc, <- Permutation_middle, <- app_assoc.
    apply perm_skip. exact IH.
Qed.

Lemma has_category_true (c : Category) (f : SourceFile) :
  has_category c f = true -> categorize (fst f) = c.
Proof.
  unfold has_category. destruct (categorize (fst f)), c; trivial; discriminate.
Qed.

Section CollectedLists.

Variable code_extensions : list string.
Variable excluded_dirs : list string.
Variable excluded_extensions : list string.
Variable excluded_files : list string.
Variable root_path : string.
Variable tree : Tree.

Local Abbreviation found :=
  (walk_tree code_extensions excluded_dirs excluded_extensions excluded_files
     root_path "." tree).
Local Abbreviation collected :=
  (collect_code_files code_extensions excluded_dirs excluded_extensions
     excluded_files root_path tree).

Lemma collected_lists (with_callback : bool) :
  let r := collected with_callback in
  regular r = sort_by_path (filter (has_category Regular) found) /\
  ios r = sort_by_path (filter (has_category IOS) found) /\
  android r = sort_by_path (filter (has_category Android) found).
Proof.
  cbv zeta. destruct with_callback; [rewrite collect_without_callback|];
    unfold collect_code_files; cbn [andb regular ios android]; now repeat split.
Qed.

Lemma collected_perm (with_callback : bool) :
  let r := collected with_callback in
  Permutation (regular r ++ ios r ++ android r) found.
Proof.
  cbv zeta. destruct (collected_lists with_callback) as [Hr [Hi Ha]].
  rewrite Hr, Hi, Ha, !sort_by_path_perm. apply categories_share_out.
Qed.

End CollectedLists.

(** X15: the three lists [collect_code_files] returns are each sorted
    by lower-cased relative path; each holds files of its own category
    only; together they hold exactly the files met on the walk, none
    lost and none twice. *)
Theorem collected_files_are_sorted_and_shared_out :
  forall (code_extensions excluded_dirs excluded_extensions excluded_files
            : list string)
         (root_path : string) (tree : Tree) (with_callback : bool),
    let r := collect_code_files code_extensions excluded_dirs
               excluded_extensions excluded_files root_path tree with_callback in
    (Sorted path_le (regular r) /\ Sorted path_le (ios r)
     /\ Sorted path_le (android r)) /\
    (Forall (fun f => categorize (fst f) = Regular) (regular r) /\
     Forall (fun f => categorize (fst f) = IOS) (ios r) /\
     Forall (fun f => categorize (fst f) = Android) (android r)) /\
    Permutation (regular r ++ ios r ++ android r)
      (walk_tree code_extensions excluded_dirs excluded_extensions
         excluded_files root_path "." tree).
Proof.
  intros ce ed ee ef root_path tree with_callback r.
  destruct (collected_lists ce ed ee ef root_path tree with_callback)
    as [Hr [Hi Ha]].
  fold r in Hr, Hi, Ha.
  split; [|split].
  - rewrite Hr, Hi, Ha. repeat split; apply sort_by_path_sorted.
  - rewrite Hr, Hi, Ha.
    repeat split; rewrite Forall_forall; intros f Hf;
      apply (Permutation_in _ (sort_by_path_perm _)) in Hf;
      apply filter_In in Hf; destruct Hf as [_ Hc];
      now apply has_category_true in Hc.
  - apply collected_perm.
Qed.

(** X16: the counting walk that runs when a progress callback is given
    counts exactly the files the collecting walk returns, so its early
    exit changes nothing: the result is the same with and without a
    callback. *)
Theorem counting_walk_agrees_with_the_collection :
  forall (code_extensions excluded_dirs excluded_extensions excluded_files
            : list string)
         (root_path : string) (tree : Tree),
    let r := collect_code_files code_extensions excluded_dirs
               excluded_extensions excluded_files root_path tree true in
    count_tree code_extensions excluded_dirs excluded_extensions excluded_files
      root_path "." tree
    = (List.length (regular r) + List.length (ios r)
       + List.length (android r))%nat /\
    r = collect_code_files code_extensions excluded_dirs excluded_extensions
          excluded_files root_path tree false.
Proof.
  intros ce ed ee ef root_path tree r. split.
  - rewrite count_is_length_of_walk.
    rewrite <- (Permutation_length
                  (collected_perm ce ed ee ef root_path tree true)).
    fold r. rewrite !length_app. lia.
  - apply collect_without_callback.
Qed.

(** *** Where the collected files come from *)

Lemma string_app_assoc (a b c : string) : ((a ++ b) ++ c = a ++ (b ++ c))%string.
Proof. induction a as [|x a IH]; cbn [append]; [reflexivity|now rewrite IH]. Qed.

Lemma rel_of_is_not_dot (d : string) (rest : list string) :
  d <> "." -> rel_of (d :: rest) <> ".".
Proof.
  intros Hd. destruct rest as [|d2 rest]; [exact Hd|].
  cbn [rel_of]. destruct d as [|x d]; cbn [append]; [discriminate|].
  intros E. injection E as _ E. destruct d; discriminate E.
Qed.

Lemma rel_join_rel_of (dirs : list string) (name : string) :
  Forall (fun d => d <> ".") dirs ->
  rel_join (rel_of dirs) name = rel_of (dirs ++ [name]).
Proof.
  induction 1 as [|d rest Hd Hrest IH]; [reflexivity|].
  unfold rel_join in *.
  assert (Hne := rel_of_is_not_dot d rest Hd).
  apply String.eqb_neq in Hne. rewrite Hne.
  destruct rest as [|d2 rest]; [reflexivity|].
  assert (Hne2 : (rel_of (d2 :: rest) =? ".") = false).
  { apply String.eqb_neq. apply rel_of_is_not_dot. now inversion Hrest. }
  rewrite Hne2 in IH.
  change (rel_of ((d :: d2 :: rest) ++ [name]))
    with (d ++ "/" ++ rel_of ((d2 :: rest) ++ [name])).
  rewrite <- IH.
  change (rel_of (d :: d2 :: rest)) with (d ++ "/" ++ rel_of (d2 :: rest)).
  now rewrite !string_app_assoc.
Qed.

Section Provenance.

Variable code_extensions : list string.
Variable excluded_dirs : list string.
Variable excluded_extensions : list string.
Variable excluded_files : list string.
Variable root_path : string.

Local Abbreviation keep :=
  (keep_file code_extensions excluded_extensions excluded_files).

Local Abbreviation reached := (reached_dirs excluded_dirs).
Local Abbreviation comes_from_allowed_places :=
  (comes_from_allowed_places code_extensions excluded_dirs excluded_extensions
     excluded_files root_path).

Lemma walk_provenance (t : Tree) :
  forall dirs,
    reached dirs -> dirs_are_named t ->
    Forall comes_from_allowed_places
      (walk_tree code_extensions excluded_dirs excluded_extensions excluded_files
         (fold_left path_join dirs root_path) (rel_of dirs) t).
Proof.
  induction t using Tree_mut
    with (P0 := fun f => forall dirs,
                  reached dirs -> forest_is_named f ->
                  Forall comes_from_allowed_places
                    (walk_forest code_extensions excluded_dirs
                       excluded_extensions excluded_files
                       (fold_left path_join dirs root_path) (rel_of dirs) f));
    intros dirs0 Hreached Hnamed; cbn [walk_tree walk_forest].
  - destruct (skip_dir _ _ _); [constructor|].
    apply Forall_app. split; [|now apply IHt].
    rewrite Forall_forall. intros f Hf.
    apply in_map_iff in Hf. destruct Hf as [name [<- Hname]].
    apply filter_In in Hname. destruct Hname as [_ Hkeep].
    destruct Hreached as [Hdots Hallowed].
    exists dirs0, name. cbn [fst snd].
    rewrite rel_join_rel_of by exact Hdots.
    rewrite fold_left_app. cbn [fold_left]. now repeat split.
  - constructor.
  - cbn [forest_is_named] in Hnamed. destruct Hnamed as [Hd [Ht Ho]].
    apply Forall_app. split; [|now apply IHt0].
    destruct (in_list dirname excluded_dirs) eqn:Hin; [constructor|].
    destruct Hreached as [Hdots Hallowed].
    assert (Hnot : ~ In dirname excluded_dirs).
    { intros H. apply in_list_true in H. congruence. }
    specialize (IHt (dirs0 ++ [dirname])%list).
    rewrite fold_left_app in IHt. cbn [fold_left] in IHt.
    rewrite <- rel_join_rel_of in IHt by exact Hdots.
    apply IHt; trivial.
    split; apply Forall_app; split; trivial; now repeat constructor.
Qed.

End Provenance.

(** X17: every file [collect_code_files] returns was met below the
    root through directories none of which bears an excluded name, and
    its own name passed the file tests (no ["._"] prefix, not an
    excluded file, no excluded extension, a code extension); its
    relative path is those names joined by ["/"] and its file path is
    the root joined with them. *)
Theorem collected_files_come_from_allowed_places :
  forall (code_extensions excluded_dirs excluded_extensions excluded_files
            : list string)
         (root_path : string) (tree : Tree) (with_callback : bool),
    dirs_are_named tree ->
    let r := collect_code_files code_extensions excluded_dirs
               excluded_extensions excluded_files root_path tree with_callback in
    forall f : SourceFile,
      In f (regular r ++ ios r ++ android r) ->
      exists dirs name,
        fst f = rel_of (dirs ++ [name]) /\
        snd f = fold_left path_join (dirs ++ [name]) root_path /\
        Forall (fun d => ~ In d excluded_dirs) dirs /\
        keep_file code_extensions excluded_extensions excluded_files name = true.
Proof.
  intros ce ed ee ef root_path tree with_callback Hnamed r f Hf.
  apply (Permutation_in _ (collected_perm ce ed ee ef root_path tree
                             with_callback)) in Hf.
  pose proof (walk_provenance ce ed ee ef root_path tree [] ) as H.
  cbn [fold_left rel_of] in H.
  assert (Hr : reached_dirs ed []) by (split; constructor).
  specialize (H Hr Hnamed). rewrite Forall_forall in H.
  exact (H f Hf).
Qed.

Lemma collected_files_come_from_allowed_places_witness :
  exists dirs name,
    "src/app.js" = rel_of (dirs ++ [name]) /\
    "/home/u/proj/src/app.js" = fold_left path_join (dirs ++ [name]) "/home/u/proj" /\
    Forall (fun d => ~ In d COMMON_EXCLUDED_DIRS) dirs /\
    keep_file CODE_EXTENSIONS EXCLUDED_FILE_EXTENSIONS EXCLUDED_FILES name = true.
Proof.
  refine (collected_files_come_from_allowed_places
            CODE_EXTENSIONS COMMON_EXCLUDED_DIRS EXCLUDED_FILE_EXTENSIONS
            EXCLUDED_FILES "/home/u/proj"
            (Node ["main.py"] (Dir "src" (Node ["app.js"] NoDirs) NoDirs))
            true _ ("src/app.js", "/home/u/proj/src/app.js") _).
  - cbn [dirs_are_named forest_is_named]. repeat split. discriminate.
  - vm_compute. right. left. reflexivity.
Defined.

(* ================================================================== *)
(** ** Progress, delivery and download *)
(* ================================================================== *)

Import Web.

(** *** The download registry *)

Lemma lookup_register_same (reg : Registry) (key path : string) :
  lookup (register reg key path) key = Some path.
Proof. unfold lookup, register. now rewrite String.eqb_refl. Qed.

Lemma lookup_register_other (reg : Registry) (key path k : string) :
  k <> key -> lookup (register reg key path) k = lookup reg k.
Proof.
  intros H. apply String.eqb_neq in H.
  unfold lookup, register. rewrite H. now destruct reg.
Qed.

Lemma string_length_app (a b : string) :
  String.length (a ++ b) = (String.length a + String.length b)%nat.
Proof. induction a as [|x a IH]; cbn [append String.length plus]; congruence. Qed.

Lemma logs_key_is_another_key (task_id : string) :
  task_id <> task_id ++ "_logs".
Proof.
  intros E. apply (f_equal String.length) in E.
  rewrite string_length_app in E. cbn [String.length] in E. lia.
Qed.

Lemma path_join_is_not_empty (a b : string) : b <> "" -> path_join a b <> "".
Proof.
  intros Hb. unfold path_join. destruct (String.prefix "/" b); [exact Hb|].
  destruct (_ || _); destruct a; cbn [append]; trivial; discriminate.
Qed.

Lemma download_of_a_registered_file (reg : Registry) (on_disk : string -> bool)
    (filename task_id key file_path logs : string) :
  filename <> "" -> task_id <> "" ->
  key = (if String.eqb logs "true" then task_id ++ "_logs" else task_id) ->
  lookup reg key = Some file_path -> on_disk file_path = true ->
  download_file reg on_disk filename task_id logs = SendFile file_path filename.
Proof.
  intros Hf Ht -> Hl Hd. apply String.eqb_neq in Hf, Ht.
  unfold download_file. rewrite Hf, Ht. cbn [orb]. now rewrite Hl, Hd.
Qed.

(** X18: the last update of a job and the download route agree.  When
    [add_progress_update] is called with [complete] and a log line, and
    the log file can be written, the update it queues is complete and
    carries the logs link of the task; from then on [download_file]
    with that task id and [logs=true] sends the log file, and without
    it still sends the file the worker registered for the task: the two
    registry keys never collide. *)
Theorem final_update_links_to_the_logs_download_serves :
  forall (upload_folder now_iso now_clock : string) (st : AppState)
         (progress : option Z) (message : option string)
         (l log_type : string) (link : option string)
         (on_disk : string -> bool) (filename artifact : string),
    current_task_id st <> "" -> l <> "" -> filename <> "" ->
    lookup (download_files st) (current_task_id st) = Some artifact ->
    let logs_path :=
      path_join upload_folder
        ("process_logs_" ++ current_task_id st ++ ".txt") in
    on_disk artifact = true -> on_disk logs_path = true ->
    let st' :=
      add_progress_update upload_folder now_iso now_clock true st
        progress message (Some l) log_type true link in
    (exists u,
        progress_queue st' = (progress_queue st ++ [u])%list /\
        complete u = true /\
        logs_url u = Some ("/download?filename=process_logs.txt&task_id="
                           ++ current_task_id st ++ "&logs=true")) /\
    download_file (download_files st') on_disk filename (current_task_id st)
      "true" = SendFile logs_path filename /\
    download_file (download_files st') on_disk filename (current_task_id st)
      "false" = SendFile artifact filename.
Proof.
  intros uf now_iso now_clock st progress message l log_type link on_disk
         filename artifact Htid Hl Hfile Hart logs_path Hda Hdl st'.
  assert (Hl' : (l =? "") = false) by now apply String.eqb_neq.
  assert (Hlen : negb (List.length
                         (all_log_messages st
                          ++ [("[" ++ now_clock ++ "] " ++ l)%string])%list
                       =? 0)%nat
                 = true).
  { rewrite length_app. cbn [List.length]. rewrite Nat.add_1_r. reflexivity. }
  assert (Hpath : (logs_path =? "") = false).
  { apply String.eqb_neq. apply path_join_is_not_empty. discriminate. }
  assert (Hreg : download_files st'
                 = register (download_files st)
                     (current_task_id st ++ "_logs") logs_path).
  { subst st'. unfold add_progress_update. cbn [truthy]. rewrite Hl'.
    cbn [negb all_log_messages andb]. rewrite Hlen.
    unfold save_logs_to_file.
    cbn [fst snd download_files current_task_id all_log_messages progress_queue].
    reflexivity. }
  split; [|split].
  - subst st'. unfold add_progress_update. cbn [truthy]. rewrite Hl'.
    cbn [negb all_log_messages andb]. rewrite Hlen.
    unfold save_logs_to_file.
    cbn [fst snd download_files current_task_id all_log_messages progress_queue].
    fold logs_path. rewrite Hpath. cbn [negb].
    eexists. split; [reflexivity|]. split; reflexivity.
  - rewrite Hreg.
    apply (download_of_a_registered_file _ _ _ _ (current_task_id st ++ "_logs"));
      trivial.
    apply lookup_register_same.
  - rewrite Hreg.
    apply (download_of_a_registered_file _ _ _ _ (current_task_id st));
      trivial.
    rewrite lookup_register_other; [exact Hart|].
    apply logs_key_is_another_key.
Qed.

Lemma final_update_links_to_the_logs_download_serves_witness :
  let st := {| all_log_messages := [];
               progress_queue := [];
               download_files := register None "20260101120000ab12cd34"
                                   "/srv/up/demo_pdfs.zip";
               current_task_id := "20260101120000ab12cd34" |} in
  let st' :=
    add_progress_update "/srv/up" "2026-01-01T12:00:09" "12:00:09 PM" true st
      (Some 100%Z) (Some "Processing complete")
      (Some "Human-readable files ready for download") "info" true
      (Some "/download?filename=demo_pdfs.zip&task_id=20260101120000ab12cd34") in
  (exists u,
      progress_queue st' = (progress_queue st ++ [u])%list /\
      complete u = true /\
      logs_url u = Some ("/download?filename=process_logs.txt&task_id="
                         ++ current_task_id st ++ "&logs=true")) /\
  download_file (download_files st') (fun _ => true) "process_logs.txt"
    (current_task_id st) "true"
  = SendFile "/srv/up/process_logs_20260101120000ab12cd34.txt"
      "process_logs.txt" /\
  download_file (download_files st') (fun _ => true) "process_logs.txt"
    (current_task_id st) "false"
  = SendFile "/srv/up/demo_pdfs.zip" "process_logs.txt".
Proof.
  intros st.
  apply (final_update_links_to_the_logs_download_serves
           "/srv/up" "2026-01-01T12:00:09" "12:00:09 PM" st
           (Some 100%Z) (Some "Processing complete")
           "Human-readable files ready for download" "info"
           (Some "/download?filename=demo_pdfs.zip&task_id=20260101120000ab12cd34")
           (fun _ => true) "process_logs.txt" "/srv/up/demo_pdfs.zip");
    try discriminate; reflexivity.
Defined.

(** *** The progress stream *)

Lemma pump_while_streaming (pre rest : list Poll) :
  forallb keeps_streaming pre = true ->
  pump (pre ++ rest)
  = ((map event_of pre ++ fst (pump rest))%list, snd (pump rest)).
Proof.
  induction pre as [|p pre IH]; intros H; cbn [app map pump].
  - now destruct (pump rest).
  - cbn [forallb] in H. apply andb_prop in H. destruct H as [Hp Hpre].
    specialize (IH Hpre).
    destruct p as [u| |e]; cbn [keeps_streaming] in Hp; [| |discriminate].
    + apply negb_true_iff in Hp. rewrite Hp, IH. reflexivity.
    + rewrite IH. reflexivity.
Qed.

(** X19: the stream of the current task sends the connection notice,
    then one event per turn of the loop (the update taken from the
    queue, or a ping when the queue stays empty), and ends with the
    first update that is complete: whatever is queued after it is not
    sent on this stream. *)
Theorem progress_stream_ends_with_the_first_complete_update :
  forall (task_id : string) (before : list Poll) (u : Update)
         (after : list Poll),
    forallb keeps_streaming before = true ->
    complete u = true ->
    generate task_id task_id (before ++ Got u :: after)
    = ((Connected :: map event_of before ++ [Data u])%list, true).
Proof.
  intros task_id before u after Hbefore Hu.
  unfold generate. rewrite String.eqb_refl. cbn [negb].
  rewrite (pump_while_streaming _ _ Hbefore).
  cbn [pump]. rewrite Hu. reflexivity.
Qed.

Lemma progress_stream_ends_with_the_first_complete_update_witness :
  let u1 := mkUpdate "t1" (Some 5%Z) (Some "Extracting ZIP file")
              (Some "Unpacking project files...") (Some "info") false None None in
  let u2 := mkUpdate "t2" (Some 100%Z) (Some "Process complete")
              (Some "No files to process") (Some "info") true None None in
  generate "job" "job" ([Got u1; QueueEmpty] ++ Got u2 :: [Got u1])
  = ([Connected; Data u1; Ping; Data u2], true).
Proof.
  intros u1 u2.
  apply (progress_stream_ends_with_the_first_complete_update
           "job" [Got u1; QueueEmpty] u2 [Got u1]); reflexivity.
Defined.

(** *** What the worker delivers *)

Lemma artifacts_of_something (g : Generated) :
  nothing_generated g = false -> artifacts g <> [].
Proof.
  destruct g as [p|l]; cbn [nothing_generated artifacts]; [discriminate|].
  destruct l; [discriminate|discriminate].
Qed.

(** X20: when the structure PDF was written and [generate_pdf] returned
    at least one file, the job is delivered as an archive, never as a
    single PDF, and the structure PDF is its first member, followed by
    the generated files that are on disk, in their order. *)
Theorem structure_pdf_leads_the_archive :
  forall (g : Generated) (structure_pdf : string) (on_disk : string -> bool),
    structure_pdf <> "" ->
    on_disk structure_pdf = true ->
    nothing_generated g = false ->
    ~ In structure_pdf (artifacts g) ->
    deliver (GenerationReturned g) (Some structure_pdf) on_disk
    = PdfArchive (structure_pdf :: filter on_disk (artifacts g)).
Proof.
  intros g p on_disk Hp Hdisk Hg Hnew.
  apply String.eqb_neq in Hp.
  assert (Hin : in_list p (artifacts g) = false).
  { destruct (in_list p (artifacts g)) eqn:E; trivial.
    apply in_list_true in E. contradiction. }
  assert (Hne := artifacts_of_something g Hg).
  unfold deliver. rewrite Hg, Hp, Hdisk, Hin. cbn [negb andb].
  destruct (artifacts g) as [|a rest]; [contradiction|].
  cbn [List.length Nat.ltb Nat.leb filter]. now rewrite Hdisk.
Qed.

Lemma structure_pdf_leads_the_archive_witness :
  deliver (GenerationReturned
             (PathList ["/srv/up/demo_code_regular.pdf"]))
    (Some "/srv/up/demo_code_structure.pdf") (fun _ => true)
  = PdfArchive ["/srv/up/demo_code_structure.pdf";
                "/srv/up/demo_code_regular.pdf"].
Proof.
  apply (structure_pdf_leads_the_archive
           (PathList ["/srv/up/demo_code_regular.pdf"])
           "/srv/up/demo_code_structure.pdf" (fun _ => true)).
  - discriminate.
  - reflexivity.
  - reflexivity.
  - cbn [artifacts In]. intros [E|[]]. discriminate E.
Defined.

Lemma upload_budget_is_positive (split_pdf_on : bool) (max_pdf_size : FloatParse) :
  exists q, upload_max_pdf_size_mb split_pdf_on max_pdf_size = Some q /\ (0 < q)%Q.
Proof.
  unfold upload_max_pdf_size_mb.
  destruct split_pdf_on; [|now exists (39 # 100)%Q].
  destruct max_pdf_size as [x|]; [|now exists (39 # 100)%Q].
  destruct (Qle_bool x 0) eqn:E; [now exists (39 # 100)%Q|].
  exists x. split; trivial. apply Qnot_le_lt. intros H.
  apply Qle_bool_iff in H. congruence.
Qed.

Lemma nothing_built_iff (doc_build : Bin -> bool) (r i a : list Bin)
    (rl il al : list string) :
  List.length rl = List.length (filter doc_build r) ->
  List.length il = List.length (filter doc_build i) ->
  List.length al = List.length (filter doc_build a) ->
  ((rl ++ il ++ al)%list = [] <-> filter doc_build (r ++ i ++ a)%list = []).
Proof.
  intros Lr Li La. rewrite !filter_app.
  split; intros E; apply (f_equal (@List.length _)) in E;
    rewrite !length_app in E; cbn [List.length] in E.
  - destruct (filter doc_build r); [|cbn [List.length] in Lr; lia].
    destruct (filter doc_build i); [|cbn [List.length] in Li; lia].
    destruct (filter doc_build a); [|cbn [List.length] in La; lia].
    reflexivity.
  - destruct rl; [|cbn [List.length] in Lr, E; lia].
    destruct il; [|cbn [List.length] in Li, E; lia].
    destruct al; [|cbn [List.length] in La, E; lia].
    reflexivity.
Qed.

Lemma delivery_is_text_iff (output_files : list string)
    (structure_pdf : option string) (on_disk : string -> bool) :
  deliver (GenerationReturned (PathList output_files)) structure_pdf on_disk
  = TextArchive
  <-> output_files = [].
Proof.
  unfold deliver. cbn [nothing_generated artifacts].
  destruct output_files as [|part parts]; cbn [List.length Nat.eqb].
  - split; reflexivity.
  - split; [|intros H; discriminate H].
    intros H. exfalso.
    destruct structure_pdf as [p|];
      repeat match type of H with
             | context [if ?b then _ else _] => destruct b
             end; discriminate H.
Qed.

(** X21: a job that found no code file delivers nothing.  A job that
    found code files ends with the text archive when [generate_pdf]
    raised before it reached the packers, and, when the heading of
    every selected unit is built, exactly in that case or when no part
    of a selected category was built by [doc.build]: the fallback
    announced as a failure of the PDF generation is also what a
    selection that holds no file gives.  The budget is the one
    [upload_async] passes on. *)
Theorem text_fallback_exactly_when_nothing_built_or_generation_raised :
  forall (open_read : string -> ReadOutcome)
         (paragraph : string -> option string) (doc_build : Bin -> bool)
         (os_rename : string -> string -> bool)
         (output_path extract_dir : string)
         (extracted : Tree) (excluded_dirs include_categories : list string)
         (split_pdf_on : bool) (max_pdf_size : FloatParse)
         (machine_format : bool) (structure_pdf : option string)
         (on_disk : string -> bool) (generation_raises : bool),
    let found := collected_by_worker extract_dir extracted excluded_dirs in
    let selected := select_categories include_categories found in
    let result :=
      process_project_async_worker open_read paragraph doc_build os_rename
        output_path extract_dir extracted excluded_dirs include_categories
        (upload_max_pdf_size_mb split_pdf_on max_pdf_size)
        machine_format structure_pdf on_disk generation_raises in
    ((regular found ++ ios found ++ android found)%list = [] ->
     result = NoCodeFiles) /\
    ((regular found ++ ios found ++ android found)%list <> [] ->
     generation_raises = true -> result = Delivered TextArchive) /\
    (headings_built paragraph
       (regular selected ++ ios selected ++ android selected)%list ->
     exists q,
       upload_max_pdf_size_mb split_pdf_on max_pdf_size = Some q /\
       let bins_of category files :=
         category_bins open_read
           (category_pdf output_path category machine_format) files
           (q * 1048576) in
       let handed :=
         (bins_of "regular" (regular selected) ++ bins_of "ios" (ios selected)
          ++ bins_of "android" (android selected))%list in
       ((regular selected ++ ios selected ++ android selected)%list = [] ->
        handed = []) /\
       (result = Delivered TextArchive
        <-> ((regular found ++ ios found ++ android found)%list <> [] /\
             (generation_raises = true \/ filter doc_build handed = [])))).
Proof.
  intros open_read paragraph doc_build os_rename output_path extract_dir
         extracted excluded_dirs include split_pdf_on max_pdf_size
         machine_format structure_pdf on_disk raises found selected result.
  destruct (upload_budget_is_positive split_pdf_on max_pdf_size) as [q [Eq Hq]].
  assert (Hres : result
                 = if (List.length (regular found ++ ios found ++ android found)
                       =? 0)%nat
                   then NoCodeFiles
                   else Delivered
                          (deliver
                             (if raises then GenerationRaised
                              else generate_pdf open_read paragraph doc_build
                                     os_rename output_path selected (Some q)
                                     machine_format)
                             structure_pdf on_disk)).
  { unfold result, process_project_async_worker. fold found. fold selected.
    rewrite Eq. rewrite <- Nat.add_assoc, <- !length_app. reflexivity. }
  clearbody result found selected. rewrite Hres. clear Hres.
  split; [intros E; rewrite E; reflexivity|].
  split.
  - intros Hne Hr. rewrite Hr.
    destruct (regular found ++ ios found ++ android found)%list;
      [elim Hne; reflexivity|reflexivity].
  - intros Hb. exists q. split; [exact Eq|]. cbv zeta.
    split.
    { intros E. apply app_eq_nil in E. destruct E as [E1 E].
      apply app_eq_nil in E. destruct E as [E2 E3].
      rewrite E1, E2, E3. reflexivity. }
    destruct (regular found ++ ios found ++ android found)%list as [|f rest].
    { cbn [List.length Nat.eqb]. split; [intros H; discriminate H|].
      intros [H _]. elim H. reflexivity. }
    cbn [List.length Nat.eqb].
    assert (Hf : (f :: rest) <> []) by discriminate.
    destruct raises.
    { cbn [deliver]. split; [intros _|reflexivity].
      split; [exact Hf|left; reflexivity]. }
    assert (Hb1 : headings_built paragraph (regular selected)).
    { intros g Hg. apply Hb. apply in_app_iff. left. exact Hg. }
    assert (Hb2 : headings_built paragraph (ios selected)).
    { intros g Hg. apply Hb. apply in_app_iff. right.
      apply in_app_iff. left. exact Hg. }
    assert (Hb3 : headings_built paragraph (android selected)).
    { intros g Hg. apply Hb. apply in_app_iff. right.
      apply in_app_iff. right. exact Hg. }
    destruct (split_category_when_built open_read paragraph doc_build
                os_rename output_path "regular" (regular selected)
                (q * 1048576) machine_format Hb1) as [r [Er Lr]].
    destruct (split_category_when_built open_read paragraph doc_build
                os_rename output_path "ios" (ios selected)
                (q * 1048576) machine_format Hb2) as [i [Ei Li]].
    destruct (split_category_when_built open_read paragraph doc_build
                os_rename output_path "android" (android selected)
                (q * 1048576) machine_format Hb3) as [a [Ea La]].
    rewrite (generate_pdf_with_budget open_read paragraph doc_build os_rename
               output_path selected q machine_format Hq).
    unfold generate_split_documents, _generate_split_pdfs_with_categories.
    cbv zeta. rewrite Er, Ei, Ea. cbn [bind generation_of].
    rewrite <- (nothing_built_iff doc_build _ _ _ r i a Lr Li La).
    split.
    + intros H. injection H as H. apply delivery_is_text_iff in H.
      split; [exact Hf|right; exact H].
    + intros [_ [H|H]]; [discriminate H|].
      f_equal. apply delivery_is_text_iff. exact H.
Qed.

(** *** Where the worker looks for code *)

Lemma split_on_is_not_empty (sep : ascii) (s : string) : split_on sep s <> [].
Proof.
  destruct s as [|c s]; cbn [split_on]; [discriminate|].
  destruct (Ascii.eqb c sep); [discriminate|].
  destruct (split_on sep s); discriminate.
Qed.

Lemma split_on_app_sep (sep : ascii) (a b : string) :
  split_on sep (a ++ String sep b) = (split_on sep a ++ split_on sep b)%list.
Proof.
  induction a as [|c a IH]; cbn [append split_on].
  - now rewrite Ascii.eqb_refl.
  - rewrite IH. destruct (Ascii.eqb c sep); [reflexivity|].
    destruct (split_on sep a) as [|piece others] eqn:E; [|reflexivity].
    now elim (split_on_is_not_empty sep a).
Qed.

Lemma endswith_slash (a : string) :
  endswith a "/" = true -> exists a', a = a' ++ "/".
Proof.
  induction a as [|c a IH]; cbn [endswith]; intros H.
  - discriminate H.
  - apply orb_prop in H. destruct H as [H|H].
    + apply String.eqb_eq in H. exists "". exact H.
    + destruct (IH H) as [a' ->]. now exists (String c a').
Qed.

Lemma path_join_keeps_pieces (x a b : string) :
  x <> "" -> startswith b "/" = false ->
  In x (split_on "/" a) -> In x (split_on "/" (path_join a b)).
Proof.
  intros Hx Hb Hin. unfold path_join. unfold startswith in Hb. rewrite Hb.
  destruct ((a =? "") || endswith a "/") eqn:E.
  - apply orb_prop in E. destruct E as [E|E].
    + apply String.eqb_eq in E. subst a. cbn [split_on In] in Hin.
      destruct Hin as [Hin|[]]. now elim Hx.
    + destruct (endswith_slash a E) as [a' ->].
      rewrite string_app_assoc. cbn [append].
      change (a' ++ "/") with (a' ++ String "/" "") in Hin.
      rewrite split_on_app_sep in *. cbn [split_on] in Hin.
      apply in_app_iff in Hin. apply in_app_iff.
      destruct Hin as [Hin|[Hin|[]]]; [now left|now elim Hx].
  - change (a ++ "/" ++ b) with (a ++ String "/" b).
    rewrite split_on_app_sep. apply in_app_iff. now left.
Qed.

Lemma with_common_dirs_keeps (x : string) (excluded_dirs : list string) :
  In x COMMON_EXCLUDED_DIRS \/ In x excluded_dirs ->
  In x (with_common_dirs excluded_dirs).
Proof.
  unfold with_common_dirs. generalize COMMON_EXCLUDED_DIRS as common.
  intros common. revert excluded_dirs.
  induction common as [|c common IH]; intros dirs H; cbn [fold_left].
  - destruct H as [[]|H]. exact H.
  - apply IH. destruct H as [[->|H]|H].
    + right. destruct (in_list x dirs) eqn:E.
      * now apply in_list_true.
      * apply in_app_iff. right. now left.
    + now left.
    + right. destruct (in_list c dirs); trivial. apply in_app_iff. now left.
Qed.

Lemma skipped_root_gives_nothing
    (code_extensions excluded_dirs excluded_extensions excluded_files
       : list string)
    (root_path : string) (tree : Tree) (with_callback : bool) :
  skip_dir excluded_dirs root_path "." = true ->
  collect_code_files code_extensions excluded_dirs excluded_extensions
    excluded_files root_path tree with_callback
  = {| regular := []; ios := []; android := [] |}.
Proof.
  intros Hskip. unfold collect_code_files.
  destruct tree as [filenames dirs]. cbn [count_tree walk_tree].
  rewrite Hskip. cbn [filter sort_by_path fold_right].
  now destruct (with_callback && _).
Qed.

(** X22: a job whose upload folder lies under a directory that bears an
    excluded name finds no code file, whatever the archive holds: the
    exclusion test of [collect_code_files] looks at every piece of the
    absolute path, the pieces above the project included, and the
    worker always excludes the common names, [tmp] among them. *)
Theorem job_under_an_excluded_name_finds_no_code :
  forall (open_read : string -> ReadOutcome)
         (paragraph : string -> option string) (doc_build : Bin -> bool)
         (os_rename : string -> string -> bool)
         (output_path upload_folder task_id : string)
         (extracted : Tree) (excluded_dirs include_categories : list string)
         (max_pdf_size : option Q) (machine_format : bool)
         (structure_pdf : option string) (on_disk : string -> bool)
         (generation_raises : bool) (excluded : string),
    In excluded COMMON_EXCLUDED_DIRS \/ In excluded excluded_dirs ->
    excluded <> "" ->
    In excluded (split_on "/" upload_folder) ->
    (forall name content,
        extracted = Node [] (Dir name content NoDirs) ->
        startswith name "/" = false) ->
    process_project_async_worker open_read paragraph doc_build os_rename
      output_path (upload_extract_dir upload_folder task_id) extracted
      excluded_dirs include_categories max_pdf_size machine_format
      structure_pdf on_disk generation_raises
    = NoCodeFiles.
Proof.
  intros open_read paragraph doc_build os_rename output_path upload_folder
         task_id extracted excluded_dirs
         include max_pdf_size machine_format structure_pdf on_disk raises
         excluded Hex Hne Hin Hplain.
  apply with_common_dirs_keeps in Hex.
  assert (Hdir : In excluded
                   (split_on "/" (upload_extract_dir upload_folder task_id))).
  { unfold upload_extract_dir.
    apply path_join_keeps_pieces; [exact Hne|reflexivity|exact Hin]. }
  assert (Hnone : collected_by_worker (upload_extract_dir upload_folder task_id)
                    extracted excluded_dirs
                  = {| regular := []; ios := []; android := [] |}).
  { unfold collected_by_worker.
    destruct (project_root (upload_extract_dir upload_folder task_id) extracted)
      as [project_dir tree] eqn:Eroot.
    apply skipped_root_gives_nothing.
    apply (skip_dir_by_component _ _ _ excluded); [exact Hex|].
    unfold project_root in Eroot.
    destruct extracted as [filenames dirs].
    destruct filenames as [|f filenames];
      [destruct dirs as [|name content others];
       [|destruct others as [|name2 content2 others2]]|];
      injection Eroot as <- _; try exact Hdir.
    apply path_join_keeps_pieces; [exact Hne| |exact Hdir].
    exact (Hplain name content eq_refl). }
  unfold process_project_async_worker. rewrite Hnone. reflexivity.
Qed.

Lemma job_under_an_excluded_name_finds_no_code_witness :
  process_project_async_worker (fun _ => Collector.ReadOk "x = 1")
    (fun _ => None) (fun _ => true) (fun _ _ => true)
    "/tmp/tmpab12cd/demo_code.pdf"
    (upload_extract_dir "/tmp/tmpab12cd" "20260101120000ab12cd34")
    (Node [] (Dir "demo" (Node ["main.py"] NoDirs) NoDirs))
    COMMON_EXCLUDED_DIRS ["regular"; "ios"; "android"]
    (Some (39 # 100)%Q) false None (fun _ => true) false
  = NoCodeFiles.
Proof.
  apply (job_under_an_excluded_name_finds_no_code
           (fun _ => Collector.ReadOk "x = 1")
           (fun _ => None) (fun _ => true) (fun _ _ => true)
           "/tmp/tmpab12cd/demo_code.pdf" "/tmp/tmpab12cd"
           "20260101120000ab12cd34"
           (Node [] (Dir "demo" (Node ["main.py"] NoDirs) NoDirs))
           COMMON_EXCLUDED_DIRS ["regular"; "ios"; "android"]
           (Some (39 # 100)%Q) false None (fun _ => true) false "tmp").
  - left. apply in_list_true. reflexivity.
  - discriminate.
  - apply in_list_true. reflexivity.
  - intros name content E. injection E as <- _. reflexivity.
Defined.

(** *** The scan of an archive *)

Lemma common_dirs_are_distinct : NoDup common_dirs.
Proof.
  assert (E : nodup string_dec common_dirs = common_dirs) by reflexivity.
  rewrite <- E. apply NoDup_nodup.
Qed.

Section SecondPass.

Variable all_paths : list string.

Local Abbreviation second_pass :=
  (fun found common_dir =>
     if existsb (found_anywhere common_dir) all_paths
        && negb (in_list common_dir found)
     then (found ++ [common_dir])%list else found).

Lemma second_pass_spec (dirs found : list string) :
  NoDup found ->
  NoDup (fold_left second_pass dirs found) /\
  forall d, In d (fold_left second_pass dirs found)
            <-> In d found \/
                (In d dirs /\ existsb (found_anywhere d) all_paths = true).
Proof.
  revert found. induction dirs as [|c dirs IH]; intros found Hnd;
    cbn [fold_left].
  - split; trivial. intros d. split; [now left|]. now intros [H|[[] _]].
  - destruct (existsb (found_anywhere c) all_paths) eqn:Ec;
      [destruct (in_list c found) eqn:Ef|]; cbn [andb negb].
    + destruct (IH found Hnd) as [N M]. split; trivial.
      intros d. rewrite M. apply in_list_true in Ef. split.
      * intros [H|[H1 H2]]; [now left|]. right. split; trivial. now right.
      * intros [H|[[<-|H1] H2]]; [now left|now left|]. now right.
    + assert (Hnew : ~ In c found).
      { intros H. apply in_list_true in H. congruence. }
      assert (Hnd' : NoDup (found ++ [c])).
      { apply NoDup_app; trivial.
        - repeat constructor. intros [].
        - intros a Ha [<-|[]]. contradiction. }
      destruct (IH _ Hnd') as [N M]. split; trivial.
      intros d. rewrite M, in_app_iff. cbn [In]. split.
      * intros [[H|[<-|[]]]|[H1 H2]].
        -- now left.
        -- right. split; trivial. now left.
        -- right. split; trivial. now right.
      * intros [H|[[<-|H1] H2]].
        -- left. now left.
        -- left. right. now left.
        -- right. now split.
    + destruct (IH found Hnd) as [N M]. split; trivial.
      intros d. rewrite M. split.
      * intros [H|[H1 H2]]; [now left|]. right. split; trivial. now right.
      * intros [H|[[<-|H1] H2]]; [now left|congruence|]. now right.
Qed.

End SecondPass.

(** X23: the list [scan_zip] reports holds no name twice, and a name is
    on it exactly when it is one of the twenty common names and either
    a directory part of some entry bears it, or some entry path has it
    between slashes or at its start, or it is [__MACOSX] and some entry
    looks like a macOS resource file. *)
Theorem scan_reports_each_common_directory_once :
  forall filenames : list string,
    let all_paths :=
      map (fun name => str_replace name backslash slash) filenames in
    NoDup (found_dirs filenames) /\
    forall d,
      In d (found_dirs filenames)
      <-> In d common_dirs /\
          (In d (flat_map directory_parts all_paths)
           \/ existsb (found_anywhere d) all_paths = true
           \/ (d = "__MACOSX" /\ existsb mac_file all_paths = true)).
Proof.
  intros filenames all_paths. unfold found_dirs. fold all_paths.
  set (detected := flat_map directory_parts all_paths).
  set (first := filter (fun dir_name => in_list dir_name detected) common_dirs).
  assert (Hfirst : NoDup first).
  { apply NoDup_filter. exact common_dirs_are_distinct. }
  destruct (second_pass_spec all_paths common_dirs first Hfirst) as [N M].
  set (second := fold_left _ common_dirs first) in *.
  assert (Hin_first : forall d, In d first <-> In d common_dirs /\ In d detected).
  { intros d. unfold first. rewrite filter_In, in_list_true. reflexivity. }
  assert (Hmac : In "__MACOSX" common_dirs) by (apply in_list_true; reflexivity).
  destruct (existsb mac_file all_paths) eqn:Emac;
    [destruct (in_list "__MACOSX" second) eqn:Ein|]; cbn [andb negb].
  - split; [exact N|]. intros d. rewrite M, Hin_first. split.
    + intros [[H1 H2]|[H1 H2]]; (split; [exact H1|]);
        [left; exact H2|right; left; exact H2].
    + intros [H1 [H2|[H2|[Hd _]]]].
      * left. split; assumption.
      * right. split; assumption.
      * subst d. apply in_list_true in Ein. apply (proj1 (M _)) in Ein.
        rewrite Hin_first in Ein. exact Ein.
  - assert (Hnew : ~ In "__MACOSX" second).
    { intros H. apply in_list_true in H. congruence. }
    split.
    + apply NoDup_app; [exact N| |].
      * constructor; [intros []|constructor].
      * intros a Ha [Ea|[]]. subst a. exact (Hnew Ha).
    + intros d. rewrite in_app_iff, M, Hin_first. cbn [In]. split.
      * intros [[[H1 H2]|[H1 H2]]|[Ed|[]]].
        -- split; [exact H1|]. left. exact H2.
        -- split; [exact H1|]. right. left. exact H2.
        -- subst d. split; [exact Hmac|]. right. right. split; reflexivity.
      * intros [H1 [H2|[H2|[Hd _]]]].
        -- left. left. split; assumption.
        -- left. right. split; assumption.
        -- right. left. symmetry. exact Hd.
  - split; [exact N|]. intros d. rewrite M, Hin_first. split.
    + intros [[H1 H2]|[H1 H2]]; (split; [exact H1|]);
        [left; exact H2|right; left; exact H2].
    + intros [H1 [H2|[H2|[_ H2]]]].
      * left. split; assumption.
      * right. split; assumption.
      * discriminate H2.
Qed.

Close Scope string_scope.
